(** * A shallow embedding of the DSLink Python SDK

    The development follows [dslink/Node.py] (the node address space,
    its structural and value notifications, its JSON serializer),
    [dslink/DSLink.py] (authentication token, padding and connect URL)
    and [examples/LargeNodeStructure.py] (a link that builds a tree).

    Python values are rendered as follows:
    - a Python 2 [str] is a [string] (a sequence of 8-bit characters);
    - a JSON-compatible value is a [json];
    - an [OrderedDict] is an association list in insertion order; a plain
      [dict] is an association list as well, whose order stands for the
      order in which the dictionary iterates at that moment.  Python 2
      iterates a plain [dict] in hash order, which it leaves unspecified
      and which the insertion of a new key can change for every key: what
      an insertion does to the order is a parameter of the model
      ([rehash]), of which nothing is known but that it keeps the
      entries.  A key occurs at most once in either kind of dictionary;
    - a raised exception is the [Raise] outcome of a call;
    - [self.link] is the link record threaded through the calls: every
      node is taken to be attached to a link, and the messages handed to
      [self.link.wsp.sendMessage] accumulate in that record. *)

From Stdlib Require Import String Ascii List Bool Arith ZArith Lia Permutation.
From Stdlib Require Import DecimalString.
Import ListNotations.

#[local] Set Warnings "-register-all".

Local Open Scope string_scope.
Local Open Scope list_scope.

(** ** Python strings *)

Module Py.

(** [s[n:]] for a non-negative [n]. *)
Fixpoint slice_from (n : nat) (s : string) : string :=
  match n, s with
  | O, _ => s
  | S _, EmptyString => EmptyString
  | S n', String _ s' => slice_from n' s'
  end.

(** [s[:n]] for a non-negative [n]. *)
Fixpoint slice_to (n : nat) (s : string) : string :=
  match n, s with
  | O, _ => EmptyString
  | S _, EmptyString => EmptyString
  | S n', String c s' => String c (slice_to n' s')
  end.

(** [s[i:j]] for non-negative [i] and [j]. *)
Definition slice (i j : nat) (s : string) : string :=
  slice_to (j - i) (slice_from i s).

(** [s[:-n]] for a positive [n]. *)
Definition drop_last (n : nat) (s : string) : string :=
  slice_to (String.length s - n) s.

(** [s.startswith(p)]. *)
Fixpoint startswith (p s : string) : bool :=
  match p, s with
  | EmptyString, _ => true
  | String _ _, EmptyString => false
  | String a p', String b s' => Ascii.eqb a b && startswith p' s'
  end.

(** [s.endswith(p)]. *)
Definition endswith (p s : string) : bool :=
  Nat.leb (String.length p) (String.length s) &&
  String.eqb (slice_from (String.length s - String.length p) s) p.

(** [s.index(c, start)] for a one-character [c]: the least position
    [i >= start] holding [c], or nothing (Python raises [ValueError]). *)
Fixpoint find_char (c : ascii) (start : nat) (s : string) : option nat :=
  match s with
  | EmptyString => None
  | String b s' =>
      match start with
      | O => if Ascii.eqb b c then Some O
             else option_map S (find_char c O s')
      | S start' => option_map S (find_char c start' s')
      end
  end.

(** [s.replace(old, new)] scans left to right and replaces the
    occurrences of [old] that do not overlap.  [skip] counts the
    characters of a matched occurrence still to be passed over. *)
Fixpoint replace_from (old new : string) (skip : nat) (s : string) : string :=
  match s with
  | EmptyString => EmptyString
  | String c s' =>
      match skip with
      | S k => replace_from old new k s'
      | O =>
          if startswith old s
          then new ++ replace_from old new (String.length old - 1) s'
          else String c (replace_from old new O s')
      end
  end.

(** For a non-empty [old]. *)
Definition replace (old new s : string) : string :=
  replace_from old new O s.

(** [sub in s]. *)
Fixpoint contains (sub s : string) : bool :=
  startswith sub s ||
  match s with
  | EmptyString => false
  | String _ s' => contains sub s'
  end.

(** Exceptions of the Python code that the model distinguishes. *)
Inductive exn : Type :=
| KeyError
| ValueError
| TypeError
| AttributeError
| RuntimeError.

(** The outcome of a call: a returned value or a raised exception. *)
Inductive outcome (A : Type) : Type :=
| Ok (a : A)
| Raise (e : exn).

Arguments Ok {A} a.
Arguments Raise {A} e.

Definition bind {A B} (m : outcome A) (k : A -> outcome B) : outcome B :=
  match m with
  | Ok a => k a
  | Raise e => Raise e
  end.

Definition exn_eqb (a b : exn) : bool :=
  match a, b with
  | KeyError, KeyError | ValueError, ValueError | TypeError, TypeError
  | AttributeError, AttributeError | RuntimeError, RuntimeError => true
  | _, _ => false
  end.

(** [try: body except e: handler]. *)
Definition try_except {A} (body : outcome A) (e : exn) (handler : outcome A)
  : outcome A :=
  match body with
  | Ok a => Ok a
  | Raise e' => if exn_eqb e' e then handler else Raise e'
  end.

Definition raises {A} (m : outcome A) : bool :=
  match m with Ok _ => false | Raise _ => true end.

End Py.

Notation "x <- m ;; k" := (Py.bind m (fun x => k))
  (at level 61, m at next level, right associativity).

(** ** JSON values *)

Inductive json : Type :=
| JNull
| JBool (b : bool)
| JNum (z : Z)
| JStr (s : string)
| JList (l : list json)
| JDict (d : list (string * json)).

(** A dictionary with string keys. *)
Definition dict (A : Type) : Type := list (string * A).

Module Dict.

Section Ops.
Context {A : Type}.

(** [d[k]], nothing when [k] is not a key. *)
Fixpoint lookup (k : string) (d : dict A) : option A :=
  match d with
  | [] => None
  | (k', v) :: d' => if String.eqb k k' then Some v else lookup k d'
  end.

(** [k in d]. *)
Definition mem (k : string) (d : dict A) : bool :=
  match lookup k d with Some _ => true | None => false end.

(** [d[k]] as an expression: [KeyError] when [k] is not a key. *)
Definition getitem (d : dict A) (k : string) : Py.outcome A :=
  match lookup k d with
  | Some v => Py.Ok v
  | None => Py.Raise Py.KeyError
  end.

(** [d[k] = v]: the entry of an existing key is replaced where it
    stands, a new key goes to the end. *)
Fixpoint set (k : string) (v : A) (d : dict A) : dict A :=
  match d with
  | [] => [(k, v)]
  | (k', v') :: d' =>
      if String.eqb k k' then (k', v) :: d' else (k', v') :: set k v d'
  end.

(** What the insertion of a new key does to the iteration order of a
    plain [dict]: an arrangement keeps the entries and may put them in
    any order. *)
Definition arrangement (rehash : dict A -> dict A) : Prop :=
  forall d, Permutation (rehash d) d.

(** [d[k] = v] on a plain [dict]: the entry of an existing key is
    replaced where it stands; a new key is entered, and the dictionary
    iterates as [rehash] arranges it. *)
Definition insert (rehash : dict A -> dict A) (k : string) (v : A)
  (d : dict A) : dict A :=
  if mem k d then set k v d else rehash (set k v d).

(** The dictionary without the key [k]. *)
Definition remove (k : string) (d : dict A) : dict A :=
  filter (fun kv => negb (String.eqb k (fst kv))) d.

(** [del d[k]]: [KeyError] when [k] is not a key. *)
Definition delitem (d : dict A) (k : string) : Py.outcome (dict A) :=
  if mem k d then Py.Ok (remove k d) else Py.Raise Py.KeyError.

(** [d.update(e)]. *)
Definition update (d e : dict A) : dict A :=
  fold_left (fun acc kv => set (fst kv) (snd kv) acc) e d.

(** [dict(d)] of an [OrderedDict] [d]: the same entries. *)
Definition of_ordered (d : dict A) : dict A := update [] d.

Definition keys (d : dict A) : list string := map fst d.

End Ops.

End Dict.

(** Structural equality of JSON values, the [==] of the Python code. *)
Fixpoint json_eqb (a b : json) {struct a} : bool :=
  match a, b with
  | JNull, JNull => true
  | JBool x, JBool y => Bool.eqb x y
  | JNum x, JNum y => Z.eqb x y
  | JStr x, JStr y => String.eqb x y
  | JList l, JList m =>
      (fix all2 (l m : list json) {struct l} : bool :=
         match l, m with
         | [], [] => true
         | x :: l', y :: m' => json_eqb x y && all2 l' m'
         | _, _ => false
         end) l m
  | JDict d, JDict e =>
      (fix all2 (d e : list (string * json)) {struct d} : bool :=
         match d, e with
         | [], [] => true
         | (k, x) :: d', (k', y) :: e' =>
             String.eqb k k' && json_eqb x y && all2 d' e'
         | _, _ => false
         end) d e
  | _, _ => false
  end.

(** ** Typed values *)

(** A [datetime], known through its ISO-8601 rendering. *)
Record datetime : Type := mkDatetime { isoformat : string }.

Module Value.

(** Modelled from the spec: the class [Value] of [dslink/Value.py], which
    is not among the sources.  Section 3 of the specification describes a
    typed value as a declared type tag together with a raw value and the
    timestamp of its last assignment, the two being present exactly when a
    value has been assigned. *)
Record t : Type := mk {
  type : option json;
  held : option (json * datetime)
}.

Definition empty : t := mk None None.

(** [has_value()] is true iff a value has ever been assigned. *)
Definition has_value (v : t) : bool :=
  match held v with Some _ => true | None => false end.

(** [set_type(t)] records the declared type. *)
Definition set_type (ty : json) (v : t) : t := mk (Some ty) (held v).

(** Whether assigning [x] changes the value held by [v]. *)
Definition changes (x : json) (v : t) : bool :=
  match held v with
  | Some (y, _) => negb (json_eqb y x)
  | None => true
  end.

(** [set_value(x)] compares [x] against the value held and replaces it:
    it returns whether the value actually changed, and only then stamps
    the assignment with the current time [now]. *)
Definition set_value (x : json) (now : datetime) (v : t) : bool * t :=
  if changes x v then (true, mk (type v) (Some (x, now))) else (false, v).

End Value.

(** ** SHA-256 and URL-safe Base64

    [hashlib.sha256] and [base64.urlsafe_b64encode] belong to the Python
    standard library; they are written out here (FIPS 180-4, RFC 4648
    section 5) so that a token is a value that can be computed. *)

Module Crypto.

Local Open Scope Z_scope.

(** A byte string as the list of its byte values. *)
Definition bytes_of_string (s : string) : list Z :=
  map (fun c => Z.of_nat (nat_of_ascii c)) (list_ascii_of_string s).

Definition string_of_bytes (l : list Z) : string :=
  string_of_list_ascii (map (fun b => ascii_of_nat (Z.to_nat b)) l).

Definition w32 (x : Z) : Z := x mod 2 ^ 32.

Definition add32 (x y : Z) : Z := w32 (x + y).

Definition rotr (n x : Z) : Z :=
  Z.lor (Z.shiftr x n) (w32 (Z.shiftl x (32 - n))).

Definition Ch (x y z : Z) : Z :=
  Z.lxor (Z.land x y) (Z.land (w32 (Z.lnot x)) z).

Definition Maj (x y z : Z) : Z :=
  Z.lxor (Z.lxor (Z.land x y) (Z.land x z)) (Z.land y z).

Definition Sigma0 (x : Z) : Z :=
  Z.lxor (Z.lxor (rotr 2 x) (rotr 13 x)) (rotr 22 x).

Definition Sigma1 (x : Z) : Z :=
  Z.lxor (Z.lxor (rotr 6 x) (rotr 11 x)) (rotr 25 x).

Definition sigma0 (x : Z) : Z :=
  Z.lxor (Z.lxor (rotr 7 x) (rotr 18 x)) (Z.shiftr x 3).

Definition sigma1 (x : Z) : Z :=
  Z.lxor (Z.lxor (rotr 17 x) (rotr 19 x)) (Z.shiftr x 10).

(** The sixty-four constants of FIPS 180-4, section 4.2.2. *)
Definition K : list Z :=
  [ 1116352408; 1899447441; 3049323471; 3921009573;
    961987163; 1508970993; 2453635748; 2870763221;
    3624381080; 310598401; 607225278; 1426881987;
    1925078388; 2162078206; 2614888103; 3248222580;
    3835390401; 4022224774; 264347078; 604807628;
    770255983; 1249150122; 1555081692; 1996064986;
    2554220882; 2821834349; 2952996808; 3210313671;
    3336571891; 3584528711; 113926993; 338241895;
    666307205; 773529912; 1294757372; 1396182291;
    1695183700; 1986661051; 2177026350; 2456956037;
    2730485921; 2820302411; 3259730800; 3345764771;
    3516065817; 3600352804; 4094571909; 275423344;
    430227734; 506948616; 659060556; 883997877;
    958139571; 1322822218; 1537002063; 1747873779;
    1955562222; 2024104815; 2227730452; 2361852424;
    2428436474; 2756734187; 3204031479; 3329325298 ].

(** The eight working variables, and the hash value between blocks. *)
Record regs : Type := mkRegs {
  ra : Z; rb : Z; rc : Z; rd : Z; re : Z; rf : Z; rg : Z; rh : Z
}.

Definition H0 : regs :=
  mkRegs 1779033703 3144134277 1013904242 2773480762
         1359893119 2600822924 528734635 1541459225.

(** The message with its padding: a one bit, zeros up to 56 modulo 64
    bytes, and the bit length on eight bytes. *)
Definition be64 (x : Z) : list Z :=
  map (fun i => Z.shiftr x (8 * i) mod 256) [7; 6; 5; 4; 3; 2; 1; 0].

Definition be32 (x : Z) : list Z :=
  map (fun i => Z.shiftr x (8 * i) mod 256) [3; 2; 1; 0].

Definition pad (msg : list Z) : list Z :=
  let l := Z.of_nat (List.length msg) in
  msg ++ [128] ++ repeat 0 (Z.to_nat ((55 - l) mod 64)) ++ be64 (8 * l).

(** Big-endian words of a byte sequence. *)
Fixpoint words (bytes : list Z) : list Z :=
  match bytes with
  | b3 :: b2 :: b1 :: b0 :: rest =>
      (((b3 * 256 + b2) * 256 + b1) * 256 + b0) :: words rest
  | _ => []
  end.

(** One round per constant.  [w] holds the sixteen words of the message
    schedule from the current one on. *)
Fixpoint rounds (ks : list Z) (w : list Z) (r : regs) : regs :=
  match ks with
  | [] => r
  | k :: ks' =>
      let wt := nth 0 w 0 in
      let t1 := add32 (add32 (add32 (add32 (rh r) (Sigma1 (re r)))
                                    (Ch (re r) (rf r) (rg r))) k) wt in
      let t2 := add32 (Sigma0 (ra r)) (Maj (ra r) (rb r) (rc r)) in
      let next :=
        add32 (add32 (add32 (sigma1 (nth 14 w 0)) (nth 9 w 0))
                     (sigma0 (nth 1 w 0))) wt in
      rounds ks' (tl w ++ [next])
        (mkRegs (add32 t1 t2) (ra r) (rb r) (rc r)
                (add32 (rd r) t1) (re r) (rf r) (rg r))
  end.

Definition compress (h : regs) (block : list Z) : regs :=
  let r := rounds K block h in
  mkRegs (add32 (ra h) (ra r)) (add32 (rb h) (rb r))
         (add32 (rc h) (rc r)) (add32 (rd h) (rd r))
         (add32 (re h) (re r)) (add32 (rf h) (rf r))
         (add32 (rg h) (rg r)) (add32 (rh h) (rh r)).

(** The blocks of sixteen words, one after the other. *)
Fixpoint blocks (n : nat) (ws : list Z) (h : regs) : regs :=
  match n with
  | O => h
  | S n' => blocks n' (skipn 16 ws) (compress h (firstn 16 ws))
  end.

Definition digest_bytes (msg : list Z) : list Z :=
  let ws := words (pad msg) in
  let h := blocks (List.length ws / 16) ws H0 in
  be32 (ra h) ++ be32 (rb h) ++ be32 (rc h) ++ be32 (rd h) ++
  be32 (re h) ++ be32 (rf h) ++ be32 (rg h) ++ be32 (rh h).

(** [hashlib.sha256(s).digest()]. *)
Definition sha256 (s : string) : string :=
  string_of_bytes (digest_bytes (bytes_of_string s)).

Definition hex_digit (d : Z) : ascii :=
  ascii_of_nat (Z.to_nat (if d <? 10 then 48 + d else 87 + d)).

(** [s.encode("hex")]. *)
Definition hex (s : string) : string :=
  string_of_list_ascii
    (flat_map (fun b => [hex_digit (b / 16); hex_digit (b mod 16)])
       (bytes_of_string s)).

(** The alphabet of RFC 4648 section 5. *)
Definition b64url_char (d : Z) : ascii :=
  ascii_of_nat (Z.to_nat
    (if d <? 26 then 65 + d
     else if d <? 52 then 97 + (d - 26)
     else if d <? 62 then 48 + (d - 52)
     else if d =? 62 then 45
     else 95)).

Definition pad_char : ascii := "="%char.

Fixpoint b64url (bytes : list Z) : list ascii :=
  match bytes with
  | [] => []
  | [b0] =>
      [b64url_char (b0 / 4); b64url_char (b0 mod 4 * 16); pad_char; pad_char]
  | [b0; b1] =>
      [b64url_char (b0 / 4); b64url_char (b0 mod 4 * 16 + b1 / 16);
       b64url_char (b1 mod 16 * 4); pad_char]
  | b0 :: b1 :: b2 :: rest =>
      b64url_char (b0 / 4) :: b64url_char (b0 mod 4 * 16 + b1 / 16) ::
      b64url_char (b1 mod 16 * 4 + b2 / 64) :: b64url_char (b2 mod 64) ::
      b64url rest
  end.

(** [base64.urlsafe_b64encode(s)]. *)
Definition urlsafe_b64encode (s : string) : string :=
  string_of_list_ascii (b64url (bytes_of_string s)).

End Crypto.

(** ** The link as the nodes see it *)

Module DSLink.

(** The fields of [self.config] that [get_url] reads. *)
Record Configuration : Type := mkConfiguration {
  broker : string;
  token : option string
}.

(** The broker's answer to the handshake, of which [get_auth] reads the
    salt. *)
Record ServerConfig : Type := mkServerConfig { salt : string }.

(** Modelled from the spec: a call into the callback registry, which is
    not among the sources (section 6): the legacy [set_value_callback] of
    a node, and [run_set_callback] of the profile found for the node.  A
    call is recorded with the path of the node and the value handed
    over. *)
Inductive call : Type :=
| SetValueCallback (node : string) (value : json)
| RunSetCallback (profile : json) (node : string) (value : json).

Record t : Type := mk {
  active : bool;
  needs_auth : bool;
  nodes_changed : bool;
  config : Configuration;
  server_config : option ServerConfig;
  shared_secret : string;
  dsid : string;
  (** the messages handed to [wsp.sendMessage], oldest first *)
  wsp : list json;
  (** the profiles that [profile_manager] knows *)
  profile_manager : list json;
  (** the callbacks run so far, oldest first *)
  calls : list call
}.

Definition with_nodes_changed (b : bool) (l : t) : t :=
  mk (active l) (needs_auth l) b (config l) (server_config l)
     (shared_secret l) (dsid l) (wsp l) (profile_manager l) (calls l).

(** Modelled from the spec: [self.wsp.sendMessage(msg)], of the transport
    handle that [dslink/WebSocket.py] provides and that is not among the
    sources; section 6 has it take one JSON object, fire and forget. *)
Definition sendMessage (msg : json) (l : t) : t :=
  mk (active l) (needs_auth l) (nodes_changed l) (config l) (server_config l)
     (shared_secret l) (dsid l) (wsp l ++ [msg]) (profile_manager l) (calls l).

Definition record_call (c : call) (l : t) : t :=
  mk (active l) (needs_auth l) (nodes_changed l) (config l) (server_config l)
     (shared_secret l) (dsid l) (wsp l) (profile_manager l) (calls l ++ [c]).

(** Modelled from the spec: [profile_manager.get_profile], of a registry
    that is not among the sources; section 6 has it fail with a lookup
    error ([ValueError] is what [Node] catches) for an unknown profile. *)
Definition get_profile (name : json) (l : t) : Py.outcome json :=
  if existsb (json_eqb name) (profile_manager l)
  then Py.Ok name else Py.Raise Py.ValueError.

(** [get_auth()].  [server_config] is [None] until the handshake has
    answered, and subscripting [None] is a [TypeError]. *)
Definition get_auth (self : t) : Py.outcome string :=
  match server_config self with
  | None => Py.Raise Py.TypeError
  | Some sc =>
      let auth := (salt sc ++ shared_secret self)%string in
      let auth :=
        Py.replace "=" "" (Crypto.urlsafe_b64encode (Crypto.sha256 auth)) in
      Py.Ok auth
  end.

Section Url.

(** [urlparse] of the standard library, of whose result [get_url] reads
    the port, and [Configuration.token_hash], which is not among the
    sources.  Both [urlparse(uri)] and [url.port] can raise: the parser
    raises [ValueError] for a network location with unbalanced brackets
    and for a port that is not a number. *)
Variable ParseResult : Type.
Variable urlparse : string -> Py.outcome ParseResult.
Variable port : ParseResult -> Py.outcome (option Z).
Variable token_hash : string -> option string -> option string.

(** [get_url()]. *)
Definition get_url (self : t) : Py.outcome (string * ParseResult * Z) :=
  let websocket_uri :=
    (Py.replace "http" "ws" (Py.drop_last 5 (broker (config self)))
     ++ "/ws?dsId=" ++ dsid self)%string in
  websocket_uri <-
    (if needs_auth self
     then auth <- get_auth self ;;
          Py.Ok (websocket_uri ++ "&auth=" ++ auth)%string
     else Py.Ok websocket_uri) ;;
  let token := token_hash (dsid self) (token (config self)) in
  let websocket_uri :=
    match token with
    | Some tk => (websocket_uri ++ tk)%string
    | None => websocket_uri
    end in
  url <- urlparse websocket_uri ;;
  explicit <- port url ;;
  let port := match explicit with None => 80%Z | Some p => p end in
  Py.Ok (websocket_uri, url, port).

End Url.

(** The loop of [add_padding]: while the length is not a multiple of
    four, one padding character is appended.  [turns] bounds the number of
    turns. *)
Fixpoint add_padding_loop (turns : nat) (s : string) : string :=
  if Nat.eqb (String.length s mod 4) 0 then s
  else
    match turns with
    | O => s
    | S turns' => add_padding_loop turns' (s ++ "=")
    end.

(** [add_padding(string)].  Three turns are enough for any string. *)
Definition add_padding (s : string) : string := add_padding_loop 3 s.

End DSLink.

(** ** Nodes *)

Module Node.

Import Py.

(** A node owns its children, so the tree of nodes is an inductive type.
    [parent] is a back-reference that the class reads at construction
    only (for the path and the link); it is an argument of [init] and not
    a field here.  [set_value_callback] tells whether a callable has been
    installed. *)
Inductive t : Type := mk {
  name : string;
  path : string;
  standalone : bool;
  transient : bool;
  value : Value.t;
  children : dict t;
  config : dict json;
  attributes : dict json;
  subscribers : list Z;
  streams : list Z;
  removed_children : list t;
  set_value_callback : bool
}.

Definition with_transient (b : bool) (n : t) : t :=
  mk (name n) (path n) (standalone n) b (value n) (children n) (config n)
     (attributes n) (subscribers n) (streams n) (removed_children n)
     (set_value_callback n).

Definition with_value (v : Value.t) (n : t) : t :=
  mk (name n) (path n) (standalone n) (transient n) v (children n) (config n)
     (attributes n) (subscribers n) (streams n) (removed_children n)
     (set_value_callback n).

Definition with_children (c : dict t) (n : t) : t :=
  mk (name n) (path n) (standalone n) (transient n) (value n) c (config n)
     (attributes n) (subscribers n) (streams n) (removed_children n)
     (set_value_callback n).

Definition with_config (c : dict json) (n : t) : t :=
  mk (name n) (path n) (standalone n) (transient n) (value n) (children n) c
     (attributes n) (subscribers n) (streams n) (removed_children n)
     (set_value_callback n).

Definition with_attributes (a : dict json) (n : t) : t :=
  mk (name n) (path n) (standalone n) (transient n) (value n) (children n)
     (config n) a (subscribers n) (streams n) (removed_children n)
     (set_value_callback n).

Definition with_subscribers (s : list Z) (n : t) : t :=
  mk (name n) (path n) (standalone n) (transient n) (value n) (children n)
     (config n) (attributes n) s (streams n) (removed_children n)
     (set_value_callback n).

Definition with_removed_children (r : list t) (n : t) : t :=
  mk (name n) (path n) (standalone n) (transient n) (value n) (children n)
     (config n) (attributes n) (subscribers n) (streams n) r
     (set_value_callback n).

(** The state of a fresh node. *)
Definition fresh (name path : string) (standalone : bool) : t :=
  mk name path standalone false Value.empty [] [("$is", JStr "node")] []
     [] [] [] false.

(** [Node(name, parent, standalone)].  [name] is [None] for an unnamed
    root; under a parent, concatenating [None] is a [TypeError]. *)
Definition init (name : option string) (parent : option t)
  (standalone : bool) : outcome t :=
  match parent with
  | Some p =>
      match name with
      | Some nm =>
          if endswith "/" (path p)
          then Ok (fresh nm (path p ++ nm) standalone)
          else Ok (fresh nm (path p ++ "/" ++ nm) standalone)
      | None => Raise TypeError
      end
  | None =>
      match name with
      | Some nm => Ok (fresh nm ("/" ++ nm) standalone)
      | None => Ok (fresh "" "" standalone)
      end
  end.

Definition get_config (key : string) (self : t) : outcome json :=
  Dict.getitem (config self) key.

Definition get_attribute (key : string) (self : t) : outcome json :=
  Dict.getitem (attributes self) key.

Definition get_type (self : t) : outcome json := get_config "$type" self.

(** The descriptor of a child in a structural batch. *)
Definition child_descriptor (child : t) : dict json :=
  let val :=
    match Value.held (value child) with
    | Some (v, updated_at) => [("value", v); ("ts", JStr (isoformat updated_at))]
    | None => []
    end in
  let i := Dict.of_ordered (config child) in
  let i := Dict.update i (attributes child) in
  Dict.update i val.

Definition tombstone (child : t) : json :=
  JDict [("name", JStr (name child)); ("change", JStr "remove")].

(** [stream()]: the structural batch of the node.  Each loop appends to
    [out]; the last one also marks the link, and the tombstone list is
    emptied before returning. *)
Definition stream (self : t) (link : DSLink.t) : list json * t * DSLink.t :=
  let out := [] in
  let out :=
    fold_left (fun out c => out ++ [JList [JStr (fst c); snd c]])
      (config self) out in
  let out :=
    fold_left (fun out a => out ++ [JList [JStr (fst a); snd a]])
      (attributes self) out in
  let out :=
    fold_left
      (fun out kc =>
         let child := snd kc in
         out ++ [JList [JStr (name child); JDict (child_descriptor child)]])
      (children self) out in
  let '(out, link) :=
    fold_left
      (fun '(out, link) child =>
         (out ++ [tombstone child], DSLink.with_nodes_changed true link))
      (removed_children self) (out, link) in
  (out, with_removed_children [] self, link).

(** Modelled from the spec: [Response(...).get_stream()], of
    [dslink/Response.py], which is not among the sources; section 6 gives
    the stream-update response as the mapping of [rid], [stream] and
    [updates]. *)
Definition stream_response (rid : Z) (updates : list json) : json :=
  JDict [("rid", JNum rid); ("stream", JStr "open"); ("updates", JList updates)].

(** [update_subscribers()]: one response per open stream, each built by
    its own call of [stream()], and one message if there is a response. *)
Definition update_subscribers (self : t) (link : DSLink.t) : t * DSLink.t :=
  let '(responses, self, link) :=
    fold_left
      (fun '(responses, self, link) stream_id =>
         let '(updates, self, link) := stream self link in
         (responses ++ [stream_response stream_id updates], self, link))
      (streams self) ([], self, link) in
  match responses with
  | [] => (self, link)
  | _ :: _ =>
      (self, DSLink.sendMessage (JDict [("responses", JList responses)]) link)
  end.

(** [update_subscribers_values()]. *)
Definition update_subscribers_values (self : t) (link : DSLink.t) : DSLink.t :=
  match Value.held (value self) with
  | Some (v, updated_at) =>
      let responses :=
        fold_left
          (fun responses s =>
             responses ++
             [JDict [("rid", JNum 0);
                     ("updates",
                      JList [JList [JNum s; v; JStr (isoformat updated_at)]])]])
          (subscribers self) [] in
      match responses with
      | [] => link
      | _ :: _ => DSLink.sendMessage (JDict [("responses", JList responses)]) link
      end
  | None => link
  end.

Definition set_config (key : string) (v : json) (self : t) (link : DSLink.t)
  : t * DSLink.t :=
  let link := DSLink.with_nodes_changed true link in
  let self := with_config (Dict.set key v (config self)) self in
  update_subscribers self link.

Definition set_attribute (key : string) (v : json) (self : t) (link : DSLink.t)
  : t * DSLink.t :=
  let link := DSLink.with_nodes_changed true link in
  let self := with_attributes (Dict.set key v (attributes self)) self in
  update_subscribers self link.

Definition set_type (ty : json) (self : t) (link : DSLink.t) : t * DSLink.t :=
  let self := with_value (Value.set_type ty (value self)) self in
  set_config "$type" ty self link.

(** [set_value(value, trigger_callback)], the clock reading [now]. *)
Definition set_value (v : json) (trigger_callback : bool) (now : datetime)
  (self : t) (link : DSLink.t) : outcome bool * t * DSLink.t :=
  let '(i, val) := Value.set_value v now (value self) in
  let self := with_value val self in
  if i && (negb (standalone self) || DSLink.active link) then
    let link := update_subscribers_values self link in
    if trigger_callback then
      let link :=
        if set_value_callback self
        then DSLink.record_call (DSLink.SetValueCallback (path self) v) link
        else link in
      match get_config "$is" self with
      | Raise e => (Raise e, self, link)
      | Ok profile =>
          match DSLink.get_profile profile link with
          | Ok p =>
              (Ok i, self,
               DSLink.record_call (DSLink.RunSetCallback p (path self) v) link)
          | Raise ValueError => (Ok i, self, link)
          | Raise e => (Raise e, self, link)
          end
      end
    else (Ok i, self, link)
  else (Ok i, self, link).

(** [set_transient(transient)]. *)
Definition set_transient (transient : json) (self : t) : outcome unit * t :=
  match transient with
  | JBool b => (Ok tt, with_transient b self)
  | _ => (Raise TypeError, self)
  end.

(** [isinstance(x, basestring)]. *)
Definition is_string (x : json) : bool :=
  match x with JStr _ => true | _ => false end.

Definition is_list (x : json) : bool :=
  match x with JList _ => true | _ => false end.

Definition set_display_name (nm : json) (self : t) (link : DSLink.t)
  : outcome unit * t * DSLink.t :=
  if is_string nm then
    let '(self, link) := set_config "$name" nm self link in
    let '(self, link) := update_subscribers self link in
    (Ok tt, self, link)
  else (Raise ValueError, self, link).

Definition set_invokable (invokable : json) (self : t) (link : DSLink.t)
  : outcome unit * t * DSLink.t :=
  match invokable with
  | JStr _ =>
      let '(self, link) := set_config "$invokable" invokable self link in
      (Ok tt, self, link)
  | JBool true =>
      let '(self, link) := set_config "$invokable" (JStr "read") self link in
      (Ok tt, self, link)
  | _ => (Raise ValueError, self, link)
  end.

Definition set_parameters (parameters : json) (self : t) (link : DSLink.t)
  : outcome unit * t * DSLink.t :=
  if is_list parameters then
    let '(self, link) := set_config "$params" parameters self link in
    (Ok tt, self, link)
  else (Raise ValueError, self, link).

Definition set_columns (columns : json) (self : t) (link : DSLink.t)
  : outcome unit * t * DSLink.t :=
  if is_list columns then
    let '(self, link) := set_config "$columns" columns self link in
    (Ok tt, self, link)
  else (Raise ValueError, self, link).

Definition set_profile (profile : json) (self : t) (link : DSLink.t)
  : outcome unit * t * DSLink.t :=
  if is_string profile then
    let '(self, link) := set_config "$is" profile self link in
    (Ok tt, self, link)
  else (Raise ValueError, self, link).

Definition set_writable (permission : json) (self : t) (link : DSLink.t)
  : outcome unit * t * DSLink.t :=
  if is_string permission then
    let '(self, link) := set_config "$writable" permission self link in
    (Ok tt, self, link)
  else (Raise ValueError, self, link).

(** [add_child(child)].  [children] is a plain [dict]: [rehash] is what
    this insertion does to its iteration order. *)
Definition add_child (rehash : dict t -> dict t) (child : t) (self : t)
  (link : DSLink.t) : outcome unit * t * DSLink.t :=
  if Dict.mem (name child) (children self) then (Raise ValueError, self, link)
  else
    let self :=
      with_children
        (Dict.insert rehash (name child) child (children self)) self in
    let link := DSLink.with_nodes_changed true link in
    if standalone self || DSLink.active link then
      let '(self, link) := update_subscribers self link in
      (Ok tt, self, link)
    else (Ok tt, self, link).

(** [remove_child(name)]. *)
Definition remove_child (nm : string) (self : t) (link : DSLink.t)
  : bool * t * DSLink.t :=
  match Dict.lookup nm (children self) with
  | None => (false, self, link)
  | Some child =>
      let self :=
        with_removed_children (removed_children self ++ [child])
          (with_children (Dict.remove nm (children self)) self) in
      let '(self, link) := update_subscribers self link in
      (true, self, link)
  end.

Definition has_child (nm : string) (self : t) : bool :=
  Dict.mem nm (children self).

(** [get(path)], together with the names of the children walked through
    to reach the node returned: Python returns a reference into the tree,
    and the names say where in the tree it points.  The recursion is on a
    strictly shorter path each time, so [fuel] only has to bound the
    length of the path. *)
Fixpoint resolve (fuel : nat) (self : t) (path : string)
  : outcome (option (list string * t)) :=
  if String.eqb path "/" then Ok (Some ([], self))
  else if startswith "/$" path then Ok (Some ([], self))
  else if startswith "/@" path then Ok (Some ([], self))
  else
    try_except
      (try_except
         (match find_char "/" 2 path with
          | None => Raise ValueError
          | Some i =>
              let child := slice 1 i path in
              c <- Dict.getitem (children self) child ;;
              match fuel with
              | O => Raise RuntimeError
              | S fuel' =>
                  r <- resolve fuel' c (slice_from i path) ;;
                  Ok (option_map (fun am => (child :: fst am, snd am)) r)
              end
          end)
         ValueError
         (let child := slice_from 1 path in
          c <- Dict.getitem (children self) child ;;
          Ok (Some ([child], c))))
      KeyError
      (Ok None).

(** [get(path)]: the node, or [None] after the warning is logged. *)
Definition get (self : t) (path : string) : outcome (option t) :=
  r <- resolve (String.length path) self path ;;
  Ok (option_map snd r).

(** The tree [self] with the node [m] put where the names [addr] lead. *)
Fixpoint put_at (addr : list string) (m : t) (self : t) : t :=
  match addr with
  | [] => m
  | k :: addr' =>
      match Dict.lookup k (children self) with
      | Some c => with_children (Dict.set k (put_at addr' m c) (children self)) self
      | None => self
      end
  end.

(** [set_config_attr(path, value)].  The call on the node that [get]
    returns changes that node where it stands in the tree.  [limit] is
    the depth of recursion the interpreter allows. *)
Fixpoint set_config_attr (limit : nat) (p : string) (v : json)
  (now : datetime) (self : t) (link : DSLink.t)
  : outcome unit * t * DSLink.t :=
  if String.eqb p "/" || String.eqb p (path self) then
    let '(r, self, link) := set_value v true now self link in
    (_ <- r ;; Ok tt, self, link)
  else if startswith "/$" p || startswith (path self ++ "/$") p then
    let '(self, link) := set_config (slice_from 2 p) v self link in
    (Ok tt, self, link)
  else if startswith "/@" p || startswith (path self ++ "/@") p then
    let '(self, link) := set_attribute (slice_from 2 p) v self link in
    (Ok tt, self, link)
  else
    match resolve (String.length p) self p with
    | Raise e => (Raise e, self, link)
    | Ok None => (Ok tt, self, link)
    | Ok (Some (addr, node)) =>
        match limit with
        | O => (Raise RuntimeError, self, link)
        | S limit' =>
            let '(r, node, link) := set_config_attr limit' p v now node link in
            (r, put_at addr node self, link)
        end
    end.

(** [remove_config_attr(path)].  Both prefixes delete from [config]. *)
Fixpoint remove_config_attr (limit : nat) (p : string) (self : t)
  : outcome unit * t :=
  if startswith "/$" p || startswith (path self ++ "/$") p then
    match Dict.delitem (config self) (slice_from 2 p) with
    | Ok c => (Ok tt, with_config c self)
    | Raise e => (Raise e, self)
    end
  else if startswith "/@" p || startswith (path self ++ "/@") p then
    match Dict.delitem (config self) (slice_from 2 p) with
    | Ok c => (Ok tt, with_config c self)
    | Raise e => (Raise e, self)
    end
  else
    match resolve (String.length p) self p with
    | Raise e => (Raise e, self)
    | Ok None => (Raise AttributeError, self)
    | Ok (Some (addr, node)) =>
        match limit with
        | O => (Raise RuntimeError, self)
        | S limit' =>
            let '(r, node) := remove_config_attr limit' p node in
            (r, put_at addr node self)
        end
    end.

Definition is_subscribed (self : t) : bool :=
  negb (Nat.eqb (List.length (subscribers self)) 0).

(** [add_subscriber(sid)]. *)
Definition add_subscriber (sid : Z) (self : t) (link : DSLink.t)
  : t * DSLink.t :=
  let self := with_subscribers (subscribers self ++ [sid]) self in
  (self, update_subscribers_values self link).

(** [list.remove(x)]: without the first [x]; nothing when [x] is absent. *)
Fixpoint list_remove (x : Z) (l : list Z) : option (list Z) :=
  match l with
  | [] => None
  | y :: l' =>
      if Z.eqb x y then Some l'
      else option_map (cons y) (list_remove x l')
  end.

(** [remove_subscriber(sid)]. *)
Definition remove_subscriber (sid : Z) (self : t) : outcome unit * t :=
  match list_remove sid (subscribers self) with
  | Some s => (Ok tt, with_subscribers s self)
  | None => (Raise ValueError, self)
  end.

(** [to_json()]. *)
Fixpoint to_json (self : t) : dict json :=
  let out := [] in
  let out :=
    fold_left (fun out kv => Dict.set (fst kv) (snd kv) out) (config self) out in
  let out :=
    fold_left (fun out kv => Dict.set (fst kv) (snd kv) out) (attributes self) out in
  fold_left
    (fun out kc =>
       if transient (snd kc) then out
       else Dict.set (fst kc) (JDict (to_json (snd kc))) out)
    (children self) out.

Section Props.

(** What an insertion does to the iteration order of [children]. *)
Variable rehash : dict t -> dict t.

(** The call of [Node.from_json] on a nested object. *)
Variable from_json :
  json -> option t -> option string -> DSLink.t -> outcome t * DSLink.t.

(** The loop of [from_json] over the properties of the object. *)
Fixpoint from_json_props (items : list (string * json)) (node : t)
  (link : DSLink.t) {struct items} : outcome t * DSLink.t :=
  match items with
  | [] => (Ok node, link)
  | (prop, v) :: items' =>
      if startswith "$" prop then
        if String.eqb prop "$type" then
          let '(node, link) := set_type v node link in
          from_json_props items' node link
        else
          let '(node, link) := set_config prop v node link in
          from_json_props items' node link
      else if startswith "@" prop then
        let '(node, link) := set_attribute prop v node link in
        from_json_props items' node link
      else
        match from_json v (Some node) (Some prop) link with
        | (Raise e, link) => (Raise e, link)
        | (Ok child, link) =>
            match add_child rehash child node link with
            | (Raise e, _, link) => (Raise e, link)
            | (Ok _, node, link) => from_json_props items' node link
            end
        end
  end.

End Props.

(** [from_json(obj, root, name, link)].  The link is the one threaded
    through, so the assignment of [node.link] leaves nothing to do. *)
Fixpoint from_json (rehash : dict t -> dict t) (obj : json)
  (root : option t) (nm : option string) (link : DSLink.t) {struct obj}
  : outcome t * DSLink.t :=
  match init nm root false with
  | Raise e => (Raise e, link)
  | Ok node =>
      match obj with
      | JDict d => from_json_props rehash (from_json rehash) d node link
      | _ => (Ok node, link)
      end
  end.

(** A call of a method that can change a node, with its arguments. *)
Inductive method : Type :=
| Set_type (ty : json)
| Set_value (v : json) (trigger_callback : bool) (now : datetime)
| Set_config (key : string) (v : json)
| Set_attribute (key : string) (v : json)
| Set_transient (transient : json)
| Set_display_name (nm : json)
| Set_invokable (invokable : json)
| Set_parameters (parameters : json)
| Set_columns (columns : json)
| Set_profile (profile : json)
| Set_writable (permission : json)
| Stream
| Add_child (rehash : dict t -> dict t) (child : t)
| Remove_child (nm : string)
| Set_config_attr (limit : nat) (p : string) (v : json) (now : datetime)
| Remove_config_attr (limit : nat) (p : string)
| Update_subscribers
| Update_subscribers_values
| Add_subscriber (sid : Z)
| Remove_subscriber (sid : Z).

(** The node and the link after the call, returned or raised. *)
Definition after (m : method) (self : t) (link : DSLink.t) : t * DSLink.t :=
  match m with
  | Set_type ty => set_type ty self link
  | Set_value v tc now =>
      let '(_, self, link) := set_value v tc now self link in (self, link)
  | Set_config key v => set_config key v self link
  | Set_attribute key v => set_attribute key v self link
  | Set_transient b => (snd (set_transient b self), link)
  | Set_display_name nm =>
      let '(_, self, link) := set_display_name nm self link in (self, link)
  | Set_invokable i =>
      let '(_, self, link) := set_invokable i self link in (self, link)
  | Set_parameters ps =>
      let '(_, self, link) := set_parameters ps self link in (self, link)
  | Set_columns cs =>
      let '(_, self, link) := set_columns cs self link in (self, link)
  | Set_profile pr =>
      let '(_, self, link) := set_profile pr self link in (self, link)
  | Set_writable pm =>
      let '(_, self, link) := set_writable pm self link in (self, link)
  | Stream => let '(_, self, link) := stream self link in (self, link)
  | Add_child rehash child =>
      let '(_, self, link) := add_child rehash child self link in (self, link)
  | Remove_child nm =>
      let '(_, self, link) := remove_child nm self link in (self, link)
  | Set_config_attr limit p v now =>
      let '(_, self, link) := set_config_attr limit p v now self link in
      (self, link)
  | Remove_config_attr limit p => (snd (remove_config_attr limit p self), link)
  | Update_subscribers => update_subscribers self link
  | Update_subscribers_values => (self, update_subscribers_values self link)
  | Add_subscriber sid => add_subscriber sid self link
  | Remove_subscriber sid => (snd (remove_subscriber sid self), link)
  end.


(** The part of a structural batch that lists what is alive: the config
    entries, the attribute entries and the children. *)
Definition live_updates (self : t) : list json :=
  map (fun c => JList [JStr (fst c); snd c]) (config self) ++
  map (fun a => JList [JStr (fst a); snd a]) (attributes self) ++
  map (fun kc => JList [JStr (name (snd kc)); JDict (child_descriptor (snd kc))])
    (children self).

(** Whether an update of a batch is a removal. *)
Definition is_tombstone (u : json) : bool :=
  match u with
  | JDict d =>
      match Dict.lookup "change" d with
      | Some (JStr "remove") => true
      | _ => false
      end
  | _ => false
  end.

Section Invoke.

(** [run_callback] of the profile found, of a registry that is not among
    the sources: it is handed the node and the parameters, runs code of
    the author of the link, and returns the rows of the result or
    raises. *)
Variable run_callback :
  json -> t -> json -> DSLink.t -> outcome json * t * DSLink.t.

(** [invoke(params)]: the columns and what the callback returns; the
    pair of two empty lists when a [ValueError] is raised on the way. *)
Definition invoke (params : json) (self : t) (link : DSLink.t)
  : outcome (json * json) * t * DSLink.t :=
  let '(r, self, link) :=
    match
      (if Dict.mem "$columns" (config self)
       then Dict.getitem (config self) "$columns" else Ok (JList []))
    with
    | Raise e => (Raise e, self, link)
    | Ok columns =>
        match get_config "$is" self with
        | Raise e => (Raise e, self, link)
        | Ok profile_name =>
            match DSLink.get_profile profile_name link with
            | Raise e => (Raise e, self, link)
            | Ok profile =>
                let '(r, self, link) := run_callback profile self params link in
                (rows <- r ;; Ok (columns, rows), self, link)
            end
        end
    end in
  (try_except r ValueError (Ok (JList [], JList [])), self, link).

End Invoke.

End Node.

(** ** The example link of [examples/LargeNodeStructure.py] *)

Module LargeNodeStructure.

Import Py.

(** ["Test%i" % x]. *)
Definition test_name (x : nat) : string :=
  ("Test" ++ NilZero.string_of_uint (Nat.to_uint x))%string.

Section Start.

(** What an insertion does to the iteration order of the children of a
    node. *)
Variable rehash : dict Node.t -> dict Node.t.

(** The inner loop of [start]: a child of [first] per [y]. *)
Fixpoint add_seconds (ys : list nat) (first : Node.t) (link : DSLink.t)
  : outcome unit * Node.t * DSLink.t :=
  match ys with
  | [] => (Ok tt, first, link)
  | y :: ys' =>
      match Node.init (Some (test_name y)) (Some first) false with
      | Raise e => (Raise e, first, link)
      | Ok second =>
          match Node.add_child rehash second first link with
          | (Raise e, first, link) => (Raise e, first, link)
          | (Ok _, first, link) => add_seconds ys' first link
          end
      end
  end.

(** The outer loop of [start]: a child of the super root per [x], added
    once its own children are in place. *)
Fixpoint add_firsts (xs : list nat) (super_root : Node.t) (link : DSLink.t)
  : outcome unit * Node.t * DSLink.t :=
  match xs with
  | [] => (Ok tt, super_root, link)
  | x :: xs' =>
      match Node.init (Some (test_name x)) (Some super_root) false with
      | Raise e => (Raise e, super_root, link)
      | Ok first =>
          match add_seconds (seq 0 10) first link with
          | (Raise e, _, link) => (Raise e, super_root, link)
          | (Ok _, first, link) =>
              match Node.add_child rehash first super_root link with
              | (Raise e, super_root, link) => (Raise e, super_root, link)
              | (Ok _, super_root, link) => add_firsts xs' super_root link
              end
          end
      end
  end.

(** [start()], on the super root of the link. *)
Definition start (super_root : Node.t) (link : DSLink.t)
  : outcome unit * Node.t * DSLink.t :=
  add_firsts (seq 0 9) super_root link.

End Start.

End LargeNodeStructure.

(** ** Notions used to state the properties *)

(** The link after a structural read that announced the removals [r]. *)
Definition marked (r : list Node.t) (link : DSLink.t) : DSLink.t :=
  match r with
  | [] => link
  | _ :: _ => DSLink.with_nodes_changed true link
  end.

(** ** Sample states *)

Module Sample.

Definition link : DSLink.t :=
  DSLink.mk false false false
    (DSLink.mkConfiguration "http://localhost:8080/conn" None)
    (Some (DSLink.mkServerConfig "abc")) "secret" "link-abc"
    [] [JStr "node"] [].

Definition noon : datetime := mkDatetime "2015-06-01T12:00:00".

(** A child holding a value, a child without one, a removed child. *)
Definition temperature : Node.t :=
  Node.mk "temperature" "/plant/temperature" false false
    (Value.mk (Some (JStr "number")) (Some (JNum 21, noon)))
    [] [("$is", JStr "node"); ("$type", JStr "number")] [("@unit", JStr "C")]
    [] [] [] false.

Definition spare : Node.t :=
  Node.mk "spare" "/plant/spare" false false Value.empty
    [] [] [] [] [] [] false.

Definition old : Node.t := Node.fresh "old" "/plant/old" false.

(** Two config entries, one attribute, two children, one pending
    removal, two open streams. *)
Definition plant : Node.t :=
  Node.mk "plant" "/plant" false false Value.empty
    [("temperature", temperature); ("spare", spare)]
    [("$is", JStr "node"); ("$name", JStr "Plant")] [("@site", JStr "north")]
    [] [1%Z; 2%Z] [old] false.

End Sample.

Module Gauges.

(** A node of an attached structure with one value subscriber, and the
    same node built as a standalone one. *)
Definition gauge : Node.t :=
  Node.mk "gauge" "/gauge" false false Value.empty
    [] [("$is", JStr "node")] [] [7%Z] [] [] false.

Definition standalone_gauge : Node.t :=
  Node.mk "gauge" "/gauge" true false Value.empty
    [] [("$is", JStr "node")] [] [7%Z] [] [] false.

(** The value update that a subscriber receives. *)
Definition value_update (sid : Z) (v : json) (ts : datetime) : json :=
  JDict [("rid", JNum 0);
         ("updates", JList [JList [JNum sid; v; JStr (isoformat ts)]])].

End Gauges.

(** ** The specification's words for the session protocol *)

Module Spec.

(** A string without its trailing padding characters. *)
Fixpoint strip_padding (s : string) : string :=
  match s with
  | EmptyString => EmptyString
  | String c s' =>
      let r := strip_padding s' in
      if String.eqb r "" && Ascii.eqb c "="%char then EmptyString
      else String c r
  end.

End Spec.

Module SpecUrl.

Fixpoint has_slash (s : string) : bool :=
  match s with
  | EmptyString => false
  | String c s' => Ascii.eqb c "/"%char || has_slash s'
  end.

(** "Strip its trailing path segment": the address up to its last slash. *)
Fixpoint strip_trailing_segment (s : string) : string :=
  match s with
  | EmptyString => EmptyString
  | String c s' =>
      if has_slash s' then String c (strip_trailing_segment s')
      else EmptyString
  end.

(** "Rewrite the scheme [http] to [ws] (and [https] to [wss])". *)
Definition rewrite_scheme (s : string) : string :=
  if Py.startswith "http" s then ("ws" ++ Py.slice_from 4 s)%string else s.

(** The connect URL as section 4.4 words it, the access token left out:
    the stripped and rewritten address, the device id, and the
    authentication token when authentication is required. *)
Definition connect_url (broker dsid : string) (needs_auth : bool)
  (auth : string) : string :=
  (rewrite_scheme (strip_trailing_segment broker) ++ "?dsId=" ++ dsid ++
   (if needs_auth then "&auth=" ++ auth else ""))%string.

Section Parsed.

Variable ParseResult : Type.
Variable urlparse : string -> Py.outcome ParseResult.
Variable port : ParseResult -> Py.outcome (option Z).

(** "Parse the result to recover an explicit port, defaulting to port
    80 when the URL specifies none": the address with its parse and the
    port, or what the parser raises. *)
Definition parsed (uri : string) : Py.outcome (string * ParseResult * Z) :=
  match urlparse uri with
  | Py.Raise e => Py.Raise e
  | Py.Ok url =>
      match port url with
      | Py.Raise e => Py.Raise e
      | Py.Ok (Some p) => Py.Ok (uri, url, p)
      | Py.Ok None => Py.Ok (uri, url, 80%Z)
      end
  end.

End Parsed.

End SpecUrl.

(** [urlparse] of the Python 2.7 standard library ([Lib/urlparse.py]),
    as far as the port is concerned: how [urlsplit] finds the network
    location of a URL, and how the [port] property reads it. *)
Module Urlparse.

Definition digit (c : ascii) : bool :=
  let n := nat_of_ascii c in Nat.leb 48 n && Nat.leb n 57.

(** [scheme_chars]: letters, digits, plus, hyphen and period. *)
Definition scheme_char (c : ascii) : bool :=
  let n := nat_of_ascii c in
  (Nat.leb 97 n && Nat.leb n 122) || (Nat.leb 65 n && Nat.leb n 90) ||
  digit c || Ascii.eqb c "+" || Ascii.eqb c "-" || Ascii.eqb c ".".

Fixpoint all (f : ascii -> bool) (s : string) : bool :=
  match s with
  | EmptyString => true
  | String c s' => f c && all f s'
  end.

(** [c in s]. *)
Fixpoint has (c : ascii) (s : string) : bool :=
  match s with
  | EmptyString => false
  | String b s' => Ascii.eqb b c || has c s'
  end.

Fixpoint until_any (stops : list ascii) (s : string) : string :=
  match s with
  | EmptyString => EmptyString
  | String c s' =>
      if existsb (Ascii.eqb c) stops then EmptyString
      else String c (until_any stops s')
  end.

Fixpoint after_char (c : ascii) (s : string) : option string :=
  match s with
  | EmptyString => None
  | String b s' => if Ascii.eqb b c then Some s' else after_char c s'
  end.

(** [s.split(c)[-1]]: what follows the last [c], all of [s] without
    one. *)
Fixpoint after_last (c : ascii) (s : string) : string :=
  match s with
  | EmptyString => EmptyString
  | String b s' =>
      if has c s' then after_last c s'
      else if Ascii.eqb b c then s' else s
  end.

(** What [urlsplit] goes on with once it has looked for a scheme: with
    [i] the position of the first colon, if [i > 0] and [url[:i]] is
    [http], or is made of scheme characters and is not followed by a
    port number only, the scheme and the colon are taken off. *)
Definition after_scheme (url : string) : string :=
  match Py.find_char ":" 0 url with
  | Some (S i) =>
      let head := Py.slice_to (S i) url in
      let rest := Py.slice_from (S (S i)) url in
      if String.eqb head "http" then rest
      else if all scheme_char head then
        if String.eqb rest "" || negb (all digit rest) then rest else url
      else url
  | _ => url
  end.

(** The network location: if what is left begins with two slashes, what
    follows them up to the first slash, question mark or hash
    ([_splitnetloc]); a bracket without its partner is an error. *)
Definition netloc_of (url : string) : Py.outcome string :=
  let url := after_scheme url in
  if String.eqb (Py.slice_to 2 url) "//" then
    let netloc := until_any ["/"; "?"; "#"]%char (Py.slice_from 2 url) in
    if (has "[" netloc && negb (has "]" netloc))
       || (has "]" netloc && negb (has "[" netloc))
    then Py.Raise Py.ValueError
    else Py.Ok netloc
  else Py.Ok "".

(** Of the fields of the result, the one that the port is read from. *)
Record ParseResult : Type := mkParseResult { netloc : string }.

Definition urlparse (url : string) : Py.outcome ParseResult :=
  n <- netloc_of url ;; Py.Ok (mkParseResult n).

(** The characters that [int] strips from both ends. *)
Definition space (c : ascii) : bool :=
  let n := nat_of_ascii c in Nat.eqb n 32 || (Nat.leb 9 n && Nat.leb n 13).

Fixpoint lstrip (s : string) : string :=
  match s with
  | EmptyString => EmptyString
  | String c s' => if space c then lstrip s' else s
  end.

Fixpoint rstrip (s : string) : string :=
  match s with
  | EmptyString => EmptyString
  | String c s' =>
      let r := rstrip s' in
      if String.eqb r "" && space c then EmptyString else String c r
  end.

Fixpoint decimal (acc : Z) (s : string) : option Z :=
  match s with
  | EmptyString => Some acc
  | String c s' =>
      let d := Z.of_nat (nat_of_ascii c) - 48 in
      if (0 <=? d) && (d <=? 9) then decimal (10 * acc + d) s' else None
  end%Z.

(** [int(s, 10)]: an optional sign and at least one digit, white space
    around them; nothing for what Python rejects with [ValueError]. *)
Definition int10 (s : string) : option Z :=
  match rstrip (lstrip s) with
  | EmptyString => None
  | String c r =>
      if Ascii.eqb c "+" || Ascii.eqb c "-" then
        if String.eqb r "" then None
        else if Ascii.eqb c "-" then option_map Z.opp (decimal 0 r)
        else decimal 0 r
      else decimal 0 (String c r)
  end.

(** The [port] property: the network location without user information
    and bracketed host; what stands between its first colon and the
    next, if it is not empty, read as a number; the number if it is a
    legal port. *)
Definition port (url : ParseResult) : Py.outcome (option Z) :=
  let netloc := after_last "]" (after_last "@" (netloc url)) in
  match after_char ":" netloc with
  | None => Py.Ok None
  | Some rest =>
      let port := until_any [":"%char] rest in
      if String.eqb port "" then Py.Ok None
      else
        match int10 port with
        | None => Py.Raise Py.ValueError
        | Some p =>
            if ((0 <=? p) && (p <=? 65535))%Z then Py.Ok (Some p)
            else Py.Ok None
        end
  end.

End Urlparse.

Module Links.

(** A broker address that does not end in a four-letter segment and has
    [http] in its host name. *)
Definition gateway : DSLink.t :=
  DSLink.mk false false false
    (DSLink.mkConfiguration "https://http-gw.example.org:8443/connect" None)
    None "secret" "link-abc" [] [] [].

(** A link that has to authenticate. *)
Definition guarded : DSLink.t :=
  DSLink.mk false true false
    (DSLink.mkConfiguration "http://localhost:8080/conn" None)
    (Some (DSLink.mkServerConfig "abc")) "secret" "link-abc" [] [] [].

(** A broker address without a port, and one whose port is misspelt. *)
Definition plain : DSLink.t :=
  DSLink.mk false false false
    (DSLink.mkConfiguration "https://broker.example.org/conn" None)
    None "secret" "link-abc" [] [] [].

Definition misspelt : DSLink.t :=
  DSLink.mk false false false
    (DSLink.mkConfiguration "http://localhost:80a/conn" None)
    None "secret" "link-abc" [] [] [].

Definition no_token (dsid : string) (token : option string) : option string :=
  None.

End Links.

(** ** What a round trip through JSON preserves *)

Module Tree.

(** The strings of a list are pairwise different. *)
Fixpoint distinct (l : list string) : bool :=
  match l with
  | [] => true
  | k :: l' => negb (existsb (String.eqb k) l') && distinct l'
  end.

(** A name that [from_json] reads as the name of a child. *)
Definition plain (k : string) : bool :=
  negb (Py.startswith "$" k) && negb (Py.startswith "@" k).

(** The nodes that [from_json] can rebuild from the output of [to_json]:
    the dictionaries have one entry per key; the keys of [config] begin
    with a dollar sign and include [$is], which every rebuilt node has;
    the keys of [attributes] begin with an at sign; the children that are
    not transient have names that begin with neither, and are such nodes
    themselves. *)
Fixpoint serializable (n : Node.t) : bool :=
  distinct (Dict.keys (Node.config n)) &&
  distinct (Dict.keys (Node.attributes n)) &&
  distinct (Dict.keys (Node.children n)) &&
  forallb (Py.startswith "$") (Dict.keys (Node.config n)) &&
  forallb (Py.startswith "@") (Dict.keys (Node.attributes n)) &&
  Dict.mem "$is" (Node.config n) &&
  forallb
    (fun kc =>
       Node.transient (snd kc) || (plain (fst kc) && serializable (snd kc)))
    (Node.children n).

(** [m] has the config and the attributes of [n], entry for entry, and a
    child for each child of [n] that is not transient, under the same
    name and related to it in the same way, and no other child. *)
Inductive same_structure : Node.t -> Node.t -> Prop :=
| Same_structure (n m : Node.t) :
    (forall k, Dict.lookup k (Node.config m) = Dict.lookup k (Node.config n)) ->
    (forall k,
       Dict.lookup k (Node.attributes m) = Dict.lookup k (Node.attributes n)) ->
    (forall k c,
       Dict.lookup k (Node.children n) = Some c ->
       Node.transient c = false ->
       exists c', Dict.lookup k (Node.children m) = Some c' /\
                  same_structure c c') ->
    (forall k c',
       Dict.lookup k (Node.children m) = Some c' ->
       exists c, Dict.lookup k (Node.children n) = Some c /\
                 Node.transient c = false) ->
    same_structure n m.

(** The children that [to_json] serializes. *)
Definition persistent (children : dict Node.t) : dict Node.t :=
  filter (fun kc => negb (Node.transient (snd kc))) children.

(** The dictionary that [to_json] returns is a plain one, and so is each
    dictionary nested in it for a child: the order in which [from_json]
    meets their entries is not specified.  [items] is a serialization of
    [n] when it holds the config entries of [n], its attribute entries and
    an entry for each child that is not transient, a serialization of
    that child under its name, in whatever order. *)
Inductive serialization : Node.t -> dict json -> Prop :=
| Serialization (n : Node.t) (kids items : dict json) :
    Forall2
      (fun kc kj =>
         fst kj = fst kc /\
         exists d, snd kj = JDict d /\ serialization (snd kc) d)
      (persistent (Node.children n)) kids ->
    Permutation items (Node.config n ++ Node.attributes n ++ kids) ->
    serialization n items.

(** How [from_json] reads an entry, by its key. *)
Definition is_config (kv : string * json) : bool :=
  Py.startswith "$" (fst kv).

Definition is_attribute (kv : string * json) : bool :=
  negb (Py.startswith "$" (fst kv)) && Py.startswith "@" (fst kv).

Definition is_child (kv : string * json) : bool := plain (fst kv).

End Tree.

Module Trees.

(** A node with a child whose name begins with an at sign. *)
Definition house : Node.t :=
  Node.mk "house" "/house" false false Value.empty
    [("@home", Node.fresh "@home" "/house/@home" false)]
    [("$is", JStr "node")] [] [] [] [] false.

(** A node with a transient child, a child holding a value, and a
    grandchild. *)
Definition site : Node.t :=
  Node.mk "site" "/site" false false Value.empty
    [("plant",
      Node.mk "plant" "/site/plant" false false Value.empty
        [("temperature",
          Node.mk "temperature" "/site/plant/temperature" false false
            (Value.mk (Some (JStr "number")) (Some (JNum 21, Sample.noon)))
            [] [("$is", JStr "node"); ("$type", JStr "number")]
            [("@unit", JStr "C")] [] [] [] false)]
        [("$is", JStr "node"); ("$name", JStr "Plant")] [] [] [] [] false);
     ("scratch",
      Node.mk "scratch" "/site/scratch" false true Value.empty
        [] [("$is", JStr "node")] [] [] [] [] false)]
    [("$is", JStr "node")] [("@site", JStr "north")] [] [] [] false.

End Trees.

(** ** Messages on the transport *)

(** The message of one structural notification for the open streams
    [s1 :: later]: a response per stream, the first one carrying the
    pending removals. *)
Definition structural_message (self : Node.t) (s1 : Z) (later : list Z) : json :=
  JDict
    [("responses",
      JList
        (Node.stream_response s1
           (Node.live_updates self ++
            map Node.tombstone (Node.removed_children self))
         :: map (fun s => Node.stream_response s (Node.live_updates self))
              later))].

(** The messages that one structural notification of a node sends. *)
Definition structural_messages (self : Node.t) : list json :=
  match Node.streams self with
  | [] => []
  | s1 :: later => [structural_message self s1 later]
  end.

(** The node after one structural notification. *)
Definition notified (self : Node.t) : Node.t :=
  match Node.streams self with
  | [] => self
  | _ :: _ => Node.with_removed_children [] self
  end.

(** The value update addressed to the subscriber [sid]. *)
Definition value_response (v : json) (updated_at : datetime) (sid : Z) : json :=
  JDict [("rid", JNum 0);
         ("updates", JList [JList [JNum sid; v; JStr (isoformat updated_at)]])].

(** The messages that one value notification of a node sends. *)
Definition value_messages (self : Node.t) : list json :=
  match Value.held (Node.value self), Node.subscribers self with
  | Some (v, updated_at), _ :: _ =>
      [JDict [("responses",
               JList (map (value_response v updated_at) (Node.subscribers self)))]]
  | _, _ => []
  end.

(** The link after the messages [msgs] were handed to the transport. *)
Definition send_all (msgs : list json) (link : DSLink.t) : DSLink.t :=
  fold_left (fun l m => DSLink.sendMessage m l) msgs link.

(** ** Path components *)

Module Path.

(** [c in s] for a character [c]. *)
Fixpoint has_char (c : ascii) (s : string) : bool :=
  match s with
  | EmptyString => false
  | String b s' => Ascii.eqb b c || has_char c s'
  end.

(** A path component that [get] reads as the name of a child: it is not
    empty, holds no slash, and begins with neither a dollar sign nor an at
    sign. *)
Definition segment (k : string) : bool :=
  negb (String.eqb k "") && negb (has_char "/" k) &&
  negb (Py.startswith "$" k) && negb (Py.startswith "@" k).

End Path.

(** An unnamed root with one child, which has a value subscriber. *)
Module Roots.

Definition pump : Node.t :=
  Node.mk "pump" "/pump" false false Value.empty
    [] [("$is", JStr "node")] [] [7%Z] [] [] false.

Definition farm : Node.t :=
  Node.mk "" "" false false Value.empty
    [("pump", pump)] [("$is", JStr "node")] [] [] [] [] false.

End Roots.

(** ** Trees and the objects they are built from *)

Module Built.

(** The path that the constructor gives a node named [nm] under a parent
    whose path is [parent_path]. *)
Definition child_path (parent_path nm : string) : string :=
  if Py.endswith "/" parent_path then (parent_path ++ nm)%string
  else (parent_path ++ "/" ++ nm)%string.

(** Every node below [n] is filed under its own name and has the path
    that its place in the tree gives it. *)
Fixpoint placed (n : Node.t) : bool :=
  forallb
    (fun kc =>
       String.eqb (Node.name (snd kc)) (fst kc) &&
       String.eqb (Node.path (snd kc)) (child_path (Node.path n) (fst kc)) &&
       placed (snd kc))
    (Node.children n).

(** Every dictionary that [from_json] walks through has one entry per
    key, as a Python [dict] has. *)
Fixpoint unique_keys (j : json) : bool :=
  match j with
  | JDict d =>
      Tree.distinct (map fst d) &&
      (fix all (d : list (string * json)) : bool :=
         match d with
         | [] => true
         | kv :: d' => unique_keys (snd kv) && all d'
         end) d
  | _ => true
  end.

End Built.

(** ** The alphabet of a token *)

Module Alphabet.

(** A character that a URL carries unescaped in a query: a letter, a
    digit, a hyphen or an underscore. *)
Definition urlsafe (c : ascii) : bool :=
  let n := nat_of_ascii c in
  (Nat.leb 65 n && Nat.leb n 90) || (Nat.leb 97 n && Nat.leb n 122) ||
  (Nat.leb 48 n && Nat.leb n 57) || Nat.eqb n 45 || Nat.eqb n 95.

Fixpoint all_urlsafe (s : string) : bool :=
  match s with
  | EmptyString => true
  | String c s' => urlsafe c && all_urlsafe s'
  end.

End Alphabet.

(** ** The tree of the example link *)

Module Large.

(** The node that [start] builds for [y] under a node of path
    [parent_path]. *)
Definition leaf (parent_path : string) (y : nat) : Node.t :=
  Node.fresh (LargeNodeStructure.test_name y)
    (Built.child_path parent_path (LargeNodeStructure.test_name y)) false.

(** What [start] builds for [x] under the super root: a node named
    after [x], with the path of its place, the default config and nothing
    else but its ten children, in whatever order they iterate. *)
Definition is_branch (parent_path : string) (x : nat) (b : Node.t) : Prop :=
  let first :=
    Node.fresh (LargeNodeStructure.test_name x)
      (Built.child_path parent_path (LargeNodeStructure.test_name x)) false in
  exists leaves,
    b = Node.with_children leaves first /\
    Permutation leaves
      (map (fun y => (LargeNodeStructure.test_name y, leaf (Node.path first) y))
         (seq 0 10)).

End Large.

(** * Properties *)

(** ** Loops that append *)

Lemma fold_left_append {A B : Type} (f : A -> B) (l : list A) (acc : list B) :
  fold_left (fun out x => out ++ [f x]) l acc = acc ++ map f l.
Proof.
  revert acc; induction l as [|x l IH]; intros acc; simpl.
  - now rewrite app_nil_r.
  - rewrite IH, <- app_assoc. reflexivity.
Qed.

Lemma fold_left_tombstones (r : list Node.t) (out : list json) (link : DSLink.t) :
  fold_left
    (fun '(out, link) child =>
       (out ++ [Node.tombstone child], DSLink.with_nodes_changed true link))
    r (out, link)
  = (out ++ map Node.tombstone r, marked r link).
Proof.
  revert out link; induction r as [|c r IH]; intros out link; simpl.
  - now rewrite app_nil_r.
  - rewrite IH, <- app_assoc. destruct r; reflexivity.
Qed.

Lemma wsp_marked (r : list Node.t) (link : DSLink.t) :
  DSLink.wsp (marked r link) = DSLink.wsp link.
Proof. destruct r; reflexivity. Qed.

(** ** The structural read *)

Lemma stream_eq (self : Node.t) (link : DSLink.t) :
  Node.stream self link
  = (Node.live_updates self ++ map Node.tombstone (Node.removed_children self),
     Node.with_removed_children [] self,
     marked (Node.removed_children self) link).
Proof.
  unfold Node.stream, Node.live_updates.
  rewrite !fold_left_append, fold_left_tombstones. simpl.
  now rewrite <- !app_assoc.
Qed.

Lemma live_updates_with_removed (r : list Node.t) (self : Node.t) :
  Node.live_updates (Node.with_removed_children r self) = Node.live_updates self.
Proof. reflexivity. Qed.

(** No live entry is mistaken for a removal. *)
Lemma live_updates_no_tombstone (self : Node.t) :
  forallb (fun u => negb (Node.is_tombstone u)) (Node.live_updates self) = true.
Proof.
  unfold Node.live_updates. rewrite !forallb_app.
  repeat (apply andb_true_intro; split);
    apply forallb_forall; intros u Hu; apply in_map_iff in Hu;
    destruct Hu as [x [<- _]]; reflexivity.
Qed.

Lemma filter_tombstones_batch (self : Node.t) (r : list Node.t) :
  filter Node.is_tombstone (Node.live_updates self ++ map Node.tombstone r)
  = map Node.tombstone r.
Proof.
  rewrite filter_app.
  assert (H : filter Node.is_tombstone (Node.live_updates self) = []).
  { pose proof (live_updates_no_tombstone self) as H.
    induction (Node.live_updates self) as [|u l IH]; simpl in *; auto.
    apply andb_prop in H. destruct H as [H1 H2].
    destruct (Node.is_tombstone u); simpl in *; [discriminate | auto]. }
  rewrite H. simpl.
  induction r as [|c r IH]; simpl; [reflexivity | now rewrite IH].
Qed.

(** ** The structural notification *)

Lemma update_subscribers_drained (self : Node.t) (link : DSLink.t)
  (ids : list Z) (responses : list json) :
  fold_left
    (fun '(responses, self, link) stream_id =>
       let '(updates, self, link) := Node.stream self link in
       (responses ++ [Node.stream_response stream_id updates], self, link))
    ids (responses, Node.with_removed_children [] self, link)
  = (responses ++
     map (fun s => Node.stream_response s (Node.live_updates self)) ids,
     Node.with_removed_children [] self, link).
Proof.
  revert responses; induction ids as [|s ids IH]; intros responses;
    cbn [fold_left map].
  - now rewrite app_nil_r.
  - rewrite stream_eq. cbn [Node.removed_children Node.with_removed_children map marked].
    rewrite app_nil_r, live_updates_with_removed.
    change (Node.with_removed_children []
              (Node.with_removed_children [] self))
      with (Node.with_removed_children [] self).
    rewrite IH, <- app_assoc. reflexivity.
Qed.

(** What a structural notification does: nothing without an open stream;
    otherwise the first stream's batch carries the removals and the
    batches of the streams after it are built from a drained node. *)
Lemma update_subscribers_eq (self : Node.t) (link : DSLink.t) :
  Node.update_subscribers self link
  = match Node.streams self with
    | [] => (self, link)
    | s1 :: later =>
        (Node.with_removed_children [] self,
         DSLink.sendMessage
           (JDict
              [("responses",
                JList
                  (Node.stream_response s1
                     (Node.live_updates self ++
                      map Node.tombstone (Node.removed_children self))
                   :: map (fun s => Node.stream_response s (Node.live_updates self))
                        later))])
           (marked (Node.removed_children self) link))
    end.
Proof.
  unfold Node.update_subscribers.
  destruct (Node.streams self) as [|s1 later]; [reflexivity|].
  cbn [fold_left]. rewrite stream_eq, update_subscribers_drained.
  reflexivity.
Qed.

Lemma update_subscribers_no_stream (self : Node.t) (link : DSLink.t) :
  Node.streams self = [] -> Node.update_subscribers self link = (self, link).
Proof. intros H. rewrite update_subscribers_eq, H. reflexivity. Qed.

Lemma update_subscribers_path (self : Node.t) (link : DSLink.t) :
  Node.path (fst (Node.update_subscribers self link)) = Node.path self.
Proof.
  rewrite update_subscribers_eq. destruct (Node.streams self); reflexivity.
Qed.

(** C10.  When a node has two or more open streams, one structural
    notification builds one batch per stream id, in order, by one call of
    [stream()] each, and sends them in one message.  The batch of the
    first stream id ends with the removal entries of the tombstone list;
    the batch of every later stream id is the live part alone and holds no
    removal entry, the first call having emptied the list. *)
Theorem update_subscribers_removals_first_stream_only
  (self : Node.t) (link : DSLink.t) (s1 s2 : Z) (rest : list Z) :
  Node.streams self = s1 :: s2 :: rest ->
  let live := Node.live_updates self in
  let removals := map Node.tombstone (Node.removed_children self) in
  exists self' link',
    Node.update_subscribers self link = (self', link') /\
    DSLink.wsp link' =
      DSLink.wsp link ++
      [JDict
         [("responses",
           JList
             (Node.stream_response s1 (live ++ removals)
              :: map (fun s => Node.stream_response s live) (s2 :: rest)))]] /\
    filter Node.is_tombstone (live ++ removals) = removals /\
    filter Node.is_tombstone live = [] /\
    Node.removed_children self' = [].
Proof.
  intros Hs live removals.
  rewrite update_subscribers_eq, Hs.
  eexists _, _. split; [reflexivity|].
  split; [cbn [DSLink.wsp DSLink.sendMessage]; now rewrite wsp_marked|].
  split; [apply filter_tombstones_batch|].
  split; [|reflexivity].
  pose proof (filter_tombstones_batch self []) as H. simpl in H.
  now rewrite app_nil_r in H.
Qed.

(** ** Dictionaries *)

Section DictFacts.
Context {A : Type}.
Implicit Types (d e : dict A) (k : string) (v : A).

Lemma lookup_set k k' v d :
  Dict.lookup k (Dict.set k' v d)
  = if String.eqb k k' then Some v else Dict.lookup k d.
Proof.
  induction d as [|[k0 v0] d IH]; simpl.
  - reflexivity.
  - destruct (String.eqb_spec k' k0) as [E0|E0]; simpl.
    + subst k0. destruct (String.eqb k k'); reflexivity.
    + rewrite IH.
      destruct (String.eqb_spec k k0) as [E1|E1]; [|reflexivity].
      subst k0. destruct (String.eqb_spec k k'); congruence.
Qed.

Lemma mem_set k k' v d :
  Dict.mem k (Dict.set k' v d) = String.eqb k k' || Dict.mem k d.
Proof.
  unfold Dict.mem. rewrite lookup_set. destruct (String.eqb k k'); reflexivity.
Qed.

Lemma mem_cons k k0 v0 d :
  Dict.mem k ((k0, v0) :: d) = String.eqb k k0 || Dict.mem k d.
Proof. unfold Dict.mem. simpl. destruct (String.eqb k k0); reflexivity. Qed.

Lemma mem_keys k d : Dict.mem k d = existsb (String.eqb k) (Dict.keys d).
Proof.
  unfold Dict.mem. induction d as [|[k0 v0] d IH]; simpl; [reflexivity|].
  destruct (String.eqb k k0); simpl; auto.
Qed.



Lemma mem_false_of_prefix (p k : string) d :
  Forall (fun k' => Py.startswith p k' = true) (Dict.keys d) ->
  Py.startswith p k = false ->
  Dict.mem k d = false.
Proof.
  intros Hall Hk. rewrite mem_keys.
  induction Hall as [|k0 ks H0 _ IH]; simpl; [reflexivity|].
  rewrite IH, orb_false_r.
  destruct (String.eqb k k0) eqn:E; [|reflexivity].
  apply String.eqb_eq in E. subst k0. congruence.
Qed.

End DictFacts.




Lemma update_subscribers_removals_first_stream_only_witness :
  Node.streams Sample.plant = [1%Z; 2%Z] /\
  exists self' link',
    Node.update_subscribers Sample.plant Sample.link = (self', link') /\
    DSLink.wsp link' =
      DSLink.wsp Sample.link ++
      [JDict
         [("responses",
           JList
             (Node.stream_response 1
                (Node.live_updates Sample.plant ++
                 map Node.tombstone (Node.removed_children Sample.plant))
              :: map (fun s => Node.stream_response s
                                 (Node.live_updates Sample.plant)) [2%Z]))]] /\
    filter Node.is_tombstone
      (Node.live_updates Sample.plant ++
       map Node.tombstone (Node.removed_children Sample.plant))
    = map Node.tombstone (Node.removed_children Sample.plant) /\
    filter Node.is_tombstone (Node.live_updates Sample.plant) = [] /\
    Node.removed_children self' = [].
Proof.
  split; [reflexivity|].
  exact (update_subscribers_removals_first_stream_only
           Sample.plant Sample.link 1%Z 2%Z [] eq_refl).
Defined.

(** ** Removing a child *)

Lemma lookup_remove_same {A : Type} (k : string) (d : dict A) :
  Dict.lookup k (Dict.remove k d) = None.
Proof.
  unfold Dict.remove. induction d as [|[k0 v0] d IH]; simpl; [reflexivity|].
  destruct (String.eqb k k0) eqn:E; simpl; [exact IH|].
  now rewrite E.
Qed.

Lemma lookup_remove_other {A : Type} (k k' : string) (d : dict A) :
  k <> k' -> Dict.lookup k (Dict.remove k' d) = Dict.lookup k d.
Proof.
  intros Hne. unfold Dict.remove.
  induction d as [|[k0 v0] d IH]; simpl; [reflexivity|].
  destruct (String.eqb_spec k' k0) as [E|E]; simpl.
  - subst k0. destruct (String.eqb_spec k k'); [contradiction | exact IH].
  - now rewrite IH.
Qed.

(** C4.  [remove_child] of a name that is not a child returns [False] and
    changes neither the node nor the link.  For a child, the child leaves
    [children] for the end of the tombstone list, and the structural
    notification follows.  The first structural read after the move
    reports the removals pending before and then one removal entry for
    this child, and empties the list; the read after that one reports no
    removal.  When no stream is open the notification reads nothing and
    the tombstone waits for the next read; when streams are open the
    notification itself performs the read, once per stream, and the
    removal goes to the batch of the first stream. *)
Theorem remove_child_tombstone (nm : string) (self : Node.t) (link : DSLink.t) :
  match Dict.lookup nm (Node.children self) with
  | None => Node.remove_child nm self link = (false, self, link)
  | Some child =>
      let moved :=
        Node.with_removed_children (Node.removed_children self ++ [child])
          (Node.with_children (Dict.remove nm (Node.children self)) self) in
      let removal :=
        JDict [("name", JStr (Node.name child)); ("change", JStr "remove")] in
      let pending := map Node.tombstone (Node.removed_children self) in
      Dict.lookup nm (Node.children moved) = None /\
      (forall k, k <> nm ->
         Dict.lookup k (Node.children moved)
         = Dict.lookup k (Node.children self)) /\
      Node.removed_children moved = Node.removed_children self ++ [child] /\
      (forall link1 link2,
         let '(out1, self1, _) := Node.stream moved link1 in
         let '(out2, self2, _) := Node.stream self1 link2 in
         filter Node.is_tombstone out1 = pending ++ [removal] /\
         Node.removed_children self1 = [] /\
         filter Node.is_tombstone out2 = [] /\
         Node.removed_children self2 = []) /\
      match Node.streams self with
      | [] => Node.remove_child nm self link = (true, moved, link)
      | s1 :: later =>
          Node.remove_child nm self link
          = (true, Node.with_removed_children [] moved,
             DSLink.sendMessage
               (JDict
                  [("responses",
                    JList
                      (Node.stream_response s1
                         (Node.live_updates moved ++ pending ++ [removal])
                       :: map (fun s =>
                                 Node.stream_response s (Node.live_updates moved))
                            later))])
               (DSLink.with_nodes_changed true link))
      end
  end.
Proof.
  unfold Node.remove_child.
  destruct (Dict.lookup nm (Node.children self)) as [child|] eqn:Hc;
    [|reflexivity].
  cbv zeta.
  split; [apply lookup_remove_same|].
  split; [intros k Hk; now apply lookup_remove_other|].
  split; [reflexivity|].
  split.
  - intros link1 link2. rewrite !stream_eq.
    cbn [Node.removed_children Node.with_removed_children map].
    rewrite filter_tombstones_batch, map_app. cbn [map].
    rewrite app_nil_r.
    pose proof (live_updates_no_tombstone
                  (Node.with_children (Dict.remove nm (Node.children self)) self))
      as Hl.
    repeat split; try reflexivity.
    rewrite live_updates_with_removed, live_updates_with_removed.
    induction (Node.live_updates _) as [|u l IH]; [reflexivity|].
    simpl in Hl |- *. apply andb_prop in Hl. destruct Hl as [H1 H2].
    destruct (Node.is_tombstone u); [discriminate | auto].
  - rewrite update_subscribers_eq.
    cbn [Node.streams Node.with_removed_children Node.with_children
         Node.removed_children].
    destruct (Node.streams self) as [|s1 later]; [reflexivity|].
    rewrite map_app. cbn [map].
    replace (marked (Node.removed_children self ++ [child]) link)
      with (DSLink.with_nodes_changed true link)
      by (destruct (Node.removed_children self); reflexivity).
    reflexivity.
Qed.

(** ** Paths *)

Lemma set_config_path key v self link :
  Node.path (fst (Node.set_config key v self link)) = Node.path self.
Proof. unfold Node.set_config. now rewrite update_subscribers_path. Qed.

Lemma set_attribute_path key v self link :
  Node.path (fst (Node.set_attribute key v self link)) = Node.path self.
Proof. unfold Node.set_attribute. now rewrite update_subscribers_path. Qed.

Lemma set_value_path v tc now self link :
  Node.path (snd (fst (Node.set_value v tc now self link))) = Node.path self.
Proof.
  unfold Node.set_value.
  destruct (Value.set_value v now (Node.value self)) as [i val].
  repeat match goal with
         | |- context [if ?b then _ else _] => destruct b
         | |- context [match ?x with _ => _ end] => destruct x
         end; reflexivity.
Qed.

(** [get] returns the node itself only under the empty address. *)
Lemma resolve_here fuel self p m :
  Node.resolve fuel self p = Py.Ok (Some ([], m)) -> m = self.
Proof.
  destruct fuel; simpl;
    repeat match goal with
           | |- context [if ?b then _ else _] => destruct b
           end; try congruence;
    destruct (Py.find_char "/" 2 p);
    unfold Py.bind, Py.try_except;
    repeat match goal with
           | |- context [match Dict.getitem ?d ?k with _ => _ end] =>
               destruct (Dict.getitem d k) as [?|[]]; simpl
           | |- context [match Node.resolve ?f ?c ?q with _ => _ end] =>
               destruct (Node.resolve f c q) as [[[? ?]|]|[]]; simpl
           end; congruence.
Qed.

Lemma put_at_path addr m self :
  addr <> [] -> Node.path (Node.put_at addr m self) = Node.path self.
Proof.
  destruct addr as [|k addr]; [congruence|]. intros _. simpl.
  destruct (Dict.lookup k (Node.children self)); reflexivity.
Qed.

Lemma put_at_resolved_path fuel self p addr node node' :
  Node.resolve fuel self p = Py.Ok (Some (addr, node)) ->
  Node.path node' = Node.path node ->
  Node.path (Node.put_at addr node' self) = Node.path self.
Proof.
  intros Hr Hp. destruct addr as [|k addr].
  - apply resolve_here in Hr. subst node. exact Hp.
  - apply put_at_path. discriminate.
Qed.

Lemma set_config_attr_path limit p v now self link :
  Node.path (snd (fst (Node.set_config_attr limit p v now self link)))
  = Node.path self.
Proof.
  revert self link; induction limit as [|limit IH]; intros self link; simpl.
  - destruct (_ || _).
    { pose proof (set_value_path v true now self link) as H.
      destruct (Node.set_value v true now self link) as [[r s] l]. exact H. }
    destruct (_ || _).
    { pose proof (set_config_path (Py.slice_from 2 p) v self link) as H.
      destruct (Node.set_config _ v self link) as [s l]. exact H. }
    destruct (_ || _).
    { pose proof (set_attribute_path (Py.slice_from 2 p) v self link) as H.
      destruct (Node.set_attribute _ v self link) as [s l]. exact H. }
    destruct (Node.resolve _ self p) as [[[addr node]|]|e]; reflexivity.
  - destruct (_ || _).
    { pose proof (set_value_path v true now self link) as H.
      destruct (Node.set_value v true now self link) as [[r s] l]. exact H. }
    destruct (_ || _).
    { pose proof (set_config_path (Py.slice_from 2 p) v self link) as H.
      destruct (Node.set_config _ v self link) as [s l]. exact H. }
    destruct (_ || _).
    { pose proof (set_attribute_path (Py.slice_from 2 p) v self link) as H.
      destruct (Node.set_attribute _ v self link) as [s l]. exact H. }
    destruct (Node.resolve _ self p) as [[[addr node]|]|e] eqn:Hr;
      try reflexivity.
    pose proof (IH node link) as H.
    destruct (Node.set_config_attr limit p v now node link) as [[r node'] l].
    simpl in *. eapply put_at_resolved_path; eauto.
Qed.

Lemma remove_config_attr_path limit p self :
  Node.path (snd (Node.remove_config_attr limit p self)) = Node.path self.
Proof.
  revert self; induction limit as [|limit IH]; intros self; simpl.
  - destruct (_ || _).
    { destruct (Dict.delitem _ _); reflexivity. }
    destruct (_ || _).
    { destruct (Dict.delitem _ _); reflexivity. }
    destruct (Node.resolve _ self p) as [[[addr node]|]|e]; reflexivity.
  - destruct (_ || _).
    { destruct (Dict.delitem _ _); reflexivity. }
    destruct (_ || _).
    { destruct (Dict.delitem _ _); reflexivity. }
    destruct (Node.resolve _ self p) as [[[addr node]|]|e] eqn:Hr;
      try reflexivity.
    pose proof (IH node) as H.
    destruct (Node.remove_config_attr limit p node) as [r node'].
    simpl in *. eapply put_at_resolved_path; eauto.
Qed.

(** No method assigns [path]. *)
Lemma after_path (m : Node.method) (self : Node.t) (link : DSLink.t) :
  Node.path (fst (Node.after m self link)) = Node.path self.
Proof.
  destruct m; simpl.
  - unfold Node.set_type. now rewrite set_config_path.
  - pose proof (set_value_path v trigger_callback now self link) as H.
    destruct (Node.set_value _ _ _ _ _) as [[r s] l]. exact H.
  - apply set_config_path.
  - apply set_attribute_path.
  - destruct transient; reflexivity.
  - unfold Node.set_display_name. destruct (Node.is_string nm); [|reflexivity].
    pose proof (set_config_path "$name" nm self link) as H.
    destruct (Node.set_config _ _ _ _) as [s l].
    pose proof (update_subscribers_path s l) as H'.
    destruct (Node.update_subscribers s l) as [s' l']. simpl in *. congruence.
  - unfold Node.set_invokable.
    destruct invokable as [| [|] | | | |]; try reflexivity.
    + pose proof (set_config_path "$invokable" (JStr "read") self link) as H.
      destruct (Node.set_config _ _ _ _) as [s l]. exact H.
    + pose proof (set_config_path "$invokable" (JStr s) self link) as H.
      destruct (Node.set_config _ _ _ _) as [s' l]. exact H.
  - unfold Node.set_parameters. destruct (Node.is_list _); [|reflexivity].
    pose proof (set_config_path "$params" parameters self link) as H.
    destruct (Node.set_config _ _ _ _) as [s l]. exact H.
  - unfold Node.set_columns. destruct (Node.is_list _); [|reflexivity].
    pose proof (set_config_path "$columns" columns self link) as H.
    destruct (Node.set_config _ _ _ _) as [s l]. exact H.
  - unfold Node.set_profile. destruct (Node.is_string _); [|reflexivity].
    pose proof (set_config_path "$is" profile self link) as H.
    destruct (Node.set_config _ _ _ _) as [s l]. exact H.
  - unfold Node.set_writable. destruct (Node.is_string _); [|reflexivity].
    pose proof (set_config_path "$writable" permission self link) as H.
    destruct (Node.set_config _ _ _ _) as [s l]. exact H.
  - rewrite stream_eq. reflexivity.
  - unfold Node.add_child. destruct (Dict.mem _ _); [reflexivity|].
    destruct (_ || _); [|reflexivity].
    match goal with
    | |- context [Node.update_subscribers ?s ?l] =>
        pose proof (update_subscribers_path s l) as H;
        destruct (Node.update_subscribers s l) as [s' l']
    end. exact H.
  - unfold Node.remove_child.
    destruct (Dict.lookup nm (Node.children self)); [|reflexivity].
    match goal with
    | |- context [Node.update_subscribers ?s ?l] =>
        pose proof (update_subscribers_path s l) as H;
        destruct (Node.update_subscribers s l) as [s' l']
    end. exact H.
  - pose proof (set_config_attr_path limit p v now self link) as H.
    destruct (Node.set_config_attr _ _ _ _ _ _) as [[r s] l]. exact H.
  - apply remove_config_attr_path.
  - apply update_subscribers_path.
  - reflexivity.
  - reflexivity.
  - unfold Node.remove_subscriber.
    destruct (Node.list_remove _ _); reflexivity.
Qed.

Lemma length_append (s1 s2 : string) :
  String.length (s1 ++ s2) = String.length s1 + String.length s2.
Proof. induction s1; simpl; auto. Qed.

Lemma slice_from_append (s1 s2 : string) :
  Py.slice_from (String.length s1) (s1 ++ s2) = s2.
Proof. induction s1; simpl; auto. Qed.

Lemma slice_split (n : nat) (s : string) :
  (Py.slice_to n s ++ Py.slice_from n s)%string = s.
Proof.
  revert s; induction n as [|n IH]; intros s; simpl.
  - destruct s; reflexivity.
  - destruct s as [|c s]; simpl; [reflexivity | now rewrite IH].
Qed.

Lemma length_slice_from (n : nat) (s : string) :
  String.length (Py.slice_from n s) = String.length s - n.
Proof.
  revert s; induction n as [|n IH]; intros s; simpl.
  - destruct s; simpl; lia.
  - destruct s as [|c s]; simpl; auto.
Qed.

(** [endswith] holds of the strings that end with the suffix. *)
Lemma endswith_iff (p s : string) :
  Py.endswith p s = true <-> exists s', s = (s' ++ p)%string.
Proof.
  unfold Py.endswith. split.
  - intros H. apply andb_prop in H. destruct H as [_ H].
    apply String.eqb_eq in H.
    exists (Py.slice_to (String.length s - String.length p) s).
    pose proof (slice_split (String.length s - String.length p) s) as Hs.
    rewrite H in Hs. now symmetry.
  - intros [s' ->]. rewrite length_append. apply andb_true_intro. split.
    + apply Nat.leb_le. lia.
    + replace (String.length s' + String.length p - String.length p)
        with (String.length s') by lia.
      rewrite slice_from_append. apply String.eqb_refl.
Qed.

(** C9, as amended.  A node built under a parent takes the name given and
    has for path the parent's path and the name, joined by a slash unless
    the parent's path already ends with one; a root built with a name has
    the path of a slash and the name, a root built without one has the
    empty name and the empty path.  No method of the class assigns the
    path afterwards. *)
Theorem init_path (nm : string) (parent : Node.t) (standalone : bool) :
  (exists n,
     Node.init (Some nm) (Some parent) standalone = Py.Ok n /\
     Node.name n = nm /\
     Node.path n
     = if Py.endswith "/" (Node.path parent)
       then (Node.path parent ++ nm)%string
       else (Node.path parent ++ "/" ++ nm)%string) /\
  (exists r,
     Node.init (Some nm) None standalone = Py.Ok r /\
     Node.name r = nm /\ Node.path r = ("/" ++ nm)%string) /\
  (exists r,
     Node.init None None standalone = Py.Ok r /\
     Node.name r = "" /\ Node.path r = "") /\
  (forall (m : Node.method) (self : Node.t) (link : DSLink.t),
     Node.path (fst (Node.after m self link)) = Node.path self).
Proof.
  repeat split.
  - unfold Node.init. destruct (Py.endswith "/" (Node.path parent));
      eexists; repeat split; reflexivity.
  - eexists; repeat split; reflexivity.
  - eexists; repeat split; reflexivity.
  - apply after_path.
Qed.

(** C9, as stated, fails under the root that a link uses, the root named
    by the empty string: its path is the slash, and its child [a] has the
    path [/a], not the parent's path followed by a slash and the name. *)
Lemma init_path_counterexample :
  exists root child,
    Node.init (Some "") None false = Py.Ok root /\
    Node.path root = "/" /\
    Node.init (Some "a") (Some root) false = Py.Ok child /\
    Node.path child = "/a" /\
    Node.path child <> (Node.path root ++ "/" ++ "a")%string.
Proof.
  eexists _, _. repeat split; try reflexivity. discriminate.
Qed.

(** ** Path resolution *)

Lemma find_char_bounds (c : ascii) (start : nat) (s : string) (i : nat) :
  Py.find_char c start s = Some i -> start <= i < String.length s.
Proof.
  revert start i; induction s as [|b s IH]; intros start i; simpl.
  - discriminate.
  - destruct start as [|start].
    + destruct (Ascii.eqb b c).
      * intros [= <-]. lia.
      * destruct (Py.find_char c 0 s) as [j|] eqn:E; simpl; [|discriminate].
        intros [= <-]. specialize (IH 0 j E). lia.
    + destruct (Py.find_char c start s) as [j|] eqn:E; simpl; [|discriminate].
      intros [= <-]. specialize (IH start j E). lia.
Qed.

Lemma resolve_eq (fuel : nat) (self : Node.t) (path : string) :
  Node.resolve fuel self path
  = if String.eqb path "/" then Py.Ok (Some ([], self))
    else if Py.startswith "/$" path then Py.Ok (Some ([], self))
    else if Py.startswith "/@" path then Py.Ok (Some ([], self))
    else
      Py.try_except
        (Py.try_except
           (match Py.find_char "/" 2 path with
            | None => Py.Raise Py.ValueError
            | Some i =>
                let child := Py.slice 1 i path in
                c <- Dict.getitem (Node.children self) child ;;
                match fuel with
                | O => Py.Raise Py.RuntimeError
                | S fuel' =>
                    r <- Node.resolve fuel' c (Py.slice_from i path) ;;
                    Py.Ok (option_map (fun am => (child :: fst am, snd am)) r)
                end
            end)
           Py.ValueError
           (let child := Py.slice_from 1 path in
            c <- Dict.getitem (Node.children self) child ;;
            Py.Ok (Some ([child], c))))
        Py.KeyError
        (Py.Ok None).
Proof. destruct fuel; reflexivity. Qed.

(** Fuel beyond the length of the path changes nothing. *)
Lemma resolve_fuel (f1 f2 : nat) (self : Node.t) (path : string) :
  String.length path <= f1 -> String.length path <= f2 ->
  Node.resolve f1 self path = Node.resolve f2 self path.
Proof.
  revert f2 self path; induction f1 as [|f1 IH]; intros f2 self path H1 H2;
    rewrite (resolve_eq _ self path), (resolve_eq f2 self path);
    destruct (Py.find_char "/" 2 path) as [i|] eqn:Hi; try reflexivity;
    apply find_char_bounds in Hi.
  - lia.
  - destruct f2 as [|f2]; [lia|].
    cbv zeta.
    destruct (Dict.getitem (Node.children self) (Py.slice 1 i path)) as [c|e];
      [|reflexivity].
    unfold Py.bind at 1 3.
    rewrite (IH f2 c (Py.slice_from i path));
      [reflexivity | rewrite length_slice_from; lia ..].
Qed.

(** With fuel for the length of the path, resolution returns. *)
Lemma resolve_returns (fuel : nat) (self : Node.t) (path : string) :
  String.length path <= fuel ->
  exists r, Node.resolve fuel self path = Py.Ok r.
Proof.
  revert self path; induction fuel as [|fuel IH]; intros self path Hf;
    rewrite resolve_eq;
    repeat match goal with
           | |- context [if ?b then _ else _] => destruct b
           end; eauto;
    destruct (Py.find_char "/" 2 path) as [i|] eqn:Hi.
  - apply find_char_bounds in Hi. lia.
  - unfold Dict.getitem. simpl.
    destruct (Dict.lookup _ _); simpl; eauto.
  - apply find_char_bounds in Hi. cbv zeta. unfold Dict.getitem.
    destruct (Dict.lookup (Py.slice 1 i path) (Node.children self)) as [c|].
    + destruct (IH c (Py.slice_from i path)) as [r Hr].
      { rewrite length_slice_from. lia. }
      simpl. rewrite Hr. simpl. eauto.
    + simpl. eauto.
  - unfold Dict.getitem. simpl.
    destruct (Dict.lookup _ _); simpl; eauto.
Qed.

(** One step of [get], and that the call always returns: the [KeyError]
    of a missing child and the [ValueError] of [index] are caught, and
    the recursion is on a shorter path. *)
Lemma get_returns (self : Node.t) (path : string) :
  Node.get self path
  = (if String.eqb path "/" || Py.startswith "/$" path
        || Py.startswith "/@" path
     then Py.Ok (Some self)
     else
       match Py.find_char "/" 2 path with
       | Some i =>
           match Dict.lookup (Py.slice 1 i path) (Node.children self) with
           | Some child => Node.get child (Py.slice_from i path)
           | None => Py.Ok None
           end
       | None =>
           match Dict.lookup (Py.slice_from 1 path) (Node.children self) with
           | Some child => Py.Ok (Some child)
           | None => Py.Ok None
           end
       end)
  /\ exists r, Node.get self path = Py.Ok r.
Proof.
  split.
  - unfold Node.get at 1. rewrite resolve_eq.
    destruct (String.eqb path "/"); [reflexivity|].
    destruct (Py.startswith "/$" path); [reflexivity|].
    destruct (Py.startswith "/@" path); [reflexivity|].
    cbn [orb]. unfold Dict.getitem.
    destruct (Py.find_char "/" 2 path) as [i|] eqn:Hi.
    + apply find_char_bounds in Hi. cbv zeta.
      destruct (Dict.lookup (Py.slice 1 i path) (Node.children self)) as [c|];
        [|reflexivity].
      destruct (String.length path) as [|f] eqn:Hl; [lia|].
      assert (Hq : String.length (Py.slice_from i path) <= f)
        by (rewrite length_slice_from; lia).
      unfold Node.get. cbn [Py.bind].
      rewrite (resolve_fuel f (String.length (Py.slice_from i path)) c _ Hq
                 (le_n _)).
      destruct (resolve_returns _ c (Py.slice_from i path) (le_n _)) as [r Hr].
      rewrite Hr. simpl. destruct r as [[a m]|]; reflexivity.
    + simpl. destruct (Dict.lookup _ _); reflexivity.
  - unfold Node.get.
    destruct (resolve_returns _ self path (le_n _)) as [r ->].
    simpl. eauto.
Qed.

(** A child that is not there: the call returns [None]. *)
Example get_missing_child :
  Node.get Sample.plant "/pump/speed" = Py.Ok None /\
  Node.get Sample.plant "/pump" = Py.Ok None /\
  Node.get Sample.plant "/temperature" = Py.Ok (Some Sample.temperature) /\
  Node.get Sample.plant "/temperature/@unit" = Py.Ok (Some Sample.temperature).
Proof. repeat split; reflexivity. Qed.

(** ** Equality of JSON values *)

Lemma json_induction (P : json -> Prop) :
  P JNull ->
  (forall b, P (JBool b)) ->
  (forall z, P (JNum z)) ->
  (forall s, P (JStr s)) ->
  (forall l, Forall P l -> P (JList l)) ->
  (forall d, Forall (fun kv => P (snd kv)) d -> P (JDict d)) ->
  forall j, P j.
Proof.
  intros HN HB HZ HS HL HD.
  fix IH 1. intros [| b | z | s | l | d].
  - exact HN.
  - apply HB.
  - apply HZ.
  - apply HS.
  - apply HL. induction l as [|x l IHl]; constructor; [apply IH | exact IHl].
  - apply HD. induction d as [|[k x] d IHd]; constructor;
      [apply IH | exact IHd].
Qed.

Lemma json_eqb_eq (a b : json) : json_eqb a b = true <-> a = b.
Proof.
  revert b. induction a as [| x | x | x | l IHl | d IHd] using json_induction;
    intros [| y | y | y | m | e]; simpl; try (split; [discriminate|congruence]);
    try tauto.
  - rewrite Bool.eqb_true_iff. split; congruence.
  - rewrite Z.eqb_eq. split; congruence.
  - rewrite String.eqb_eq. split; congruence.
  - revert m. induction IHl as [|x l Hx _ IH]; intros [|y m]; simpl;
      try (split; [discriminate|congruence]); try tauto.
    rewrite andb_true_iff, Hx, IH. split.
    + intros [-> [= ->]]. reflexivity.
    + intros [= -> ->]. auto.
  - revert e. induction IHd as [|[k x] d Hx _ IH]; intros [|[k' y] e]; simpl;
      try (split; [discriminate|congruence]); try tauto.
    simpl in Hx.
    rewrite !andb_true_iff, String.eqb_eq, Hx, IH. split.
    + intros [[-> ->] [= ->]]. reflexivity.
    + intros [= -> -> ->]. auto.
Qed.

(** ** Setting a value *)

(** The flag that [Value.set_value] returns tells whether the value held
    differs from the one assigned. *)
Lemma value_changes_iff (x : json) (v : Value.t) :
  Value.changes x v = false <-> exists ts, Value.held v = Some (x, ts).
Proof.
  unfold Value.changes. destruct (Value.held v) as [[y ts]|].
  - rewrite negb_false_iff, json_eqb_eq. split.
    + intros ->. eauto.
    + intros [ts' [= -> _]]. reflexivity.
  - split; [discriminate | intros [ts [=]]].
Qed.

(** What [set_value] returns and when it notifies, as the code has it:
    the value subscribers are notified when the value changed and the
    node is not standalone or the link is active. *)
Lemma set_value_notification (v : json) (tc : bool) (now : datetime)
  (self : Node.t) (link : DSLink.t) :
  let changed := Value.changes v (Node.value self) in
  let self' := Node.with_value (snd (Value.set_value v now (Node.value self))) self in
  (Py.raises (fst (fst (Node.set_value v tc now self link))) = false ->
   fst (fst (Node.set_value v tc now self link)) = Py.Ok changed) /\
  snd (fst (Node.set_value v tc now self link)) = self' /\
  DSLink.wsp (snd (Node.set_value v tc now self link))
  = DSLink.wsp
      (if changed && (negb (Node.standalone self) || DSLink.active link)
       then Node.update_subscribers_values self' link
       else link).
Proof.
  unfold Node.set_value, Value.set_value.
  destruct (Value.changes v (Node.value self)); cbv zeta; cbn [snd andb].
  - cbn [Node.standalone Node.with_value].
    destruct (negb (Node.standalone self) || DSLink.active link);
      [|repeat split].
    destruct tc; [|repeat split].
    destruct (Node.set_value_callback _);
      destruct (Node.get_config "$is" _) as [p|e]; cbn [fst snd];
      try (repeat split; intros; try discriminate; reflexivity);
      destruct (DSLink.get_profile p _) as [q|[]]; cbn [fst snd];
      repeat split; intros; try discriminate; reflexivity.
  - repeat split.
Qed.

(** C1, on the code.  A node that is not standalone, under a link that is
    not active, with one subscriber: setting a new value returns [True]
    and sends the value update, although the link is neither standalone
    nor active.  The same node built standalone, under the same inactive
    link: the value changes and nothing is sent.  [add_child] tests
    [self.standalone or self.link.active]; [set_value] tests
    [not self.standalone or self.link.active]. *)
Theorem set_value_notifies_inactive_link :
  Node.standalone Gauges.gauge = false /\
  DSLink.active Sample.link = false /\
  Value.changes (JNum 21) (Node.value Gauges.gauge) = true /\
  (exists self' link',
     Node.set_value (JNum 21) false Sample.noon Gauges.gauge Sample.link
     = (Py.Ok true, self', link') /\
     DSLink.wsp link'
     = [JDict [("responses",
                JList [Gauges.value_update 7 (JNum 21) Sample.noon])]]) /\
  Node.standalone Gauges.standalone_gauge = true /\
  (exists self' link',
     Node.set_value (JNum 21) false Sample.noon Gauges.standalone_gauge
       Sample.link
     = (Py.Ok true, self', link') /\
     Value.held (Node.value self') = Some (JNum 21, Sample.noon) /\
     DSLink.wsp link' = []).
Proof.
  repeat split; try reflexivity; eexists _, _; repeat split; reflexivity.
Qed.

(** ** Removing a configuration entry or an attribute *)

Lemma remove_config_attr_eq (limit : nat) (p : string) (self : Node.t) :
  Node.remove_config_attr limit p self
  = if Py.startswith "/$" p || Py.startswith (Node.path self ++ "/$") p then
      match Dict.delitem (Node.config self) (Py.slice_from 2 p) with
      | Py.Ok c => (Py.Ok tt, Node.with_config c self)
      | Py.Raise e => (Py.Raise e, self)
      end
    else if Py.startswith "/@" p || Py.startswith (Node.path self ++ "/@") p then
      match Dict.delitem (Node.config self) (Py.slice_from 2 p) with
      | Py.Ok c => (Py.Ok tt, Node.with_config c self)
      | Py.Raise e => (Py.Raise e, self)
      end
    else
      match Node.resolve (String.length p) self p with
      | Py.Raise e => (Py.Raise e, self)
      | Py.Ok None => (Py.Raise Py.AttributeError, self)
      | Py.Ok (Some (addr, node)) =>
          match limit with
          | O => (Py.Raise Py.RuntimeError, self)
          | S limit' =>
              let '(r, node) := Node.remove_config_attr limit' p node in
              (r, Node.put_at addr node self)
          end
      end.
Proof. destruct limit; reflexivity. Qed.

(** For a path that begins with ["/@"], the call deletes from [config]
    the key that follows the two characters, or raises [KeyError] when
    [config] has no such key; [attributes] stays as it is. *)
Lemma remove_config_attr_at (limit : nat) (p : string) (self : Node.t) :
  Py.startswith "/@" p = true ->
  Node.remove_config_attr limit p self
  = (if Dict.mem (Py.slice_from 2 p) (Node.config self)
     then (Py.Ok tt,
           Node.with_config
             (Dict.remove (Py.slice_from 2 p) (Node.config self)) self)
     else (Py.Raise Py.KeyError, self))
  /\ Node.attributes (snd (Node.remove_config_attr limit p self))
     = Node.attributes self.
Proof.
  intros Hp.
  assert (E : Node.remove_config_attr limit p self
              = match Dict.delitem (Node.config self) (Py.slice_from 2 p) with
                | Py.Ok c => (Py.Ok tt, Node.with_config c self)
                | Py.Raise e => (Py.Raise e, self)
                end).
  { rewrite remove_config_attr_eq, Hp. cbn [orb].
    destruct (_ || _); reflexivity. }
  rewrite E. unfold Dict.delitem.
  destruct (Dict.mem _ _); split; reflexivity.
Qed.

(** C2, on the code.  The attribute [unit] is set through
    [set_config_attr("/@unit", ...)]; [remove_config_attr("/@unit")] then
    raises [KeyError] and the attribute is still there, because the call
    deletes from [config].  With a config entry under the same key, it is
    that entry which is deleted, and the attribute stays. *)
Theorem remove_config_attr_at_deletes_config :
  exists sensor link1 sensor2 link2 sensor3,
    Node.set_config_attr 1000 "/@unit" (JStr "C") Sample.noon
      (Node.fresh "sensor" "/sensor" false) Sample.link
    = (Py.Ok tt, sensor, link1) /\
    Node.attributes sensor = [("unit", JStr "C")] /\
    Node.config sensor = [("$is", JStr "node")] /\
    Node.remove_config_attr 1000 "/@unit" sensor
    = (Py.Raise Py.KeyError, sensor) /\
    Node.set_config_attr 1000 "/$unit" (JStr "K") Sample.noon sensor link1
    = (Py.Ok tt, sensor2, link2) /\
    Node.config sensor2 = [("$is", JStr "node"); ("unit", JStr "K")] /\
    Node.remove_config_attr 1000 "/@unit" sensor2 = (Py.Ok tt, sensor3) /\
    Node.config sensor3 = [("$is", JStr "node")] /\
    Node.attributes sensor3 = [("unit", JStr "C")].
Proof.
  eexists _, _, _, _, _. repeat split; reflexivity.
Qed.

(** ** The authentication token *)

Lemma replace_pad_cons (c : ascii) (s : string) :
  Py.replace "=" "" (String c s)
  = if Ascii.eqb c "=" then Py.replace "=" "" s
    else String c (Py.replace "=" "" s).
Proof.
  unfold Py.replace. cbn [Py.replace_from Py.startswith].
  rewrite (Ascii.eqb_sym "=" c). destruct (Ascii.eqb c "="); reflexivity.
Qed.

Lemma strip_padding_cons (c : ascii) (s : string) :
  Ascii.eqb c "=" = false ->
  Spec.strip_padding (String c s) = String c (Spec.strip_padding s).
Proof. intros H. simpl. rewrite H, andb_false_r. reflexivity. Qed.

(** No character of the alphabet is the padding character. *)
Lemma b64url_char_not_pad (d : Z) :
  (0 <= d < 64)%Z -> Ascii.eqb (Crypto.b64url_char d) "=" = false.
Proof.
  intros Hd.
  assert (E : d = Z.of_nat (Z.to_nat d)) by lia.
  assert (Hn : Z.to_nat d < 64) by lia.
  rewrite E. clear E Hd. revert Hn. generalize (Z.to_nat d) as n. intros n Hn.
  do 64 (destruct n as [|n]; [reflexivity|]). lia.
Qed.

Lemma bytes_of_string_range (s : string) :
  Forall (fun b => (0 <= b < 256)%Z) (Crypto.bytes_of_string s).
Proof.
  unfold Crypto.bytes_of_string.
  induction s as [|c s IH]; simpl; constructor; [|exact IH].
  pose proof (nat_ascii_bounded c). lia.
Qed.

Ltac sextet_range := Z.div_mod_to_equations; lia.

Ltac sextet := apply b64url_char_not_pad; sextet_range.

(** Removing every padding character from an encoding removes its
    trailing padding and nothing else. *)
Lemma replace_pad_b64url (bytes : list Z) :
  Forall (fun b => (0 <= b < 256)%Z) bytes ->
  Py.replace "=" "" (string_of_list_ascii (Crypto.b64url bytes))
  = Spec.strip_padding (string_of_list_ascii (Crypto.b64url bytes)).
Proof.
  revert bytes. fix IH 1. intros [|b0 [|b1 [|b2 rest]]] Hr.
  - reflexivity.
  - inversion_clear Hr as [|? ? H0 _].
    cbn [Crypto.b64url string_of_list_ascii].
    rewrite !replace_pad_cons, !strip_padding_cons by sextet.
    rewrite !b64url_char_not_pad by sextet_range. reflexivity.
  - inversion_clear Hr as [|? ? H0 Hr']. inversion_clear Hr' as [|? ? H1 _].
    cbn [Crypto.b64url string_of_list_ascii].
    rewrite !replace_pad_cons, !strip_padding_cons by sextet.
    rewrite !b64url_char_not_pad by sextet_range. reflexivity.
  - inversion_clear Hr as [|? ? H0 Hr']. inversion_clear Hr' as [|? ? H1 Hr].
    inversion_clear Hr as [|? ? H2 Hr'].
    cbn [Crypto.b64url string_of_list_ascii].
    rewrite !replace_pad_cons, !strip_padding_cons by sextet.
    rewrite !b64url_char_not_pad by sextet_range.
    rewrite (IH rest Hr'). reflexivity.
Qed.

(** The digest and the token of the fixed vector. *)
Example sha256_abcsecret :
  Crypto.hex (Crypto.sha256 "abcsecret")
  = "a42178b773273f5c9f24387fbea546af537d08b8c06b23631e44878b9ce47f49".
Proof. vm_compute. reflexivity. Qed.

Example token_abcsecret :
  Spec.strip_padding (Crypto.urlsafe_b64encode (Crypto.sha256 "abcsecret"))
  = "pCF4t3MnP1yfJDh_vqVGr1N9CLjAayNjHkSHi5zkf0k".
Proof. vm_compute. reflexivity. Qed.

(** Replacing the padding character by nothing strips the padding. *)
Lemma get_auth_eq (l : DSLink.t) (sc : DSLink.ServerConfig) :
  DSLink.server_config l = Some sc ->
  DSLink.get_auth l
  = Py.Ok (Spec.strip_padding
             (Crypto.urlsafe_b64encode
                (Crypto.sha256 (DSLink.salt sc ++ DSLink.shared_secret l)))).
Proof.
  intros Hsc. unfold DSLink.get_auth. rewrite Hsc.
  unfold Crypto.urlsafe_b64encode.
  rewrite replace_pad_b64url by apply bytes_of_string_range.
  exact (eq_refl _).
Qed.

(** C5.  Once the broker has supplied a salt, [get_auth] returns the
    URL-safe Base64 encoding of the SHA-256 digest of the salt followed by
    the shared secret, without its padding characters.  For the salt
    ["abc"] and the shared secret ["secret"] this is the encoding of the
    digest of ["abcsecret"], the token
    [pCF4t3MnP1yfJDh_vqVGr1N9CLjAayNjHkSHi5zkf0k]. *)
Theorem get_auth_token (l : DSLink.t) (sc : DSLink.ServerConfig) :
  DSLink.server_config l = Some sc ->
  DSLink.get_auth l
  = Py.Ok (Spec.strip_padding
             (Crypto.urlsafe_b64encode
                (Crypto.sha256 (DSLink.salt sc ++ DSLink.shared_secret l)))) /\
  (DSLink.salt sc = "abc" -> DSLink.shared_secret l = "secret" ->
   DSLink.get_auth l
   = Py.Ok (Spec.strip_padding
              (Crypto.urlsafe_b64encode (Crypto.sha256 "abcsecret"))) /\
   DSLink.get_auth l = Py.Ok "pCF4t3MnP1yfJDh_vqVGr1N9CLjAayNjHkSHi5zkf0k").
Proof.
  intros Hsc. pose proof (get_auth_eq l sc Hsc) as E.
  split; [exact E|].
  intros Hs Hk. rewrite Hs, Hk in E.
  change ("abc" ++ "secret")%string with "abcsecret" in E.
  split; [exact E|].
  rewrite token_abcsecret in E. exact E.
Qed.

Lemma get_auth_token_witness :
  DSLink.server_config Sample.link = Some (DSLink.mkServerConfig "abc") /\
  DSLink.get_auth Sample.link
  = Py.Ok (Spec.strip_padding
             (Crypto.urlsafe_b64encode (Crypto.sha256 "abcsecret"))) /\
  DSLink.get_auth Sample.link
  = Py.Ok "pCF4t3MnP1yfJDh_vqVGr1N9CLjAayNjHkSHi5zkf0k".
Proof.
  split; [reflexivity|].
  exact (proj2 (get_auth_token Sample.link (DSLink.mkServerConfig "abc")
                  eq_refl) eq_refl eq_refl).
Defined.

(** ** The connect URL *)

Lemma slice_to_append (s1 s2 : string) :
  Py.slice_to (String.length s1) (s1 ++ s2) = s1.
Proof. induction s1; simpl; [destruct s2; reflexivity | now f_equal]. Qed.

(** Dropping five characters removes a trailing [/conn]. *)
Lemma drop_last_conn (base : string) :
  Py.drop_last 5 (base ++ "/conn") = base.
Proof.
  unfold Py.drop_last. rewrite length_append. simpl String.length.
  replace (String.length base + 5 - 5) with (String.length base) by lia.
  apply slice_to_append.
Qed.

(** A leading [http] becomes [ws], whatever follows; so does every
    later occurrence. *)
Lemma replace_http_prefix (rest : string) :
  Py.replace "http" "ws" ("http" ++ rest)
  = ("ws" ++ Py.replace "http" "ws" rest)%string.
Proof. reflexivity. Qed.

Lemma append_empty (s : string) : (s ++ "")%string = s.
Proof. induction s; simpl; [reflexivity | now f_equal]. Qed.

Lemma append_assoc (a b c : string) :
  ((a ++ b) ++ c)%string = (a ++ b ++ c)%string.
Proof.
  induction a as [|x a IH]; [reflexivity|].
  cbn [String.append]. rewrite IH. reflexivity.
Qed.

(** Where [old] does not occur, nothing is replaced. *)
Lemma replace_absent (old new s : string) :
  Py.contains old s = false -> Py.replace old new s = s.
Proof.
  unfold Py.replace. induction s as [|c s IH]; intros H; [reflexivity|].
  cbn [Py.contains] in H. apply orb_false_iff in H. destruct H as [H1 H2].
  cbn [Py.replace_from]. rewrite H1, (IH H2). reflexivity.
Qed.

(** The address up to its last slash is what precedes its last
    segment. *)
Lemma strip_trailing_segment_append (base seg : string) :
  SpecUrl.has_slash seg = false ->
  SpecUrl.strip_trailing_segment (base ++ "/" ++ seg) = base.
Proof.
  intros Hseg. change ("/" ++ seg)%string with (String "/" seg).
  induction base as [|c base IH].
  - cbn [String.append SpecUrl.strip_trailing_segment]. rewrite Hseg.
    reflexivity.
  - cbn [String.append SpecUrl.strip_trailing_segment].
    assert (H : SpecUrl.has_slash (base ++ String "/" seg) = true).
    { clear IH. induction base as [|d base IHb].
      - reflexivity.
      - cbn [String.append SpecUrl.has_slash]. rewrite IHb.
        apply orb_true_r. }
    rewrite H. f_equal. exact IH.
Qed.

(** Dropping five characters removes a last segment of four. *)
Lemma drop_last_segment (base seg : string) :
  String.length seg = 4 -> Py.drop_last 5 (base ++ "/" ++ seg) = base.
Proof.
  intros Hlen. unfold Py.drop_last. rewrite !length_append, Hlen.
  cbn [String.length].
  replace (String.length base + (1 + 4) - 5) with (String.length base) by lia.
  apply slice_to_append.
Qed.

Section UrlFacts.

Variable ParseResult : Type.
Variable urlparse : string -> Py.outcome ParseResult.
Variable port : ParseResult -> Py.outcome (option Z).
Variable token_hash : string -> option string -> option string.

(** [get_url] on any broker address. *)
Lemma get_url_eq (self : DSLink.t) :
  let base :=
    (Py.replace "http" "ws" (Py.drop_last 5 (DSLink.broker (DSLink.config self)))
     ++ "/ws?dsId=" ++ DSLink.dsid self)%string in
  let fragment :=
    match token_hash (DSLink.dsid self) (DSLink.token (DSLink.config self)) with
    | Some tk => tk
    | None => ""
    end in
  DSLink.get_url ParseResult urlparse port token_hash self
  = (if DSLink.needs_auth self then
       match DSLink.server_config self with
       | Some sc =>
           let auth :=
             Spec.strip_padding
               (Crypto.urlsafe_b64encode
                  (Crypto.sha256 (DSLink.salt sc ++ DSLink.shared_secret self))) in
           SpecUrl.parsed ParseResult urlparse port
             ((base ++ "&auth=" ++ auth) ++ fragment)
       | None => Py.Raise Py.TypeError
       end
     else SpecUrl.parsed ParseResult urlparse port (base ++ fragment)).
Proof.
  intros base fragment.
  assert (Hparsed : forall uri,
            (url <- urlparse uri ;;
             explicit <- port url ;;
             Py.Ok (uri, url, match explicit with
                              | Some p => p
                              | None => 80%Z
                              end))
            = SpecUrl.parsed ParseResult urlparse port uri).
  { intros uri. unfold SpecUrl.parsed.
    destruct (urlparse uri) as [url|e]; [|reflexivity].
    cbn [Py.bind]. destruct (port url) as [[q|]|e]; reflexivity. }
  unfold DSLink.get_url. fold base.
  destruct (DSLink.needs_auth self).
  - destruct (DSLink.server_config self) as [sc|] eqn:Hsc.
    + rewrite (get_auth_eq self sc Hsc). cbn [Py.bind].
      subst fragment. cbv zeta.
      destruct (token_hash _ _); rewrite ?append_empty; apply Hparsed.
    + unfold DSLink.get_auth. rewrite Hsc. reflexivity.
  - cbn [Py.bind]. subst fragment.
    destruct (token_hash _ _); rewrite ?append_empty; apply Hparsed.
Qed.

(** C6, as amended.  Let the broker address be [http], a rest in which
    [http] does not occur again, and a last segment of four characters
    after a slash, as in [http://host:8080/conn] or
    [https://host/conn].  Then [get_url] strips the trailing path segment
    off the address and rewrites the scheme [http] to [ws] (and [https]
    to [wss]), as the specification has it; it appends [/ws?dsId=] and
    the device id, then [&auth=] and the token exactly when
    authentication is required, then the fragment of the access token if
    one is configured.  It returns this address with the explicit port of
    the parsed address when it has one and 80 otherwise, and raises what
    the parser raises for an address or a port that it rejects; it raises
    [TypeError] when authentication is required before the handshake has
    answered. *)
Theorem get_url_built (self : DSLink.t) (rest seg : string) :
  DSLink.broker (DSLink.config self) = ("http" ++ rest ++ "/" ++ seg)%string ->
  Py.contains "http" rest = false ->
  String.length seg = 4 ->
  SpecUrl.has_slash seg = false ->
  let address :=
    SpecUrl.rewrite_scheme
      (SpecUrl.strip_trailing_segment (DSLink.broker (DSLink.config self))) in
  let fragment :=
    match token_hash (DSLink.dsid self) (DSLink.token (DSLink.config self)) with
    | Some tk => tk
    | None => ""
    end in
  address = ("ws" ++ rest)%string /\
  DSLink.get_url ParseResult urlparse port token_hash self
  = (if DSLink.needs_auth self then
       match DSLink.server_config self with
       | Some sc =>
           let auth :=
             Spec.strip_padding
               (Crypto.urlsafe_b64encode
                  (Crypto.sha256 (DSLink.salt sc ++ DSLink.shared_secret self))) in
           SpecUrl.parsed ParseResult urlparse port
             (address ++ "/ws?dsId=" ++ DSLink.dsid self ++
              "&auth=" ++ auth ++ fragment)
       | None => Py.Raise Py.TypeError
       end
     else SpecUrl.parsed ParseResult urlparse port
            (address ++ "/ws?dsId=" ++ DSLink.dsid self ++ fragment)).
Proof.
  intros Hb Hrest Hlen Hseg address fragment.
  assert (Haddr : address = ("ws" ++ rest)%string).
  { unfold address. rewrite Hb.
    change ("http" ++ rest ++ "/" ++ seg)%string
      with (("http" ++ rest) ++ "/" ++ seg)%string.
    rewrite (strip_trailing_segment_append _ _ Hseg). reflexivity. }
  split; [exact Haddr|].
  assert (Hcode : Py.replace "http" "ws"
                    (Py.drop_last 5 (DSLink.broker (DSLink.config self)))
                  = address).
  { rewrite Haddr, Hb.
    change ("http" ++ rest ++ "/" ++ seg)%string
      with (("http" ++ rest) ++ "/" ++ seg)%string.
    rewrite (drop_last_segment _ _ Hlen), replace_http_prefix.
    rewrite (replace_absent _ _ _ Hrest). reflexivity. }
  rewrite get_url_eq, Hcode. fold fragment.
  destruct (DSLink.needs_auth self).
  - destruct (DSLink.server_config self); [|reflexivity].
    cbv zeta. f_equal. rewrite !append_assoc. reflexivity.
  - f_equal. rewrite !append_assoc. reflexivity.
Qed.

End UrlFacts.

Lemma get_url_built_witness :
  DSLink.broker (DSLink.config Links.guarded)
  = ("http" ++ "://localhost:8080" ++ "/" ++ "conn")%string /\
  Py.contains "http" "://localhost:8080" = false /\
  String.length "conn" = 4 /\
  SpecUrl.has_slash "conn" = false /\
  SpecUrl.rewrite_scheme
    (SpecUrl.strip_trailing_segment "http://localhost:8080/conn")
  = "ws://localhost:8080" /\
  DSLink.get_url Urlparse.ParseResult Urlparse.urlparse Urlparse.port
    Links.no_token Links.guarded
  = SpecUrl.parsed Urlparse.ParseResult Urlparse.urlparse Urlparse.port
      ("ws://localhost:8080" ++ "/ws?dsId=" ++ "link-abc" ++ "&auth=" ++
       Spec.strip_padding
         (Crypto.urlsafe_b64encode (Crypto.sha256 "abcsecret")) ++ "").
Proof.
  split; [reflexivity|]. split; [reflexivity|]. split; [reflexivity|].
  split; [reflexivity|].
  exact (get_url_built Urlparse.ParseResult Urlparse.urlparse Urlparse.port
           Links.no_token Links.guarded "://localhost:8080" "conn"
           eq_refl eq_refl eq_refl eq_refl).
Defined.

(** The connect URL of a link whose broker address ends in [/conn]. *)
Example get_url_localhost :
  DSLink.get_url Urlparse.ParseResult Urlparse.urlparse Urlparse.port
    Links.no_token Sample.link
  = Py.Ok ("ws://localhost:8080/ws?dsId=link-abc",
           Urlparse.mkParseResult "localhost:8080", 8080%Z).
Proof. vm_compute. reflexivity. Qed.

Example get_url_guarded :
  DSLink.get_url Urlparse.ParseResult Urlparse.urlparse Urlparse.port
    Links.no_token Links.guarded
  = Py.Ok ("ws://localhost:8080/ws?dsId=link-abc&auth=pCF4t3MnP1yfJDh_vqVGr1N9CLjAayNjHkSHi5zkf0k",
           Urlparse.mkParseResult "localhost:8080", 8080%Z).
Proof. vm_compute. reflexivity. Qed.

(** A broker address without a port gives port 80; one whose port is
    not a number makes the parser, and so [get_url], raise
    [ValueError]. *)
Example get_url_ports :
  DSLink.get_url Urlparse.ParseResult Urlparse.urlparse Urlparse.port
    Links.no_token Links.plain
  = Py.Ok ("wss://broker.example.org/ws?dsId=link-abc",
           Urlparse.mkParseResult "broker.example.org", 80%Z) /\
  DSLink.get_url Urlparse.ParseResult Urlparse.urlparse Urlparse.port
    Links.no_token Links.misspelt
  = Py.Raise Py.ValueError.
Proof. split; vm_compute; reflexivity. Qed.

(** C6, as stated, fails.  For the broker address
    [http://localhost:8080/conn] the URL built has [/ws] between the
    address and the query, which the stated construction does not append.
    For [https://http-gw.example.org:8443/connect] the five characters
    dropped are not the trailing segment, and the [http] of the host name
    is rewritten along with the scheme. *)
Lemma get_url_counterexample :
  (exists url p,
     DSLink.get_url Urlparse.ParseResult Urlparse.urlparse Urlparse.port
       Links.no_token Sample.link
     = Py.Ok ("ws://localhost:8080/ws?dsId=link-abc", url, p) /\
     SpecUrl.connect_url "http://localhost:8080/conn" "link-abc" false ""
     = "ws://localhost:8080?dsId=link-abc" /\
     "ws://localhost:8080/ws?dsId=link-abc"
     <> SpecUrl.connect_url "http://localhost:8080/conn" "link-abc" false "") /\
  (exists url p,
     DSLink.get_url Urlparse.ParseResult Urlparse.urlparse Urlparse.port
       Links.no_token Links.gateway
     = Py.Ok ("wss://ws-gw.example.org:8443/co/ws?dsId=link-abc", url, p) /\
     SpecUrl.connect_url "https://http-gw.example.org:8443/connect" "link-abc"
       false ""
     = "wss://http-gw.example.org:8443?dsId=link-abc" /\
     "wss://ws-gw.example.org:8443/co/ws?dsId=link-abc"
     <> SpecUrl.connect_url "https://http-gw.example.org:8443/connect"
          "link-abc" false "").
Proof.
  split; eexists _, _; (split; [vm_compute; reflexivity|]);
    (split; [vm_compute; reflexivity|]); vm_compute; discriminate.
Qed.

(** ** The serializer *)

Lemma distinct_cons (k : string) (l : list string) :
  Tree.distinct (k :: l) = true ->
  (forall k', In k' l -> k' <> k) /\ Tree.distinct l = true.
Proof.
  simpl. intros H. apply andb_prop in H. destruct H as [H1 H2].
  split; [|exact H2]. intros k' Hin ->.
  apply negb_true_iff in H1.
  assert (existsb (String.eqb k) l = true)
    by (apply existsb_exists; exists k; split; [exact Hin | apply String.eqb_refl]).
  congruence.
Qed.

Lemma mem_app {A : Type} (k : string) (d e : dict A) :
  Dict.mem k (d ++ e) = Dict.mem k d || Dict.mem k e.
Proof.
  induction d as [|[k0 v0] d IH]; [reflexivity|].
  rewrite <- app_comm_cons, !mem_cons, IH. now rewrite orb_assoc.
Qed.

Lemma mem_nil {A : Type} (k : string) : Dict.mem k (@nil (string * A)) = false.
Proof. reflexivity. Qed.

Lemma set_fresh {A : Type} (k : string) (v : A) (d : dict A) :
  Dict.mem k d = false -> Dict.set k v d = d ++ [(k, v)].
Proof.
  induction d as [|[k0 v0] d IH]; intros H; simpl; [reflexivity|].
  rewrite mem_cons in H. apply orb_false_elim in H. destruct H as [H1 H2].
  rewrite H1, IH by exact H2. reflexivity.
Qed.

(** A loop that stores fresh keys appends its entries. *)
Lemma fold_set_append {A B : Type} (skip : A -> bool) (key : A -> string)
  (val : A -> B) (l : list A) (acc : dict B) :
  Tree.distinct (map key l) = true ->
  (forall x, In x l -> skip x = false -> Dict.mem (key x) acc = false) ->
  fold_left
    (fun out x => if skip x then out else Dict.set (key x) (val x) out) l acc
  = acc ++ map (fun x => (key x, val x)) (filter (fun x => negb (skip x)) l).
Proof.
  revert acc; induction l as [|x l IH]; intros acc Hd Hf; simpl.
  - now rewrite app_nil_r.
  - simpl in Hd. apply distinct_cons in Hd. destruct Hd as [Hne Hd].
    destruct (skip x) eqn:Hs; simpl.
    + apply IH; [exact Hd|]. intros y Hy. apply Hf. now right.
    + rewrite set_fresh by (apply Hf; [now left | exact Hs]).
      rewrite IH; [now rewrite <- app_assoc | exact Hd |].
      intros y Hy Hsy. rewrite mem_app, (Hf y (or_intror Hy) Hsy).
      rewrite mem_cons, mem_nil.
      destruct (String.eqb_spec (key y) (key x)) as [E|E]; [|reflexivity].
      exfalso. apply (Hne (key y)); [|exact E]. now apply in_map.
Qed.

Lemma filter_all {A : Type} (l : list A) :
  filter (fun x => negb ((fun _ : A => false) x)) l = l.
Proof. induction l; simpl; [reflexivity | now f_equal]. Qed.

Lemma map_pair_id {A : Type} (l : list (string * A)) :
  map (fun kv => (fst kv, snd kv)) l = l.
Proof. induction l as [|[k v] l IH]; simpl; [reflexivity | now f_equal]. Qed.

Lemma at_not_dollar (k : string) :
  Py.startswith "@" k = true -> Py.startswith "$" k = false.
Proof.
  destruct k as [|c k]; cbn [Py.startswith]; [discriminate|].
  rewrite !andb_true_r.
  intros H. apply Ascii.eqb_eq in H. subst c. reflexivity.
Qed.

Lemma to_json_eq (n : Node.t) :
  Node.to_json n
  = fold_left
      (fun out kc =>
         if Node.transient (snd kc) then out
         else Dict.set (fst kc) (JDict (Node.to_json (snd kc))) out)
      (Node.children n)
      (fold_left (fun out kv => Dict.set (fst kv) (snd kv) out)
         (Node.attributes n)
         (fold_left (fun out kv => Dict.set (fst kv) (snd kv) out)
            (Node.config n) [])).
Proof. destruct n; reflexivity. Qed.

Lemma serializable_eq (n : Node.t) :
  Tree.serializable n
  = (Tree.distinct (Dict.keys (Node.config n)) &&
     Tree.distinct (Dict.keys (Node.attributes n)) &&
     Tree.distinct (Dict.keys (Node.children n)) &&
     forallb (Py.startswith "$") (Dict.keys (Node.config n)) &&
     forallb (Py.startswith "@") (Dict.keys (Node.attributes n)) &&
     Dict.mem "$is" (Node.config n) &&
     forallb
       (fun kc =>
          Node.transient (snd kc) ||
          (Tree.plain (fst kc) && Tree.serializable (snd kc)))
       (Node.children n)).
Proof. destruct n; reflexivity. Qed.

(** What [serializable] says, piece by piece. *)
Lemma serializable_split (n : Node.t) :
  Tree.serializable n = true ->
  Tree.distinct (Dict.keys (Node.config n)) = true /\
  Tree.distinct (Dict.keys (Node.attributes n)) = true /\
  Tree.distinct (Dict.keys (Node.children n)) = true /\
  Forall (fun k => Py.startswith "$" k = true) (Dict.keys (Node.config n)) /\
  Forall (fun k => Py.startswith "@" k = true) (Dict.keys (Node.attributes n)) /\
  Dict.mem "$is" (Node.config n) = true /\
  (forall kc, In kc (Node.children n) -> Node.transient (snd kc) = false ->
     Tree.plain (fst kc) = true /\ Tree.serializable (snd kc) = true).
Proof.
  rewrite serializable_eq. intros H.
  repeat (apply andb_prop in H; let H' := fresh "H" in destruct H as [H H']).
  assert (Hsub : forall kc, In kc (Node.children n) ->
                   Node.transient (snd kc) = false ->
                   Tree.plain (fst kc) = true /\ Tree.serializable (snd kc) = true).
  { intros kc Hin Ht.
    match goal with
    | Hc : forallb _ (Node.children n) = true |- _ =>
        pose proof (proj1 (forallb_forall _ _) Hc kc Hin) as Hk
    end.
    simpl in Hk. rewrite Ht in Hk. simpl in Hk.
    now apply andb_prop in Hk. }
  refine (conj _ (conj _ (conj _ (conj _ (conj _ (conj _ Hsub)))))); auto;
    apply Forall_forall; now apply forallb_forall.
Qed.

(** The output of [to_json] on a serializable node: its config entries,
    its attribute entries, and an entry per child that is not transient. *)
Lemma to_json_serializable (n : Node.t) :
  Tree.serializable n = true ->
  Node.to_json n
  = Node.config n ++ Node.attributes n ++
    map (fun kc => (fst kc, JDict (Node.to_json (snd kc))))
      (Tree.persistent (Node.children n)).
Proof.
  intros Hs. apply serializable_split in Hs.
  destruct Hs as (Hdc & Hda & Hdn & Hc & Ha & _ & Hsub).
  rewrite to_json_eq.
  rewrite (fold_set_append (fun _ => false) fst snd (Node.config n) []);
    [|exact Hdc | reflexivity].
  rewrite filter_all, map_pair_id. cbn [app].
  rewrite (fold_set_append (fun _ => false) fst snd (Node.attributes n));
    [|exact Hda|].
  2:{ intros x Hx _. apply (mem_false_of_prefix "$"); [exact Hc|].
      apply at_not_dollar.
      rewrite Forall_forall in Ha. apply Ha. now apply in_map. }
  rewrite filter_all, map_pair_id.
  rewrite (fold_set_append (fun kc => Node.transient (snd kc)) fst
             (fun kc => JDict (Node.to_json (snd kc))) (Node.children n));
    [|exact Hdn|].
  2:{ intros kc Hin Ht. destruct (Hsub kc Hin Ht) as [Hp _].
      unfold Tree.plain in Hp. apply andb_prop in Hp. destruct Hp as [H1 H2].
      apply negb_true_iff in H1, H2.
      rewrite mem_app.
      rewrite (mem_false_of_prefix "$" _ _ Hc H1).
      rewrite (mem_false_of_prefix "@" _ _ Ha H2). reflexivity. }
  unfold Tree.persistent. now rewrite <- app_assoc.
Qed.

(** ** The deserializer *)

Lemma set_config_quiet key v node link :
  Node.streams node = [] ->
  Node.set_config key v node link
  = (Node.with_config (Dict.set key v (Node.config node)) node,
     DSLink.with_nodes_changed true link).
Proof.
  intros H. unfold Node.set_config.
  now rewrite update_subscribers_no_stream.
Qed.

Lemma set_attribute_quiet key v node link :
  Node.streams node = [] ->
  Node.set_attribute key v node link
  = (Node.with_attributes (Dict.set key v (Node.attributes node)) node,
     DSLink.with_nodes_changed true link).
Proof.
  intros H. unfold Node.set_attribute.
  now rewrite update_subscribers_no_stream.
Qed.

Lemma mem_perm {A : Type} (k : string) (d e : dict A) :
  Permutation d e -> Dict.mem k e = Dict.mem k d.
Proof.
  intros H. rewrite !mem_keys.
  apply eq_true_iff_eq. rewrite !existsb_exists.
  assert (P : Permutation (Dict.keys d) (Dict.keys e))
    by (apply Permutation_map; exact H).
  split; intros (x & Hin & Hx); exists x; split; try exact Hx.
  - exact (Permutation_in _ (Permutation_sym P) Hin).
  - exact (Permutation_in _ P Hin).
Qed.

Lemma insert_fresh {A : Type} (rehash : dict A -> dict A) (k : string) (v : A)
  (d : dict A) :
  Dict.mem k d = false -> Dict.insert rehash k v d = rehash (d ++ [(k, v)]).
Proof.
  intros H. unfold Dict.insert. rewrite H, (set_fresh _ _ _ H). reflexivity.
Qed.

Lemma add_child_quiet rehash child node link :
  Node.streams node = [] ->
  Dict.mem (Node.name child) (Node.children node) = false ->
  Node.add_child rehash child node link
  = (Py.Ok tt,
     Node.with_children
       (rehash (Node.children node ++ [(Node.name child, child)])) node,
     DSLink.with_nodes_changed true link).
Proof.
  intros Hs Hm. unfold Node.add_child.
  rewrite Hm, (insert_fresh _ _ _ _ Hm).
  destruct (_ || _); [|reflexivity].
  now rewrite update_subscribers_no_stream.
Qed.

Lemma plain_neither (k : string) :
  Tree.plain k = true ->
  Py.startswith "$" k = false /\ Py.startswith "@" k = false.
Proof.
  unfold Tree.plain. intros H. apply andb_prop in H. destruct H as [H1 H2].
  now apply negb_true_iff in H1, H2.
Qed.

Section Rebuild.

Variable rehash : dict Node.t -> dict Node.t.
Hypothesis rehash_arranges : Dict.arrangement rehash.

Variable F :
  json -> option Node.t -> option string -> DSLink.t
  -> Py.outcome Node.t * DSLink.t.
(** What is known of the node rebuilt for the child of a given name. *)
Variable Q : string -> Node.t -> Prop.

(** The loop over the properties, in whatever order they come: each is
    stored as a config entry, as an attribute, or as a child rebuilt by
    the nested call, according to its key.  The children come out in
    whatever order the insertions leave them. *)
Lemma props_any (items : dict json) (node : Node.t) (link : DSLink.t) :
  Tree.distinct (Dict.keys items) = true ->
  (forall kv, In kv items -> Tree.is_child kv = true ->
     forall root link,
       exists m link',
         F (snd kv) root (Some (fst kv)) link = (Py.Ok m, link') /\
         Node.name m = fst kv /\ Q (fst kv) m) ->
  (forall kv, In kv items -> Dict.mem (fst kv) (Node.children node) = false) ->
  Node.streams node = [] ->
  exists ms node' link',
    Node.from_json_props rehash F items node link = (Py.Ok node', link') /\
    Node.config node'
    = Dict.update (Node.config node) (filter Tree.is_config items) /\
    Node.attributes node'
    = Dict.update (Node.attributes node) (filter Tree.is_attribute items) /\
    Permutation (Node.children node') (Node.children node ++ ms) /\
    Forall2 (fun kv km => fst km = fst kv /\ Q (fst kv) (snd km))
      (filter Tree.is_child items) ms /\
    Node.name node' = Node.name node.
Proof.
  revert node link; induction items as [|[k v] items IH];
    intros node link Hd HF Hfresh Hs.
  - exists [], node, link. rewrite app_nil_r. repeat split; auto.
  - cbn [Dict.keys map fst] in Hd. apply distinct_cons in Hd.
    destruct Hd as [Hne Hd].
    assert (HF' : forall kv, In kv items -> Tree.is_child kv = true ->
              forall root link,
                exists m link',
                  F (snd kv) root (Some (fst kv)) link = (Py.Ok m, link') /\
                  Node.name m = fst kv /\ Q (fst kv) m)
      by (intros kv Hin; apply HF; now right).
    cbn [Node.from_json_props filter].
    unfold Tree.is_config at 1, Tree.is_attribute at 1, Tree.is_child at 1, Tree.plain.
    cbn [fst].
    destruct (Py.startswith "$" k) eqn:E1.
    + (* a config entry *)
      assert (E : exists node1,
                 (if String.eqb k "$type"
                  then let '(node0, link0) := Node.set_type v node link in
                       Node.from_json_props rehash F items node0 link0
                  else let '(node0, link0) := Node.set_config k v node link in
                       Node.from_json_props rehash F items node0 link0)
                 = Node.from_json_props rehash F items node1
                     (DSLink.with_nodes_changed true link) /\
                 Node.config node1 = Dict.set k v (Node.config node) /\
                 Node.attributes node1 = Node.attributes node /\
                 Node.children node1 = Node.children node /\
                 Node.streams node1 = [] /\ Node.name node1 = Node.name node).
      { destruct (String.eqb_spec k "$type") as [->|_].
        - unfold Node.set_type. rewrite set_config_quiet by exact Hs.
          eexists. split; [reflexivity|]. repeat split; exact Hs.
        - rewrite set_config_quiet by exact Hs.
          eexists. split; [reflexivity|]. repeat split; exact Hs. }
      destruct E as (node1 & -> & Hc1 & Ha1 & Hn1 & Hs1 & Hnm1).
      destruct (IH node1 (DSLink.with_nodes_changed true link) Hd HF')
        as (ms & node' & link' & E & Hc & Ha & Hn & Hall & Hnm);
        [intros kv Hin; rewrite Hn1; apply Hfresh; now right | exact Hs1 |].
      exists ms, node', link'. rewrite E. cbn [negb andb].
      rewrite Hn1 in Hn.
      rewrite Hc, Ha, Hnm, Hc1, Ha1, Hnm1. repeat split; auto.
    + cbn [negb andb]. destruct (Py.startswith "@" k) eqn:E2.
      * (* an attribute entry *)
        rewrite set_attribute_quiet by exact Hs.
        destruct (IH (Node.with_attributes
                        (Dict.set k v (Node.attributes node)) node)
                    (DSLink.with_nodes_changed true link) Hd HF')
          as (ms & node' & link' & E & Hc & Ha & Hn & Hall & Hnm);
          [intros kv Hin; apply Hfresh; now right | exact Hs |].
        exists ms, node', link'. rewrite E, Hc, Ha, Hnm.
        repeat split; auto.
      * (* the entry of a child *)
        destruct (HF (k, v) (or_introl eq_refl)) with (root := Some node)
          (link := link) as (m & link1 & Em & Hname & Hq).
        { unfold Tree.is_child, Tree.plain. cbn [fst]. now rewrite E1, E2. }
        cbn [fst snd] in Em, Hname, Hq. rewrite Em.
        pose proof (Hfresh (k, v) (or_introl eq_refl)) as Hk. cbn [fst] in Hk.
        rewrite add_child_quiet by (rewrite ?Hname; assumption).
        rewrite Hname.
        pose proof (rehash_arranges (Node.children node ++ [(k, m)])) as Hperm.
        destruct (IH (Node.with_children
                        (rehash (Node.children node ++ [(k, m)])) node)
                    (DSLink.with_nodes_changed true link1) Hd HF')
          as (ms & node' & link' & E & Hc & Ha & Hn & Hall & Hnm).
        { intros kv Hin. cbn [Node.children Node.with_children].
          rewrite (mem_perm _ _ _ (Permutation_sym Hperm)).
          rewrite mem_app, (Hfresh kv (or_intror Hin)), mem_cons, mem_nil.
          destruct (String.eqb_spec (fst kv) k) as [Ek|Ek]; [|reflexivity].
          exfalso. apply (Hne (fst kv)); [|exact Ek].
          unfold Dict.keys. now apply in_map. }
        { exact Hs. }
        exists ((k, m) :: ms), node', link'. rewrite E.
        cbn [Node.children Node.with_children] in Hn.
        rewrite Hc, Ha, Hnm. cbn [negb andb].
        repeat split; auto.
        rewrite Hn, Hperm, <- app_assoc. reflexivity.
Qed.

End Rebuild.

(** ** The round trip *)

Lemma node_induction (P : Node.t -> Prop) :
  (forall n, Forall (fun kc => P (snd kc)) (Node.children n) -> P n) ->
  forall n, P n.
Proof.
  intros H. fix IH 1. intros n. apply H.
  destruct n as [nm pth sa tr v ch cfg at_ subs strs rem cb]. simpl.
  induction ch as [|[k c] ch IHch]; constructor; [apply IH | exact IHch].
Qed.

Lemma lookup_in {A : Type} (k : string) (v : A) (d : dict A) :
  Tree.distinct (Dict.keys d) = true -> In (k, v) d -> Dict.lookup k d = Some v.
Proof.
  induction d as [|[k0 v0] d IH]; intros Hd Hin; [contradiction|].
  cbn [Dict.keys map fst] in Hd. apply distinct_cons in Hd.
  destruct Hd as [Hne Hd]. simpl. destruct Hin as [[= -> ->]|Hin].
  - now rewrite String.eqb_refl.
  - destruct (String.eqb_spec k k0) as [->|_]; [|now apply IH].
    exfalso. apply (Hne k0); [|reflexivity].
    change k0 with (fst (k0, v)). unfold Dict.keys in *. now apply in_map.
Qed.

Lemma lookup_some_in {A : Type} (k : string) (v : A) (d : dict A) :
  Dict.lookup k d = Some v -> In (k, v) d.
Proof.
  induction d as [|[k0 v0] d IH]; simpl; [discriminate|].
  destruct (String.eqb_spec k k0) as [->|_].
  - intros [= ->]. now left.
  - intros H. right. now apply IH.
Qed.

Lemma lookup_none_mem {A : Type} (k : string) (d : dict A) :
  Dict.lookup k d = None <-> Dict.mem k d = false.
Proof. unfold Dict.mem. destruct (Dict.lookup k d); split; congruence. Qed.

Lemma lookup_update {A : Type} (k : string) (d e : dict A) :
  Tree.distinct (Dict.keys e) = true ->
  Dict.lookup k (Dict.update d e)
  = match Dict.lookup k e with
    | Some v => Some v
    | None => Dict.lookup k d
    end.
Proof.
  unfold Dict.update. revert d; induction e as [|[k0 v0] e IH]; intros d Hd.
  - reflexivity.
  - cbn [Dict.keys map fst] in Hd. apply distinct_cons in Hd.
    destruct Hd as [Hne Hd]. cbn [fold_left fst snd Dict.lookup].
    rewrite IH by exact Hd. rewrite lookup_set.
    destruct (String.eqb_spec k k0) as [->|_]; [|reflexivity].
    destruct (Dict.lookup k0 e) as [v|] eqn:E; [|reflexivity].
    exfalso. apply lookup_some_in in E. apply (Hne k0); [|reflexivity].
    change k0 with (fst (k0, v)). now apply in_map.
Qed.

Lemma distinct_filter {A : Type} (f : string * A -> bool) (d : dict A) :
  Tree.distinct (Dict.keys d) = true ->
  Tree.distinct (Dict.keys (filter f d)) = true.
Proof.
  induction d as [|[k v] d IH]; intros Hd; [reflexivity|].
  cbn [Dict.keys map fst] in Hd. pose proof Hd as Hd0.
  apply distinct_cons in Hd. destruct Hd as [Hne Hd].
  simpl. destruct (f (k, v)); [|now apply IH].
  cbn [Dict.keys map fst Tree.distinct]. apply andb_true_intro. split.
  - apply negb_true_iff. destruct (existsb _ _) eqn:E; [|reflexivity].
    apply existsb_exists in E. destruct E as [k' [Hin Ek]].
    apply String.eqb_eq in Ek. subst k'. exfalso.
    apply (Hne k); [|reflexivity].
    apply in_map_iff in Hin. destruct Hin as [[k1 v1] [<- Hin]].
    apply filter_In in Hin. destruct Hin as [Hin _].
    change (fst (k1, v1)) with (fst (k1, v1)). unfold Dict.keys.
    now apply (in_map fst) in Hin.
  - now apply IH.
Qed.

Lemma distinct_NoDup (l : list string) : Tree.distinct l = true <-> NoDup l.
Proof.
  induction l as [|k l IH]; simpl.
  - split; [constructor | reflexivity].
  - rewrite andb_true_iff, negb_true_iff, IH. split.
    + intros [H1 H2]. constructor; [|exact H2]. intros Hin.
      assert (existsb (String.eqb k) l = true)
        by (apply existsb_exists; exists k; split;
            [exact Hin | apply String.eqb_refl]).
      congruence.
    + intros H. inversion_clear H as [|? ? Hn Hd]. split; [|exact Hd].
      destruct (existsb _ _) eqn:E; [|reflexivity].
      apply existsb_exists in E. destruct E as [k' [Hin Ek]].
      apply String.eqb_eq in Ek. subst k'. contradiction.
Qed.

Lemma distinct_keys_perm {A : Type} (d e : dict A) :
  Permutation d e ->
  Tree.distinct (Dict.keys d) = true -> Tree.distinct (Dict.keys e) = true.
Proof.
  intros Hp. rewrite !distinct_NoDup. apply Permutation_NoDup.
  unfold Dict.keys. now apply Permutation_map.
Qed.

Lemma filter_perm {A : Type} (keep : A -> bool) :
  forall d e : list A,
    Permutation d e -> Permutation (filter keep d) (filter keep e).
Proof.
  intros l l'. set (f := keep).
  induction 1 as [| x l l' _ IH | x y l | l l' l'' _ IH1 _ IH2]; simpl.
  - constructor.
  - destruct (f x); [now constructor | exact IH].
  - destruct (f x), (f y); try reflexivity. constructor.
  - now transitivity (filter f l').
Qed.

Lemma lookup_perm {A : Type} (k : string) (d e : dict A) :
  Tree.distinct (Dict.keys d) = true -> Permutation d e ->
  Dict.lookup k e = Dict.lookup k d.
Proof.
  intros Hd Hp. pose proof (distinct_keys_perm d e Hp Hd) as He.
  destruct (Dict.lookup k d) as [v|] eqn:E.
  - apply lookup_in; [exact He|].
    apply (Permutation_in _ Hp). now apply lookup_some_in.
  - destruct (Dict.lookup k e) as [v|] eqn:E'; [|reflexivity].
    apply lookup_some_in in E'. apply (Permutation_in _ (Permutation_sym Hp)) in E'.
    apply (lookup_in _ _ _ Hd) in E'. congruence.
Qed.

Lemma filter_keep {A : Type} (f : A -> bool) (l : list A) :
  (forall x, In x l -> f x = true) -> filter f l = l.
Proof.
  induction l as [|x l IH]; intros H; simpl; [reflexivity|].
  rewrite (H x (or_introl eq_refl)), IH; [reflexivity|].
  intros y Hy. apply H. now right.
Qed.

Lemma filter_drop {A : Type} (f : A -> bool) (l : list A) :
  (forall x, In x l -> f x = false) -> filter f l = [].
Proof.
  induction l as [|x l IH]; intros H; simpl; [reflexivity|].
  rewrite (H x (or_introl eq_refl)). apply IH.
  intros y Hy. apply H. now right.
Qed.

Section Pairing.

Context {A B : Type}.
Variable R : A -> B -> Prop.

Lemma paired_left (l : list A) (ms : list B) (x : A) :
  Forall2 R l ms -> In x l -> exists y, In y ms /\ R x y.
Proof.
  induction 1 as [|x0 y0 l ms Hr _ IH]; [contradiction|].
  intros [->|Hin].
  - exists y0. split; [now left | exact Hr].
  - destruct (IH Hin) as (y & Hy & Hr'). exists y. split; [now right|exact Hr'].
Qed.

Lemma paired_right (l : list A) (ms : list B) (y : B) :
  Forall2 R l ms -> In y ms -> exists x, In x l /\ R x y.
Proof.
  induction 1 as [|x0 y0 l ms Hr _ IH]; [contradiction|].
  intros [->|Hin].
  - exists x0. split; [now left | exact Hr].
  - destruct (IH Hin) as (x & Hx & Hr'). exists x. split; [now right|exact Hr'].
Qed.

End Pairing.

Lemma paired_keys {A B : Type} (P : string * A -> string * B -> Prop)
  (l : dict A) (ms : dict B) :
  (forall x y, P x y -> fst y = fst x) ->
  Forall2 P l ms -> Dict.keys ms = Dict.keys l.
Proof.
  intros HP. induction 1 as [|x y l ms Hxy _ IH]; [reflexivity|].
  cbn [Dict.keys map]. f_equal; [now apply HP | exact IH].
Qed.

Lemma from_json_eq (rehash : dict Node.t -> dict Node.t) (obj : json)
  (root : option Node.t) (nm : option string) (link : DSLink.t) :
  Node.from_json rehash obj root nm link
  = match Node.init nm root false with
    | Py.Raise e => (Py.Raise e, link)
    | Py.Ok node =>
        match obj with
        | JDict d =>
            Node.from_json_props rehash (Node.from_json rehash) d node link
        | _ => (Py.Ok node, link)
        end
    end.
Proof. destruct obj; reflexivity. Qed.

Lemma init_named (nm : string) (root : option Node.t) (sa : bool) :
  exists pth, Node.init (Some nm) root sa = Py.Ok (Node.fresh nm pth sa).
Proof.
  destruct root as [p|]; simpl; [|eauto].
  destruct (Py.endswith "/" (Node.path p)); eauto.
Qed.

(** The entries of a Tree.serialization, sorted out by their keys. *)
Lemma serialization_entries (n : Node.t) (kids : dict json) :
  Tree.serializable n = true ->
  Dict.keys kids = Dict.keys (Tree.persistent (Node.children n)) ->
  let full := Node.config n ++ Node.attributes n ++ kids in
  filter Tree.is_config full = Node.config n /\
  filter Tree.is_attribute full = Node.attributes n /\
  filter Tree.is_child full = kids /\
  Tree.distinct (Dict.keys full) = true.
Proof.
  intros Hser Hkeys full. apply serializable_split in Hser.
  destruct Hser as (Hdc & Hda & Hdn & Hc & Ha & _ & Hsub).
  rewrite Forall_forall in Hc, Ha.
  assert (Hcfg : forall kv, In kv (Node.config n) ->
                 Py.startswith "$" (fst kv) = true)
    by (intros kv Hin; apply Hc; unfold Dict.keys; now apply in_map).
  assert (Hatt : forall kv, In kv (Node.attributes n) ->
                 Py.startswith "@" (fst kv) = true)
    by (intros kv Hin; apply Ha; unfold Dict.keys; now apply in_map).
  assert (Hkid : forall kv, In kv kids -> Tree.plain (fst kv) = true).
  { intros kv Hin. apply (in_map fst) in Hin. fold (Dict.keys kids) in Hin.
    rewrite Hkeys in Hin. apply in_map_iff in Hin.
    destruct Hin as (kc & <- & Hin). unfold Tree.persistent in Hin.
    apply filter_In in Hin. destruct Hin as [Hin Ht].
    apply negb_true_iff in Ht. now apply Hsub. }
  subst full. rewrite !filter_app. repeat split.
  - rewrite (filter_keep _ (Node.config n)), !filter_drop;
      [now rewrite !app_nil_r | | | ].
    + intros kv Hin. unfold Tree.is_config.
      now destruct (plain_neither _ (Hkid kv Hin)).
    + intros kv Hin. unfold Tree.is_config. now apply at_not_dollar, Hatt.
    + exact Hcfg.
  - rewrite (filter_keep _ (Node.attributes n)), !filter_drop;
      [cbn [app]; now rewrite app_nil_r | | | ].
    + intros kv Hin. unfold Tree.is_attribute.
      destruct (plain_neither _ (Hkid kv Hin)) as [-> ->]. reflexivity.
    + intros kv Hin. unfold Tree.is_attribute. now rewrite (Hcfg kv Hin).
    + intros kv Hin. unfold Tree.is_attribute.
      now rewrite (at_not_dollar _ (Hatt kv Hin)), (Hatt kv Hin).
  - rewrite (filter_keep _ kids), !filter_drop; [reflexivity | | | ].
    + intros kv Hin. unfold Tree.is_child, Tree.plain.
      now rewrite (at_not_dollar _ (Hatt kv Hin)), (Hatt kv Hin).
    + intros kv Hin. unfold Tree.is_child, Tree.plain. now rewrite (Hcfg kv Hin).
    + exact Hkid.
  - apply distinct_NoDup. unfold Dict.keys. rewrite !map_app.
    apply NoDup_app; [now apply distinct_NoDup | apply NoDup_app |].
    + now apply distinct_NoDup.
    + fold (Dict.keys kids). rewrite Hkeys. apply distinct_NoDup.
      now apply distinct_filter.
    + intros k Hk1 Hk2. apply in_map_iff in Hk1, Hk2.
      destruct Hk1 as (kv1 & <- & H1), Hk2 as (kv2 & E & H2).
      pose proof (Hatt kv1 H1) as P1.
      destruct (plain_neither _ (Hkid kv2 H2)) as [_ P2]. congruence.
    + intros k Hk1 Hk2. apply in_map_iff in Hk1.
      destruct Hk1 as (kv1 & <- & H1). pose proof (Hcfg kv1 H1) as P1.
      apply in_app_or in Hk2. destruct Hk2 as [Hk2|Hk2];
        apply in_map_iff in Hk2; destruct Hk2 as (kv2 & E & H2).
      * pose proof (at_not_dollar _ (Hatt kv2 H2)). congruence.
      * destruct (plain_neither _ (Hkid kv2 H2)) as [P2 _]. congruence.
Qed.

Lemma rebuild_any (rehash : dict Node.t -> dict Node.t) (n : Node.t) :
  Dict.arrangement rehash ->
  Tree.serializable n = true ->
  forall items, Tree.serialization n items ->
  forall root nm link,
    exists m link',
      Node.from_json rehash (JDict items) root (Some nm) link
      = (Py.Ok m, link') /\
      Tree.same_structure n m /\ Node.name m = nm.
Proof.
  intros Hrehash. pattern n. apply node_induction. clear n.
  intros n IHn Hser items Hitems root nm link.
  destruct Hitems as [n kids items Hkids Hperm].
  pose proof (paired_keys _ _ _ (fun _ _ H => proj1 H) Hkids) as Hkeys.
  destruct (serialization_entries n kids Hser Hkeys)
    as (Fc & Fa & Fk & Hdfull).
  pose proof Hser as Hparts. apply serializable_split in Hparts.
  destruct Hparts as (Hdc & Hda & Hdn & _ & _ & His & Hsub).
  pose proof (distinct_filter (fun kc => negb (Node.transient (snd kc))) _ Hdn)
    as Hdp. fold (Tree.persistent (Node.children n)) in Hdp.
  assert (Hditems : Tree.distinct (Dict.keys items) = true)
    by (apply (distinct_keys_perm _ _ (Permutation_sym Hperm)); exact Hdfull).
  rewrite from_json_eq.
  destruct (init_named nm root false) as [pth ->].
  destruct (props_any rehash Hrehash (Node.from_json rehash)
              (fun k m => exists c, In (k, c) (Tree.persistent (Node.children n))
                                    /\ Tree.same_structure c m)
              items (Node.fresh nm pth false) link Hditems)
    as (ms & m & link' & E & Hc & Ha & Hn & Hall & Hnm).
  { intros kv Hin Hchild root' link0.
    assert (Hk : In kv kids).
    { rewrite <- Fk. apply filter_In. split; [|exact Hchild].
      exact (Permutation_in _ Hperm Hin). }
    destruct (paired_right _ _ _ kv Hkids Hk) as (kc & Hkc & Ek & d & Ed & Hd).
    unfold Tree.persistent in Hkc. pose proof Hkc as Hkc'.
    apply filter_In in Hkc. destruct Hkc as [Hin' Ht].
    apply negb_true_iff in Ht. destruct (Hsub kc Hin' Ht) as [_ Hsk].
    rewrite Forall_forall in IHn.
    destruct (IHn kc Hin' Hsk d Hd root' (fst kv) link0)
      as (m & l' & Em & Hsame & Hname).
    exists m, l'. rewrite Ed. split; [exact Em|]. split; [exact Hname|].
    exists (snd kc). split; [|exact Hsame].
    rewrite Ek. now destruct kc. }
  { reflexivity. }
  { reflexivity. }
  exists m, link'. split; [exact E|]. split; [|now rewrite Hnm].
  cbn [Node.config Node.attributes Node.children Node.fresh app] in Hc, Ha, Hn.
  pose proof (filter_perm Tree.is_config _ _ Hperm) as Pc. rewrite Fc in Pc.
  pose proof (filter_perm Tree.is_attribute _ _ Hperm) as Pa. rewrite Fa in Pa.
  pose proof (filter_perm Tree.is_child _ _ Hperm) as Pk. rewrite Fk in Pk.
  pose proof (paired_keys _ _ _ (fun _ _ H => proj1 H) Hall) as Hkms.
  assert (Hdms : Tree.distinct (Dict.keys ms) = true)
    by (rewrite Hkms; now apply distinct_filter).
  assert (Hlook : forall k, Dict.lookup k (Node.children m) = Dict.lookup k ms)
    by (intros k; apply lookup_perm;
        [exact Hdms | exact (Permutation_sym Hn)]).
  constructor.
  - intros k. rewrite Hc, lookup_update by now apply distinct_filter.
    rewrite (lookup_perm k _ _ Hdc (Permutation_sym Pc)).
    destruct (Dict.lookup k (Node.config n)) as [v|] eqn:Ek; [reflexivity|].
    cbn [Dict.lookup].
    destruct (String.eqb_spec k "$is") as [->|_]; [|reflexivity].
    apply lookup_none_mem in Ek. congruence.
  - intros k. rewrite Ha, lookup_update by now apply distinct_filter.
    rewrite (lookup_perm k _ _ Hda (Permutation_sym Pa)).
    destruct (Dict.lookup k (Node.attributes n)); reflexivity.
  - intros k c Hk Ht. apply lookup_some_in in Hk.
    assert (Hin : In (k, c) (Tree.persistent (Node.children n))).
    { unfold Tree.persistent. apply filter_In. split; [exact Hk|].
      cbn [snd]. now rewrite Ht. }
    destruct (paired_left _ _ _ (k, c) Hkids Hin) as (kj & Hkj & Ekj & _).
    cbn [fst] in Ekj.
    apply (Permutation_in _ (Permutation_sym Pk)) in Hkj.
    destruct (paired_left _ _ _ kj Hall Hkj) as ([k' m'] & Hm' & Ek' & c0 & Hc0 & Hs0).
    cbn [fst snd] in Ek', Hc0, Hs0. rewrite Ekj in Ek', Hc0. subst k'.
    assert (c0 = c).
    { apply (lookup_in _ _ _ Hdp) in Hc0, Hin. congruence. }
    subst c0. exists m'. split; [|exact Hs0].
    rewrite Hlook. now apply lookup_in.
  - intros k c' Hk. rewrite Hlook in Hk. apply lookup_some_in in Hk.
    destruct (paired_right _ _ _ (k, c') Hall Hk) as (kv & _ & Ek & c & Hc' & _).
    cbn [fst] in Ek. rewrite <- Ek in Hc'.
    unfold Tree.persistent in Hc'. apply filter_In in Hc'.
    destruct Hc' as [Hin Ht]. cbn [snd] in Ht. apply negb_true_iff in Ht.
    exists c. split; [|exact Ht]. now apply lookup_in.
Qed.

Lemma to_json_serialization (n : Node.t) :
  Tree.serializable n = true -> Tree.serialization n (Node.to_json n).
Proof.
  pattern n. apply node_induction. clear n. intros n IHn Hser.
  rewrite (to_json_serializable n Hser).
  apply Tree.Serialization
    with (kids := map (fun kc => (fst kc, JDict (Node.to_json (snd kc))))
                    (Tree.persistent (Node.children n)));
    [|reflexivity].
  apply serializable_split in Hser.
  destruct Hser as (_ & _ & _ & _ & _ & _ & Hsub).
  rewrite Forall_forall in IHn.
  assert (H : forall kc, In kc (Tree.persistent (Node.children n)) ->
              Tree.serialization (snd kc) (Node.to_json (snd kc))).
  { intros kc Hin. unfold Tree.persistent in Hin. apply filter_In in Hin.
    destruct Hin as [Hin Ht]. apply negb_true_iff in Ht.
    apply IHn; [exact Hin | now apply Hsub]. }
  induction (Tree.persistent (Node.children n)) as [|kc l IHl]; simpl.
  - constructor.
  - constructor.
    + split; [reflexivity|]. eexists. split; [reflexivity|].
      apply H. now left.
    + apply IHl. intros kc' Hin. apply H. now right.
Qed.

Lemma to_json_entries (n : Node.t) :
  Tree.serializable n = true ->
  (forall k v, Dict.lookup k (Node.config n) = Some v ->
     Dict.lookup k (Node.to_json n) = Some v) /\
  (forall k v, Dict.lookup k (Node.attributes n) = Some v ->
     Dict.lookup k (Node.to_json n) = Some v) /\
  (forall k c, Dict.lookup k (Node.children n) = Some c ->
     Node.transient c = false ->
     Dict.lookup k (Node.to_json n) = Some (JDict (Node.to_json c))) /\
  (forall k j, Dict.lookup k (Node.to_json n) = Some j ->
     Dict.lookup k (Node.config n) = Some j \/
     Dict.lookup k (Node.attributes n) = Some j \/
     exists c, Dict.lookup k (Node.children n) = Some c /\
               Node.transient c = false /\ j = JDict (Node.to_json c)).
Proof.
  intros Hser. rewrite (to_json_serializable n Hser).
  set (kids := map (fun kc => (fst kc, JDict (Node.to_json (snd kc))))
                 (Tree.persistent (Node.children n))).
  assert (Hkeys : Dict.keys kids = Dict.keys (Tree.persistent (Node.children n))).
  { unfold kids, Dict.keys. rewrite map_map. reflexivity. }
  destruct (serialization_entries n kids Hser Hkeys) as (_ & _ & _ & Hdfull).
  cbv zeta in Hdfull.
  apply serializable_split in Hser.
  destruct Hser as (Hdc & Hda & Hdn & _).
  repeat split.
  - intros k v Hk. apply lookup_in; [exact Hdfull|].
    apply in_or_app. left. apply lookup_some_in, Hk.
  - intros k v Hk. apply lookup_in; [exact Hdfull|].
    apply in_or_app. right. apply in_or_app. left. apply lookup_some_in, Hk.
  - intros k c Hk Ht. apply lookup_in; [exact Hdfull|].
    apply in_or_app. right. apply in_or_app. right. unfold kids.
    apply in_map_iff. exists (k, c). split; [reflexivity|].
    unfold Tree.persistent. apply filter_In. split.
    + apply lookup_some_in, Hk.
    + cbn [snd]. rewrite Ht. reflexivity.
  - intros k j Hk. apply lookup_some_in in Hk.
    apply in_app_or in Hk. destruct Hk as [Hk|Hk].
    { left. apply lookup_in; assumption. }
    apply in_app_or in Hk. destruct Hk as [Hk|Hk].
    { right. left. apply lookup_in; assumption. }
    right. right. unfold kids in Hk. apply in_map_iff in Hk.
    destruct Hk as ([k' c] & E & Hin). cbn [fst snd] in E.
    injection E as <- <-.
    unfold Tree.persistent in Hin. apply filter_In in Hin.
    destruct Hin as [Hin Ht]. cbn [snd] in Ht. apply negb_true_iff in Ht.
    exists c. split; [apply lookup_in; assumption|]. split; [exact Ht|reflexivity].
Qed.

(** C7, as amended.  Let [n] be a serializable node: [n] and every
    descendant of [n] reached through children that are not transient has
    one entry per key, config keys that begin with a dollar sign and
    include [$is], attribute keys that begin with an at sign, and children
    that are not transient named with neither sign.  Then [to_json] holds
    under each config key its entry, under each attribute key its entry,
    under the name of each child that is not transient the [to_json] of
    that child, and no other entry, so nothing of a transient child; and
    [from_json] of that output, its entries met in whatever order at
    every level and the children entered in whatever order the
    insertions leave them, returns a node with the same config, the same
    attributes, and the same children that are not transient, rebuilt in
    the same way. *)
Theorem from_json_to_json (rehash : dict Node.t -> dict Node.t) (n : Node.t) :
  Dict.arrangement rehash ->
  Tree.serializable n = true ->
  ((forall k v, Dict.lookup k (Node.config n) = Some v ->
      Dict.lookup k (Node.to_json n) = Some v) /\
   (forall k v, Dict.lookup k (Node.attributes n) = Some v ->
      Dict.lookup k (Node.to_json n) = Some v) /\
   (forall k c, Dict.lookup k (Node.children n) = Some c ->
      Node.transient c = false ->
      Dict.lookup k (Node.to_json n) = Some (JDict (Node.to_json c))) /\
   (forall k j, Dict.lookup k (Node.to_json n) = Some j ->
      Dict.lookup k (Node.config n) = Some j \/
      Dict.lookup k (Node.attributes n) = Some j \/
      exists c, Dict.lookup k (Node.children n) = Some c /\
                Node.transient c = false /\ j = JDict (Node.to_json c)))
  /\ Tree.serialization n (Node.to_json n)
  /\ forall items : dict json,
       Tree.serialization n items ->
       forall (root : option Node.t) (nm : string) (link : DSLink.t),
         exists m link',
           Node.from_json rehash (JDict items) root (Some nm) link
           = (Py.Ok m, link') /\
           Tree.same_structure n m /\ Node.name m = nm.
Proof.
  intros Hr Hs. split; [|split].
  - exact (to_json_entries n Hs).
  - exact (to_json_serialization n Hs).
  - exact (rebuild_any rehash n Hr Hs).
Qed.

Lemma from_json_to_json_witness :
  Dict.arrangement (@rev (string * Node.t)) /\
  Tree.serializable Trees.site = true /\
  exists m link',
    Node.from_json (@rev (string * Node.t)) (JDict (Node.to_json Trees.site))
      None (Some "site") Sample.link
    = (Py.Ok m, link') /\
    Tree.same_structure Trees.site m /\ Node.name m = "site".
Proof.
  assert (Hrev : Dict.arrangement (@rev (string * Node.t)))
    by (intros d; apply Permutation_sym, Permutation_rev).
  split; [exact Hrev|]. split; [reflexivity|].
  exact (proj2 (proj2 (from_json_to_json (@rev _) Trees.site Hrev eq_refl))
           (Node.to_json Trees.site)
           (proj1 (proj2 (from_json_to_json (@rev _) Trees.site Hrev eq_refl)))
           None "site" Sample.link).
Defined.

Lemma same_structure_children (n m : Node.t) :
  Tree.same_structure n m ->
  forall k c,
    Dict.lookup k (Node.children n) = Some c ->
    Node.transient c = false ->
    exists c', Dict.lookup k (Node.children m) = Some c' /\
               Tree.same_structure c c'.
Proof. intros H. destruct H. assumption. Qed.

Lemma same_structure_config (n m : Node.t) :
  Tree.same_structure n m ->
  forall k, Dict.lookup k (Node.config m) = Dict.lookup k (Node.config n).
Proof. intros H. destruct H. assumption. Qed.

(** C7, as stated, fails for a node with a child whose name begins with
    an at sign: [to_json] stores the child under that name, [from_json]
    reads the entry as an attribute, in whichever order it meets the two
    entries, and the node returned has the child's serialization for an
    attribute and no child.  It also fails for a node whose [$is] entry
    has been removed: the node returned has the entry that the constructor
    puts there. *)
Lemma from_json_to_json_counterexample :
  (Node.transient (Node.fresh "@home" "/house/@home" false) = false /\
   Dict.lookup "@home" (Node.children Trees.house)
   = Some (Node.fresh "@home" "/house/@home" false) /\
   Dict.lookup "@home" (Node.to_json Trees.house)
   = Some (JDict [("$is", JStr "node")]) /\
   forall (rehash : dict Node.t -> dict Node.t) (items : dict json),
     Permutation (Node.to_json Trees.house) items ->
     exists m link',
       Node.from_json rehash (JDict items) None (Some "house") Sample.link
       = (Py.Ok m, link') /\
       Node.children m = [] /\
       Node.attributes m = [("@home", JDict [("$is", JStr "node")])] /\
       ~ Tree.same_structure Trees.house m) /\
  (exists bare,
     Node.remove_config_attr 1000 "/$$is" (Node.fresh "a" "/a" false)
     = (Py.Ok tt, bare) /\
     Node.config bare = [] /\
     Node.to_json bare = [] /\
     forall rehash : dict Node.t -> dict Node.t,
     exists m link',
       Node.from_json rehash (JDict (Node.to_json bare)) None (Some "a")
         Sample.link
       = (Py.Ok m, link') /\
       Node.config m = [("$is", JStr "node")] /\
       ~ Tree.same_structure bare m).
Proof.
  split.
  - repeat (split; [reflexivity|]).
    intros rehash items Hp.
    change (Node.to_json Trees.house)
      with [("$is", JStr "node"); ("@home", JDict [("$is", JStr "node")])]
      in Hp.
    apply Permutation_length_2_inv in Hp.
    destruct Hp as [-> | ->];
      (eexists _, _; split; [reflexivity|];
       repeat (split; [reflexivity|]);
       intros H;
       destruct (same_structure_children _ _ H "@home" _ eq_refl eq_refl)
         as (c' & Hc' & _);
       discriminate Hc').
  - eexists. repeat (split; [reflexivity|]).
    intros rehash. eexists _, _. repeat (split; [reflexivity|]).
    intros H. pose proof (same_structure_config _ _ H "$is") as Hc.
    discriminate Hc.
Qed.

(** Another node that does not survive the round trip: its config has a
    key without the dollar sign, as [set_config_attr] stores it, and the
    node returned has a child of that name instead. *)
Example bare_key_not_rebuilt :
  exists node link1 m link2,
    Node.set_config_attr 1000 "/$name" (JStr "Plant") Sample.noon
      (Node.fresh "plant" "/plant" false) Sample.link
    = (Py.Ok tt, node, link1) /\
    Node.config node = [("$is", JStr "node"); ("name", JStr "Plant")] /\
    Node.from_json (fun d => d) (JDict (Node.to_json node)) None
      (Some "plant") link1
    = (Py.Ok m, link2) /\
    Node.config m = [("$is", JStr "node")] /\
    Dict.keys (Node.children m) = ["name"].
Proof. eexists _, _, _, _. repeat split; reflexivity. Qed.

(** * Further properties of the node operations *)

(** ** Notifications *)

Lemma update_subscribers_node (self : Node.t) (link : DSLink.t) :
  fst (Node.update_subscribers self link) = notified self.
Proof.
  rewrite update_subscribers_eq. unfold notified.
  destruct (Node.streams self); reflexivity.
Qed.

Lemma update_subscribers_wsp (self : Node.t) (link : DSLink.t) :
  DSLink.wsp (snd (Node.update_subscribers self link))
  = DSLink.wsp link ++ structural_messages self.
Proof.
  rewrite update_subscribers_eq. unfold structural_messages.
  destruct (Node.streams self) as [|s1 later]; cbn [snd].
  - symmetry. apply app_nil_r.
  - cbn [DSLink.sendMessage DSLink.wsp]. rewrite wsp_marked. reflexivity.
Qed.

Lemma nodes_changed_marked (r : list Node.t) (link : DSLink.t) :
  DSLink.nodes_changed link = true ->
  DSLink.nodes_changed (marked r link) = true.
Proof. intros H. destruct r; [exact H|reflexivity]. Qed.

Lemma update_subscribers_nodes_changed (self : Node.t) (link : DSLink.t) :
  DSLink.nodes_changed link = true ->
  DSLink.nodes_changed (snd (Node.update_subscribers self link)) = true.
Proof.
  intros H. rewrite update_subscribers_eq.
  destruct (Node.streams self) as [|s1 later]; cbn [snd]; [exact H|].
  cbn [DSLink.sendMessage DSLink.nodes_changed].
  apply nodes_changed_marked, H.
Qed.

Lemma notified_fields (self : Node.t) :
  Node.name (notified self) = Node.name self /\
  Node.standalone (notified self) = Node.standalone self /\
  Node.transient (notified self) = Node.transient self /\
  Node.value (notified self) = Node.value self /\
  Node.children (notified self) = Node.children self /\
  Node.config (notified self) = Node.config self /\
  Node.attributes (notified self) = Node.attributes self /\
  Node.subscribers (notified self) = Node.subscribers self /\
  Node.streams (notified self) = Node.streams self.
Proof.
  unfold notified. destruct (Node.streams self) eqn:E; rewrite ?E; repeat split;
    reflexivity || exact E.
Qed.

Lemma lookup_app {A : Type} (k : string) (d e : dict A) :
  Dict.lookup k (d ++ e)
  = match Dict.lookup k d with
    | Some v => Some v
    | None => Dict.lookup k e
    end.
Proof.
  induction d as [|[k' v'] d IH]; [reflexivity|].
  cbn [app Dict.lookup]. destruct (String.eqb k k'); [reflexivity|exact IH].
Qed.

Lemma remove_fresh {A : Type} (k : string) (d : dict A) :
  Dict.mem k d = false -> Dict.remove k d = d.
Proof.
  unfold Dict.remove. induction d as [|[k' v'] d IH]; [reflexivity|].
  rewrite mem_cons. intros H. apply orb_false_iff in H. destruct H as [H1 H2].
  cbn [filter fst]. rewrite H1. cbn [negb]. rewrite (IH H2). reflexivity.
Qed.

Lemma remove_app {A : Type} (k : string) (d e : dict A) :
  Dict.remove k (d ++ e) = Dict.remove k d ++ Dict.remove k e.
Proof. unfold Dict.remove. apply filter_app. Qed.

(** ** Children *)

Lemma add_child_fresh (rehash : dict Node.t -> dict Node.t)
  (child self : Node.t) (link : DSLink.t) :
  Dict.mem (Node.name child) (Node.children self) = false ->
  let added :=
    Node.with_children
      (rehash (Node.children self ++ [(Node.name child, child)])) self in
  let link1 := DSLink.with_nodes_changed true link in
  Node.add_child rehash child self link
  = if Node.standalone self || DSLink.active link
    then (Py.Ok tt, notified added, snd (Node.update_subscribers added link1))
    else (Py.Ok tt, added, link1).
Proof.
  intros Hmem added link1.
  unfold Node.add_child. rewrite Hmem, (insert_fresh _ _ _ _ Hmem).
  fold added. fold link1.
  change (Node.standalone added) with (Node.standalone self).
  change (DSLink.active link1) with (DSLink.active link).
  destruct (Node.standalone self || DSLink.active link); [|reflexivity].
  rewrite <- (update_subscribers_node added link1).
  destruct (Node.update_subscribers added link1). reflexivity.
Qed.

Lemma remove_child_eq (nm : string) (self : Node.t) (link : DSLink.t) :
  Node.remove_child nm self link
  = match Dict.lookup nm (Node.children self) with
    | None => (false, self, link)
    | Some child =>
        let moved :=
          Node.with_removed_children (Node.removed_children self ++ [child])
            (Node.with_children (Dict.remove nm (Node.children self)) self) in
        (true, notified moved, snd (Node.update_subscribers moved link))
    end.
Proof.
  unfold Node.remove_child.
  destruct (Dict.lookup nm (Node.children self)) as [child|]; [|reflexivity].
  cbv zeta.
  rewrite <- (update_subscribers_node
                (Node.with_removed_children (Node.removed_children self ++ [child])
                   (Node.with_children (Dict.remove nm (Node.children self)) self))
                link).
  destruct (Node.update_subscribers _ link). reflexivity.
Qed.

Lemma lookup_appended {A : Type} (k : string) (v : A) (d : dict A) :
  Dict.mem k d = false ->
  Dict.lookup k (d ++ [(k, v)]) = Some v /\
  forall k', k' <> k -> Dict.lookup k' (d ++ [(k, v)]) = Dict.lookup k' d.
Proof.
  intros Hmem. split.
  - rewrite lookup_app. apply lookup_none_mem in Hmem. rewrite Hmem.
    cbn [Dict.lookup]. rewrite String.eqb_refl. reflexivity.
  - intros k' Hk. rewrite lookup_app.
    destruct (Dict.lookup k' d); [reflexivity|].
    cbn [Dict.lookup]. apply String.eqb_neq in Hk. rewrite Hk. reflexivity.
Qed.

Lemma in_mem {A : Type} (k : string) (v : A) (d : dict A) :
  In (k, v) d -> Dict.mem k d = true.
Proof.
  intros H. rewrite mem_keys. apply existsb_exists. exists k.
  split; [|apply String.eqb_refl].
  unfold Dict.keys. change k with (fst (k, v)). apply in_map, H.
Qed.

(** The one entry of a key is found wherever it stands. *)
Lemma lookup_only {A : Type} (k : string) (v : A) (d : dict A) :
  (forall v', In (k, v') d -> v' = v) -> In (k, v) d ->
  Dict.lookup k d = Some v.
Proof.
  induction d as [|[k' v'] d IH]; intros Hall Hin; [destruct Hin|].
  cbn [Dict.lookup]. destruct (String.eqb_spec k k') as [E|E].
  - subst k'. f_equal. apply Hall. left. reflexivity.
  - apply IH.
    + intros v0 H0. apply Hall. right. exact H0.
    + destruct Hin as [Hin|Hin]; [|exact Hin].
      exfalso. apply E. injection Hin as -> _. reflexivity.
Qed.

(** A new entry is found under its key however the entries are arranged,
    and so is every other entry of a dictionary with one entry per key. *)
Lemma lookup_arranged {A : Type} (k : string) (v : A) (d e : dict A) :
  Permutation e (d ++ [(k, v)]) ->
  Dict.mem k d = false ->
  Dict.lookup k e = Some v /\
  (forall k', k' <> k -> Dict.mem k' e = Dict.mem k' d) /\
  (Tree.distinct (Dict.keys d) = true ->
   forall k', k' <> k -> Dict.lookup k' e = Dict.lookup k' d).
Proof.
  intros Hperm Hmem. split; [|split].
  - apply lookup_only.
    + intros v' Hin. apply (Permutation_in _ Hperm) in Hin.
      apply in_app_or in Hin. destruct Hin as [Hin|[Hin|[]]].
      * apply in_mem in Hin. congruence.
      * injection Hin as <-. reflexivity.
    + apply (Permutation_in _ (Permutation_sym Hperm)).
      apply in_or_app. right. left. reflexivity.
  - intros k' Hk. rewrite (mem_perm k' _ _ (Permutation_sym Hperm)).
    rewrite mem_app, mem_cons, mem_nil. apply String.eqb_neq in Hk.
    rewrite Hk, !orb_false_r. reflexivity.
  - intros Hd k' Hk.
    rewrite (lookup_perm k' (d ++ [(k, v)]) e).
    + apply (proj2 (lookup_appended k v d Hmem)), Hk.
    + apply distinct_NoDup. unfold Dict.keys. rewrite map_app.
      apply NoDup_app; [apply distinct_NoDup, Hd|repeat constructor; intros []|].
      intros x Hx [Hx'|[]]. cbn [fst] in Hx'. subst x.
      apply in_map_iff in Hx. destruct Hx as ([k0 v0] & E & Hin).
      cbn [fst] in E. subst k0. apply in_mem in Hin. congruence.
    + exact (Permutation_sym Hperm).
Qed.

Lemma restored_tombstones (self : Node.t) :
  Node.with_removed_children (Node.removed_children self) (notified self) = self.
Proof. unfold notified. destruct self, streams; reflexivity. Qed.

(** X1.  [add_child] refuses a child whose name is taken: it raises
    [ValueError] and changes neither the node nor the link.  Otherwise the
    children are the ones the node had and the new child, in whatever
    order the dictionary then iterates: the child is found under its
    name, no other name is gained or lost, and in a dictionary with one
    entry per key every other name finds the child it found.  The link is
    marked as changed, and the open streams are sent the batch of the
    node, its pending removals included, only if the node is standalone
    or the link is active. *)
Theorem add_child_outcome (rehash : dict Node.t -> dict Node.t)
  (child self : Node.t) (link : DSLink.t) :
  Dict.arrangement rehash ->
  if Dict.mem (Node.name child) (Node.children self)
  then Node.add_child rehash child self link
       = (Py.Raise Py.ValueError, self, link)
  else
    exists self' link',
      Node.add_child rehash child self link = (Py.Ok tt, self', link') /\
      Permutation (Node.children self')
        (Node.children self ++ [(Node.name child, child)]) /\
      Node.has_child (Node.name child) self' = true /\
      Dict.lookup (Node.name child) (Node.children self') = Some child /\
      (forall k, k <> Node.name child ->
         Node.has_child k self' = Node.has_child k self) /\
      (Tree.distinct (Dict.keys (Node.children self)) = true ->
       forall k, k <> Node.name child ->
         Dict.lookup k (Node.children self')
         = Dict.lookup k (Node.children self)) /\
      DSLink.nodes_changed link' = true /\
      DSLink.wsp link'
      = DSLink.wsp link ++
        (if Node.standalone self || DSLink.active link
         then structural_messages
                (Node.with_removed_children (Node.removed_children self) self')
         else []).
Proof.
  intros Hr.
  destruct (Dict.mem (Node.name child) (Node.children self)) eqn:Hmem.
  - unfold Node.add_child. rewrite Hmem. reflexivity.
  - pose proof (Hr (Node.children self ++ [(Node.name child, child)])) as Hperm.
    destruct (lookup_arranged _ _ _ _ Hperm Hmem) as (Hlook & Hhas & Hother).
    rewrite (add_child_fresh rehash child self link Hmem).
    set (added := Node.with_children _ self).
    assert (Hfacts : forall self',
              Node.children self' = Node.children added ->
              Permutation (Node.children self')
                (Node.children self ++ [(Node.name child, child)]) /\
              Node.has_child (Node.name child) self' = true /\
              Dict.lookup (Node.name child) (Node.children self') = Some child /\
              (forall k, k <> Node.name child ->
                 Node.has_child k self' = Node.has_child k self) /\
              (Tree.distinct (Dict.keys (Node.children self)) = true ->
               forall k, k <> Node.name child ->
                 Dict.lookup k (Node.children self')
                 = Dict.lookup k (Node.children self))).
    { intros self' E. unfold Node.has_child. rewrite E.
      change (Node.children added)
        with (rehash (Node.children self ++ [(Node.name child, child)])).
      split; [exact Hperm|].
      split; [unfold Dict.mem; rewrite Hlook; reflexivity|].
      split; [exact Hlook|]. split; [exact Hhas|exact Hother]. }
    destruct (Node.standalone self || DSLink.active link).
    + destruct (notified_fields added) as (_ & _ & _ & _ & Hch & _).
      destruct (Hfacts (notified added) Hch) as (F1 & F2 & F3 & F4 & F5).
      eexists; eexists; split; [reflexivity|].
      repeat (split; [assumption|]).
      split; [apply update_subscribers_nodes_changed; reflexivity|].
      rewrite update_subscribers_wsp.
      change (Node.removed_children self) with (Node.removed_children added).
      rewrite restored_tombstones. reflexivity.
    + destruct (Hfacts added eq_refl) as (F1 & F2 & F3 & F4 & F5).
      eexists; eexists; split; [reflexivity|].
      repeat (split; [assumption|]).
      split; [reflexivity|]. symmetry. apply app_nil_r.
Qed.

Lemma rev_arranges {A : Type} : Dict.arrangement (@rev (string * A)).
Proof. intros d. apply Permutation_sym, Permutation_rev. Qed.

Lemma add_child_outcome_witness :
  Dict.arrangement (@rev (string * Node.t)) /\
  exists self' link',
    Node.add_child (@rev _) (Node.fresh "valve" "/plant/valve" false)
      Sample.plant Sample.link = (Py.Ok tt, self', link') /\
    Permutation (Node.children self')
      (Node.children Sample.plant ++
       [("valve", Node.fresh "valve" "/plant/valve" false)]) /\
    Node.has_child "valve" self' = true /\
    Dict.lookup "valve" (Node.children self')
    = Some (Node.fresh "valve" "/plant/valve" false) /\
    (forall k, k <> "valve" ->
       Node.has_child k self' = Node.has_child k Sample.plant) /\
    (Tree.distinct (Dict.keys (Node.children Sample.plant)) = true ->
     forall k, k <> "valve" ->
       Dict.lookup k (Node.children self')
       = Dict.lookup k (Node.children Sample.plant)) /\
    DSLink.nodes_changed link' = true /\
    DSLink.wsp link' = DSLink.wsp Sample.link.
Proof.
  split; [exact rev_arranges|].
  exact (add_child_outcome (@rev _) (Node.fresh "valve" "/plant/valve" false)
           Sample.plant Sample.link rev_arranges).
Defined.

Lemma notified_removed (self : Node.t) :
  Node.removed_children (notified self)
  = match Node.streams self with
    | [] => Node.removed_children self
    | _ :: _ => []
    end.
Proof. unfold notified. destruct (Node.streams self); reflexivity. Qed.

(** X2.  Adding a child under a free name and removing it again gives
    back the children the node had, in whatever order the dictionary then
    iterates: the name is no longer a child, no other name is gained or
    lost, and in a dictionary with one entry per key every name finds the
    child it found.  Config and attributes are untouched.  The removed
    child is left on the tombstone list when the node has no open stream,
    and has been announced otherwise. *)
Theorem add_child_remove_child (rehash : dict Node.t -> dict Node.t)
  (child self : Node.t) (link : DSLink.t) :
  Dict.arrangement rehash ->
  Dict.mem (Node.name child) (Node.children self) = false ->
  exists self1 link1 self2 link2,
    Node.add_child rehash child self link = (Py.Ok tt, self1, link1) /\
    Node.remove_child (Node.name child) self1 link1 = (true, self2, link2) /\
    Permutation (Node.children self2) (Node.children self) /\
    Node.has_child (Node.name child) self2 = false /\
    (forall k, Node.has_child k self2 = Node.has_child k self) /\
    (Tree.distinct (Dict.keys (Node.children self)) = true ->
     forall k, Dict.lookup k (Node.children self2)
               = Dict.lookup k (Node.children self)) /\
    Node.config self2 = Node.config self /\
    Node.attributes self2 = Node.attributes self /\
    Node.removed_children self2
    = match Node.streams self with
      | [] => Node.removed_children self ++ [child]
      | _ :: _ => []
      end.
Proof.
  intros Hr Hmem.
  pose proof (Hr (Node.children self ++ [(Node.name child, child)])) as Hperm.
  destruct (lookup_arranged _ _ _ _ Hperm Hmem) as (Hlook & _ & _).
  set (added := Node.with_children
                  (rehash (Node.children self ++ [(Node.name child, child)]))
                  self).
  assert (H1 : exists self1 link1,
             Node.add_child rehash child self link = (Py.Ok tt, self1, link1) /\
             Node.children self1
             = rehash (Node.children self ++ [(Node.name child, child)]) /\
             Node.config self1 = Node.config self /\
             Node.attributes self1 = Node.attributes self /\
             Node.streams self1 = Node.streams self /\
             Node.removed_children self1
             = match Node.streams self with
               | [] => Node.removed_children self
               | _ :: _ =>
                   if Node.standalone self || DSLink.active link then []
                   else Node.removed_children self
               end).
  { rewrite (add_child_fresh rehash child self link Hmem). fold added.
    destruct (notified_fields added) as (_ & _ & _ & _ & Hch & Hco & Hat & _ & Hst).
    pose proof (notified_removed added) as Hre.
    change (Node.streams added) with (Node.streams self) in Hre, Hst.
    destruct (Node.standalone self || DSLink.active link);
      eexists; eexists; (split; [reflexivity|]).
    - rewrite Hch, Hco, Hat, Hst, Hre.
      repeat split; destruct (Node.streams self); reflexivity.
    - repeat split; destruct (Node.streams self); reflexivity. }
  destruct H1 as (self1 & link1 & E1 & Hch1 & Hco1 & Hat1 & Hst1 & Hre1).
  exists self1, link1. rewrite E1.
  rewrite remove_child_eq, Hch1, Hlook. cbv zeta.
  set (moved := Node.with_removed_children _ _).
  destruct (notified_fields moved) as (_ & _ & _ & _ & Hch & Hco & Hat & _ & _).
  pose proof (notified_removed moved) as Hre.
  eexists; eexists; split; [reflexivity|]. split; [reflexivity|].
  assert (Hback : Permutation (Node.children (notified moved))
                    (Node.children self)).
  { rewrite Hch. unfold moved.
    cbn [Node.with_removed_children Node.with_children Node.children].
    unfold Dict.remove.
    rewrite (filter_perm _ _ _ Hperm).
    fold (Dict.remove (Node.name child)
            (Node.children self ++ [(Node.name child, child)])).
    rewrite remove_app, (remove_fresh _ _ Hmem). unfold Dict.remove.
    cbn [filter fst]. rewrite String.eqb_refl. cbn [negb].
    rewrite app_nil_r. reflexivity. }
  split; [exact Hback|].
  assert (Hhas : forall k, Node.has_child k (notified moved)
                           = Node.has_child k self)
    by (intros k; apply mem_perm, Permutation_sym, Hback).
  split; [rewrite Hhas; exact Hmem|].
  split; [exact Hhas|].
  split.
  { intros Hd k. apply lookup_perm; [exact Hd|].
    exact (Permutation_sym Hback). }
  split; [rewrite Hco; exact Hco1|].
  split; [rewrite Hat; exact Hat1|].
  rewrite Hre. change (Node.streams moved) with (Node.streams self1).
  rewrite Hst1. destruct (Node.streams self); [|reflexivity].
  change (Node.removed_children moved)
    with (Node.removed_children self1 ++ [child]).
  rewrite Hre1. reflexivity.
Qed.

Lemma add_child_remove_child_witness :
  Dict.arrangement (@rev (string * Node.t)) /\
  Dict.mem "valve" (Node.children Sample.plant) = false /\
  exists self1 link1 self2 link2,
    Node.add_child (@rev _) (Node.fresh "valve" "/plant/valve" false)
      Sample.plant Sample.link = (Py.Ok tt, self1, link1) /\
    Node.remove_child "valve" self1 link1 = (true, self2, link2) /\
    Permutation (Node.children self2) (Node.children Sample.plant) /\
    Node.has_child "valve" self2 = false /\
    (forall k, Node.has_child k self2 = Node.has_child k Sample.plant) /\
    (Tree.distinct (Dict.keys (Node.children Sample.plant)) = true ->
     forall k, Dict.lookup k (Node.children self2)
               = Dict.lookup k (Node.children Sample.plant)) /\
    Node.config self2 = Node.config Sample.plant /\
    Node.attributes self2 = Node.attributes Sample.plant /\
    Node.removed_children self2 = [].
Proof.
  split; [exact rev_arranges|]. split; [reflexivity|].
  exact (add_child_remove_child (@rev _)
           (Node.fresh "valve" "/plant/valve" false)
           Sample.plant Sample.link rev_arranges eq_refl).
Defined.

(** ** Config and attributes *)

Lemma keys_set {A : Type} (k : string) (v : A) (d : dict A) :
  Dict.keys (Dict.set k v d)
  = if Dict.mem k d then Dict.keys d else Dict.keys d ++ [k].
Proof.
  induction d as [|[k' v'] d IH]; [reflexivity|].
  rewrite mem_cons. cbn [Dict.set].
  destruct (String.eqb k k'); [reflexivity|].
  cbn [orb Dict.keys map fst]. unfold Dict.keys in IH. rewrite IH.
  destruct (Dict.mem k d); reflexivity.
Qed.

Lemma getitem_set {A : Type} (k k' : string) (v : A) (d : dict A) :
  Dict.getitem (Dict.set k' v d) k
  = if String.eqb k k' then Py.Ok v else Dict.getitem d k.
Proof.
  unfold Dict.getitem. rewrite lookup_set.
  destruct (String.eqb k k'); reflexivity.
Qed.

Lemma set_config_eq (key : string) (v : json) (self : Node.t) (link : DSLink.t) :
  let stored := Node.with_config (Dict.set key v (Node.config self)) self in
  Node.set_config key v self link
  = (notified stored,
     snd (Node.update_subscribers stored (DSLink.with_nodes_changed true link))).
Proof.
  intros stored. unfold Node.set_config. fold stored.
  rewrite <- (update_subscribers_node stored (DSLink.with_nodes_changed true link)).
  destruct (Node.update_subscribers stored _). reflexivity.
Qed.

Lemma set_attribute_eq (key : string) (v : json) (self : Node.t)
  (link : DSLink.t) :
  let stored := Node.with_attributes (Dict.set key v (Node.attributes self)) self in
  Node.set_attribute key v self link
  = (notified stored,
     snd (Node.update_subscribers stored (DSLink.with_nodes_changed true link))).
Proof.
  intros stored. unfold Node.set_attribute. fold stored.
  rewrite <- (update_subscribers_node stored (DSLink.with_nodes_changed true link)).
  destruct (Node.update_subscribers stored _). reflexivity.
Qed.

Lemma set_config_stored (key : string) (v : json) (self : Node.t)
  (link : DSLink.t) :
  Node.config (fst (Node.set_config key v self link))
  = Dict.set key v (Node.config self) /\
  Node.attributes (fst (Node.set_config key v self link)) = Node.attributes self /\
  Node.children (fst (Node.set_config key v self link)) = Node.children self /\
  Node.streams (fst (Node.set_config key v self link)) = Node.streams self.
Proof.
  rewrite set_config_eq. cbn [fst].
  destruct (notified_fields
              (Node.with_config (Dict.set key v (Node.config self)) self))
    as (_ & _ & _ & _ & Hch & Hco & Hat & _ & Hst).
  rewrite Hch, Hco, Hat, Hst. repeat split.
Qed.

Lemma set_attribute_stored (key : string) (v : json) (self : Node.t)
  (link : DSLink.t) :
  Node.attributes (fst (Node.set_attribute key v self link))
  = Dict.set key v (Node.attributes self) /\
  Node.config (fst (Node.set_attribute key v self link)) = Node.config self /\
  Node.children (fst (Node.set_attribute key v self link)) = Node.children self /\
  Node.streams (fst (Node.set_attribute key v self link)) = Node.streams self.
Proof.
  rewrite set_attribute_eq. cbn [fst].
  destruct (notified_fields
              (Node.with_attributes (Dict.set key v (Node.attributes self)) self))
    as (_ & _ & _ & _ & Hch & Hco & Hat & _ & Hst).
  rewrite Hch, Hco, Hat, Hst. repeat split.
Qed.

Lemma set_config_link (key : string) (v : json) (self : Node.t)
  (link : DSLink.t) :
  DSLink.nodes_changed (snd (Node.set_config key v self link)) = true /\
  DSLink.wsp (snd (Node.set_config key v self link))
  = DSLink.wsp link ++
    structural_messages
      (Node.with_config (Dict.set key v (Node.config self)) self).
Proof.
  rewrite set_config_eq. cbn [snd]. split.
  - apply update_subscribers_nodes_changed. reflexivity.
  - rewrite update_subscribers_wsp. reflexivity.
Qed.

Lemma set_attribute_link (key : string) (v : json) (self : Node.t)
  (link : DSLink.t) :
  DSLink.nodes_changed (snd (Node.set_attribute key v self link)) = true /\
  DSLink.wsp (snd (Node.set_attribute key v self link))
  = DSLink.wsp link ++
    structural_messages
      (Node.with_attributes (Dict.set key v (Node.attributes self)) self).
Proof.
  rewrite set_attribute_eq. cbn [snd]. split.
  - apply update_subscribers_nodes_changed. reflexivity.
  - rewrite update_subscribers_wsp. reflexivity.
Qed.

(** X3.  What [set_config] stores is what [get_config] returns for that
    key; every other key keeps its result, [KeyError] included; a new key
    goes last and an existing key keeps its place; the attributes are not
    touched, not even under the same key; the link is marked as changed
    and the open streams receive one message. *)
Theorem set_config_get_config (key : string) (v : json) (self : Node.t)
  (link : DSLink.t) :
  let self' := fst (Node.set_config key v self link) in
  let link' := snd (Node.set_config key v self link) in
  Node.get_config key self' = Py.Ok v /\
  (forall k, k <> key -> Node.get_config k self' = Node.get_config k self) /\
  Dict.keys (Node.config self')
  = (if Dict.mem key (Node.config self) then Dict.keys (Node.config self)
     else Dict.keys (Node.config self) ++ [key]) /\
  (forall k, Node.get_attribute k self' = Node.get_attribute k self) /\
  DSLink.nodes_changed link' = true /\
  DSLink.wsp link'
  = DSLink.wsp link ++
    structural_messages
      (Node.with_config (Dict.set key v (Node.config self)) self).
Proof.
  intros self' link'.
  destruct (set_config_stored key v self link) as (Hco & Hat & _).
  destruct (set_config_link key v self link) as (Hnc & Hw).
  fold self' in Hco, Hat. fold link' in Hnc, Hw.
  unfold Node.get_config, Node.get_attribute. rewrite Hco, Hat.
  split; [rewrite getitem_set, String.eqb_refl; reflexivity|].
  split.
  { intros k Hk. rewrite getitem_set. apply String.eqb_neq in Hk.
    rewrite Hk. reflexivity. }
  split; [apply keys_set|].
  split; [reflexivity|].
  split; assumption.
Qed.

(** X4.  The same for [set_attribute] and [get_attribute], the config
    being the part that is not touched. *)
Theorem set_attribute_get_attribute (key : string) (v : json) (self : Node.t)
  (link : DSLink.t) :
  let self' := fst (Node.set_attribute key v self link) in
  let link' := snd (Node.set_attribute key v self link) in
  Node.get_attribute key self' = Py.Ok v /\
  (forall k, k <> key ->
     Node.get_attribute k self' = Node.get_attribute k self) /\
  Dict.keys (Node.attributes self')
  = (if Dict.mem key (Node.attributes self)
     then Dict.keys (Node.attributes self)
     else Dict.keys (Node.attributes self) ++ [key]) /\
  (forall k, Node.get_config k self' = Node.get_config k self) /\
  DSLink.nodes_changed link' = true /\
  DSLink.wsp link'
  = DSLink.wsp link ++
    structural_messages
      (Node.with_attributes (Dict.set key v (Node.attributes self)) self).
Proof.
  intros self' link'.
  destruct (set_attribute_stored key v self link) as (Hat & Hco & _).
  destruct (set_attribute_link key v self link) as (Hnc & Hw).
  fold self' in Hco, Hat. fold link' in Hnc, Hw.
  unfold Node.get_config, Node.get_attribute. rewrite Hco, Hat.
  split; [rewrite getitem_set, String.eqb_refl; reflexivity|].
  split.
  { intros k Hk. rewrite getitem_set. apply String.eqb_neq in Hk.
    rewrite Hk. reflexivity. }
  split; [apply keys_set|].
  split; [reflexivity|].
  split; assumption.
Qed.

(** ** Setters that check their argument *)

(** X5.  A setter that checks the type of its argument either rejects it,
    raising [ValueError] ([TypeError] for [set_transient]) before anything
    is changed, or stores it: whenever the call returns, the config holds
    a string under [$name], [$is], [$writable] and [$invokable], and a
    list under [$params] and [$columns].  [set_invokable(True)] stores
    ["read"], and [set_invokable(False)] is rejected. *)
Theorem checked_setters (x : json) (self : Node.t) (link : DSLink.t) :
  let checked (key : string) (accepts : json -> bool)
        (r : Py.outcome unit * Node.t * DSLink.t) : Prop :=
    if accepts x
    then exists self' link',
           r = (Py.Ok tt, self', link') /\
           Node.get_config key self' = Py.Ok x
    else r = (Py.Raise Py.ValueError, self, link) in
  checked "$name" Node.is_string (Node.set_display_name x self link) /\
  checked "$is" Node.is_string (Node.set_profile x self link) /\
  checked "$writable" Node.is_string (Node.set_writable x self link) /\
  checked "$params" Node.is_list (Node.set_parameters x self link) /\
  checked "$columns" Node.is_list (Node.set_columns x self link) /\
  match x with
  | JStr s =>
      exists self' link',
        Node.set_invokable x self link = (Py.Ok tt, self', link') /\
        Node.get_config "$invokable" self' = Py.Ok (JStr s)
  | JBool true =>
      Node.set_invokable x self link
      = Node.set_invokable (JStr "read") self link /\
      exists self' link',
        Node.set_invokable x self link = (Py.Ok tt, self', link') /\
        Node.get_config "$invokable" self' = Py.Ok (JStr "read")
  | _ => Node.set_invokable x self link = (Py.Raise Py.ValueError, self, link)
  end /\
  match x with
  | JBool b =>
      Node.set_transient x self = (Py.Ok tt, Node.with_transient b self)
  | _ => Node.set_transient x self = (Py.Raise Py.TypeError, self)
  end.
Proof.
  intros checked.
  assert (Hset : forall key v,
            exists self' link',
              (let '(self, link) := Node.set_config key v self link in
               (Py.Ok tt, self, link)) = (Py.Ok tt, self', link') /\
              Node.get_config key self' = Py.Ok v).
  { intros key v.
    pose proof (set_config_stored key v self link) as (Hco & _).
    destruct (Node.set_config key v self link) as [self' link'].
    exists self', link'. split; [reflexivity|].
    cbn [fst] in Hco. unfold Node.get_config.
    rewrite Hco, getitem_set, String.eqb_refl. reflexivity. }
  assert (Hstr : forall key,
            checked key Node.is_string
              (if Node.is_string x
               then let '(self, link) := Node.set_config key x self link in
                    (Py.Ok tt, self, link)
               else (Py.Raise Py.ValueError, self, link))).
  { intros key. unfold checked.
    destruct (Node.is_string x); [|reflexivity].
    destruct (Hset key x) as (self' & link' & E & G).
    exists self', link'. repeat split; assumption. }
  assert (Hlist : forall key,
            checked key Node.is_list
              (if Node.is_list x
               then let '(self, link) := Node.set_config key x self link in
                    (Py.Ok tt, self, link)
               else (Py.Raise Py.ValueError, self, link))).
  { intros key. unfold checked.
    destruct (Node.is_list x); [|reflexivity].
    destruct (Hset key x) as (self' & link' & E & G).
    exists self', link'. repeat split; assumption. }
  split.
  { unfold checked, Node.set_display_name.
    destruct (Node.is_string x); [|reflexivity].
    pose proof (set_config_stored "$name" x self link) as (Hco & _).
    destruct (Node.set_config "$name" x self link) as [self1 link1].
    cbn [fst] in Hco.
    pose proof (update_subscribers_node self1 link1) as Hn.
    destruct (Node.update_subscribers self1 link1) as [self2 link2].
    cbn [fst] in Hn. exists self2, link2. split; [reflexivity|].
    destruct (notified_fields self1) as (_ & _ & _ & _ & _ & Hco' & _).
    unfold Node.get_config. rewrite Hn, Hco', Hco, getitem_set, String.eqb_refl.
    reflexivity. }
  split; [exact (Hstr "$is")|].
  split; [exact (Hstr "$writable")|].
  split; [exact (Hlist "$params")|].
  split; [exact (Hlist "$columns")|].
  split.
  - destruct x as [| [|] | | s | |]; try reflexivity.
    + split; [reflexivity|]. exact (Hset "$invokable" (JStr "read")).
    + exact (Hset "$invokable" (JStr s)).
  - destruct x; reflexivity.
Qed.

(** X6.  [set_display_name] notifies twice: [set_config] sends one
    message to the open streams, and the call of [update_subscribers]
    that follows sends a second one, whose batches hold no removal. *)
Theorem set_display_name_notifies_twice (nm : string) (self : Node.t)
  (link : DSLink.t) :
  let named :=
    Node.with_config (Dict.set "$name" (JStr nm) (Node.config self)) self in
  exists self' link',
    Node.set_display_name (JStr nm) self link = (Py.Ok tt, self', link') /\
    self' = notified named /\
    DSLink.wsp link'
    = DSLink.wsp link ++ structural_messages named ++
      structural_messages (notified named) /\
    List.length (DSLink.wsp link')
    = List.length (DSLink.wsp link) +
      match Node.streams self with [] => 0 | _ :: _ => 2 end /\
    Node.removed_children (notified named)
    = match Node.streams self with
      | [] => Node.removed_children self
      | _ :: _ => []
      end.
Proof.
  intros named. unfold Node.set_display_name. cbn [Node.is_string].
  rewrite (set_config_eq "$name" (JStr nm) self link). fold named.
  pose proof (update_subscribers_wsp named
                (DSLink.with_nodes_changed true link)) as Hw1.
  set (link1 := snd (Node.update_subscribers named
                       (DSLink.with_nodes_changed true link))) in *.
  pose proof (update_subscribers_node (notified named) link1) as Hn2.
  pose proof (update_subscribers_wsp (notified named) link1) as Hw2.
  destruct (Node.update_subscribers (notified named) link1) as [self2 link2].
  cbn [fst snd] in Hn2, Hw2.
  exists self2, link2. split; [reflexivity|].
  assert (Hidem : notified (notified named) = notified named).
  { unfold notified. change (Node.streams named) with (Node.streams self).
    destruct (Node.streams self) eqn:E.
    - change (Node.streams named) with (Node.streams self). rewrite E.
      reflexivity.
    - cbn [Node.with_removed_children Node.streams].
      change (Node.streams named) with (Node.streams self). rewrite E.
      reflexivity. }
  split; [rewrite Hn2; exact Hidem|].
  assert (Hwsp : DSLink.wsp link2
                 = DSLink.wsp link ++ structural_messages named ++
                   structural_messages (notified named)).
  { rewrite Hw2, Hw1. cbn [DSLink.with_nodes_changed DSLink.wsp].
    symmetry. apply app_assoc. }
  split; [exact Hwsp|].
  split.
  - rewrite Hwsp, !length_app. unfold structural_messages, notified.
    change (Node.streams named) with (Node.streams self).
    destruct (Node.streams self) eqn:E.
    + change (Node.streams named) with (Node.streams self). rewrite E.
      reflexivity.
    + cbn [Node.with_removed_children Node.streams].
      change (Node.streams named) with (Node.streams self). rewrite E.
      reflexivity.
  - rewrite notified_removed. reflexivity.
Qed.

(** ** Value notifications *)

Lemma update_subscribers_values_eq (self : Node.t) (link : DSLink.t) :
  Node.update_subscribers_values self link
  = send_all (value_messages self) link.
Proof.
  unfold Node.update_subscribers_values, value_messages, send_all.
  destruct (Value.held (Node.value self)) as [[v ts]|]; [|reflexivity].
  rewrite (fold_left_append (value_response v ts)). cbn [app].
  destruct (Node.subscribers self); reflexivity.
Qed.

Lemma wsp_send_all (msgs : list json) (link : DSLink.t) :
  DSLink.wsp (send_all msgs link) = DSLink.wsp link ++ msgs.
Proof.
  unfold send_all. revert link.
  induction msgs as [|m msgs IH]; intros link; cbn [fold_left].
  - symmetry. apply app_nil_r.
  - rewrite IH. cbn [DSLink.sendMessage DSLink.wsp].
    rewrite <- app_assoc. reflexivity.
Qed.

(** X7.  One value notification sends nothing when the node holds no
    value or has no subscriber, and otherwise one message with one
    response per subscriber, in subscription order, each with request id 0
    and the triple of the subscriber id, the value and the timestamp. *)
Theorem update_subscribers_values_message (self : Node.t) (link : DSLink.t) :
  Node.update_subscribers_values self link
  = send_all (value_messages self) link /\
  DSLink.wsp (Node.update_subscribers_values self link)
  = DSLink.wsp link ++ value_messages self /\
  (value_messages self = [] <->
   Value.has_value (Node.value self) = false \/ Node.subscribers self = []) /\
  forall m, In m (value_messages self) ->
    exists v ts,
      Value.held (Node.value self) = Some (v, ts) /\
      value_messages self = [m] /\
      m = JDict
            [("responses",
              JList
                (map (fun sid =>
                        JDict [("rid", JNum 0);
                               ("updates",
                                JList [JList [JNum sid; v;
                                              JStr (isoformat ts)]])])
                   (Node.subscribers self)))].
Proof.
  split; [apply update_subscribers_values_eq|].
  split; [rewrite update_subscribers_values_eq; apply wsp_send_all|].
  unfold value_messages, Value.has_value.
  destruct (Value.held (Node.value self)) as [[v ts]|].
  - destruct (Node.subscribers self) as [|s subs] eqn:E.
    + split; [split; [right; reflexivity|reflexivity]|]. intros m [].
    + split.
      * split; [discriminate|]. intros [H|H]; discriminate.
      * intros m [Hm|[]]. exists v, ts. subst m. repeat split.
  - split; [split; [left; reflexivity|reflexivity]|]. intros m [].
Qed.

(** ** Subscribers *)

Lemma list_remove_absent (x : Z) (l : list Z) :
  Node.list_remove x l = None <-> ~ In x l.
Proof.
  induction l as [|y l IH]; cbn [Node.list_remove In].
  - split; [intros _ []|reflexivity].
  - destruct (Z.eqb_spec x y) as [E|E].
    + split; [discriminate|]. intros H. exfalso. apply H. left.
      symmetry. exact E.
    + destruct (Node.list_remove x l) as [l'|]; cbn [option_map].
      * split; [discriminate|]. intros H. exfalso.
        assert (G : ~ In x l) by (intros G; apply H; right; exact G).
        apply IH in G. discriminate.
      * split; [|reflexivity]. intros _ [G|G]; [apply E; symmetry; exact G|].
        revert G. apply IH. reflexivity.
Qed.

Lemma list_remove_appended (x : Z) (l : list Z) :
  exists l',
    Node.list_remove x (l ++ [x]) = Some l' /\
    List.length l' = List.length l /\
    (~ In x l -> l' = l) /\
    (In x l -> In x l').
Proof.
  induction l as [|y l IH]; cbn [app Node.list_remove].
  - rewrite Z.eqb_refl. exists [].
    split; [reflexivity|]. split; [reflexivity|].
    split; [reflexivity|]. intros H. exact H.
  - destruct (Z.eqb_spec x y) as [E|E].
    + exists (l ++ [x]). split; [reflexivity|].
      split; [rewrite length_app; cbn; lia|].
      split.
      * intros H. exfalso. apply H. left. symmetry. exact E.
      * intros _. apply in_or_app. right. left. reflexivity.
    + destruct IH as (l' & E' & Hlen & Hsame & Hin).
      rewrite E'. exists (y :: l'). split; [reflexivity|].
      split; [cbn; rewrite Hlen; reflexivity|].
      split.
      * intros H. f_equal. apply Hsame. intros G. apply H. right. exact G.
      * intros [G|G]; [exfalso; apply E; symmetry; exact G|].
        right. apply Hin, G.
Qed.

(** X8.  After [add_subscriber(sid)] the node is subscribed, and if it
    holds a value every subscriber, the earlier ones included, is sent
    that value again.  A following [remove_subscriber(sid)] succeeds and
    removes one occurrence: the list is as before when [sid] was not yet
    subscribed, and [sid] stays subscribed when it had been added before.
    [remove_subscriber] raises [ValueError], changing nothing, exactly
    when [sid] is not subscribed. *)
Theorem add_subscriber_remove_subscriber (sid : Z) (self : Node.t)
  (link : DSLink.t) :
  let self1 := fst (Node.add_subscriber sid self link) in
  let link1 := snd (Node.add_subscriber sid self link) in
  Node.subscribers self1 = Node.subscribers self ++ [sid] /\
  Node.is_subscribed self1 = true /\
  DSLink.wsp link1
  = DSLink.wsp link ++
    match Value.held (Node.value self) with
    | Some (v, ts) =>
        [JDict [("responses",
                 JList (map (value_response v ts)
                          (Node.subscribers self ++ [sid])))]]
    | None => []
    end /\
  (exists self2,
     Node.remove_subscriber sid self1 = (Py.Ok tt, self2) /\
     List.length (Node.subscribers self2) = List.length (Node.subscribers self) /\
     (~ In sid (Node.subscribers self) ->
      Node.subscribers self2 = Node.subscribers self) /\
     (In sid (Node.subscribers self) -> In sid (Node.subscribers self2))) /\
  (Node.remove_subscriber sid self = (Py.Raise Py.ValueError, self) <->
   ~ In sid (Node.subscribers self)).
Proof.
  intros self1 link1. unfold Node.add_subscriber in self1, link1.
  cbn [fst snd] in self1, link1.
  split; [reflexivity|].
  split.
  { unfold Node.is_subscribed, self1. cbn [Node.with_subscribers Node.subscribers].
    rewrite length_app. cbn [List.length].
    rewrite Nat.add_comm. reflexivity. }
  split.
  { unfold link1. rewrite update_subscribers_values_eq, wsp_send_all.
    unfold value_messages. fold self1.
    change (Node.value self1) with (Node.value self).
    change (Node.subscribers self1) with (Node.subscribers self ++ [sid]).
    destruct (Value.held (Node.value self)) as [[v ts]|]; [|reflexivity].
    destruct (Node.subscribers self ++ [sid]) eqn:E; [|reflexivity].
    destruct (Node.subscribers self); discriminate. }
  split.
  { unfold Node.remove_subscriber.
    change (Node.subscribers self1) with (Node.subscribers self ++ [sid]).
    destruct (list_remove_appended sid (Node.subscribers self))
      as (l' & E & Hlen & Hsame & Hin).
    rewrite E. eexists. split; [reflexivity|].
    cbn [Node.with_subscribers Node.subscribers]. repeat split; assumption. }
  unfold Node.remove_subscriber. rewrite <- list_remove_absent.
  destruct (Node.list_remove sid (Node.subscribers self)).
  - split; discriminate.
  - split; reflexivity.
Qed.

(** ** Reading a batch *)

(** X9.  [stream()] changes nothing of a node but its tombstone list,
    which it empties, and marks the link only when there were removals: a
    second read right after the first returns the first batch without its
    removal entries and changes nothing at all. *)
Theorem stream_twice (self : Node.t) (link : DSLink.t) :
  let '(out1, self1, link1) := Node.stream self link in
  let '(out2, self2, link2) := Node.stream self1 link1 in
  out1 = out2 ++ map Node.tombstone (Node.removed_children self) /\
  out2 = Node.live_updates self /\
  self1 = Node.with_removed_children [] self /\
  self2 = self1 /\ link2 = link1 /\
  DSLink.wsp link1 = DSLink.wsp link /\
  DSLink.nodes_changed link1
  = match Node.removed_children self with
    | [] => DSLink.nodes_changed link
    | _ :: _ => true
    end.
Proof.
  rewrite stream_eq, stream_eq.
  cbn [Node.with_removed_children Node.removed_children map marked].
  rewrite app_nil_r, live_updates_with_removed, wsp_marked.
  repeat split. destruct (Node.removed_children self); reflexivity.
Qed.

(** ** Paths through the tree *)

Lemma find_char_absent (c : ascii) (s : string) :
  Path.has_char c s = false -> forall start, Py.find_char c start s = None.
Proof.
  induction s as [|b s IH]; intros H start; [reflexivity|].
  cbn [Path.has_char] in H. apply orb_false_iff in H. destruct H as [Hb Hs].
  cbn [Py.find_char]. destruct start as [|start].
  - rewrite Hb, (IH Hs). reflexivity.
  - rewrite (IH Hs). reflexivity.
Qed.

Lemma find_char_after (c : ascii) (a r : string) :
  Path.has_char c a = false ->
  forall start, start <= String.length a ->
    Py.find_char c start (a ++ String c r) = Some (String.length a).
Proof.
  induction a as [|b a IH]; intros H start Hs.
  - cbn [String.length] in Hs. assert (start = 0) by lia. subst start.
    cbn [String.append Py.find_char]. rewrite Ascii.eqb_refl. reflexivity.
  - cbn [Path.has_char] in H. apply orb_false_iff in H. destruct H as [Hb Ha].
    cbn [String.append Py.find_char String.length].
    destruct start as [|start].
    + rewrite Hb, (IH Ha 0) by lia. reflexivity.
    + cbn [String.length] in Hs. rewrite (IH Ha start) by lia. reflexivity.
Qed.

Lemma segment_split (k : string) :
  Path.segment k = true ->
  1 <= String.length k /\ Path.has_char "/" k = false /\
  Py.startswith "$" k = false /\ Py.startswith "@" k = false.
Proof.
  unfold Path.segment. intros H.
  apply andb_prop in H. destruct H as [H H4].
  apply andb_prop in H. destruct H as [H H3].
  apply andb_prop in H. destruct H as [H1 H2].
  apply negb_true_iff in H1, H2, H3, H4.
  repeat split; try assumption.
  destruct k; [discriminate|cbn; lia].
Qed.

Lemma segment_here (k rest : string) :
  Path.segment k = true ->
  String.eqb ("/" ++ k ++ rest) "/" = false /\
  Py.startswith "/$" ("/" ++ k ++ rest) = false /\
  Py.startswith "/@" ("/" ++ k ++ rest) = false.
Proof.
  intros H. destruct (segment_split k H) as (Hlen & _ & Hd & Ha).
  destruct k as [|c k]; [cbn in Hlen; lia|].
  split; [reflexivity|].
  cbn [String.append Py.startswith] in *.
  rewrite andb_true_r in Hd, Ha. rewrite !andb_true_r.
  split; assumption.
Qed.

Lemma resolve_segment (fuel : nat) (self : Node.t) (k : string) :
  Path.segment k = true ->
  Node.resolve fuel self ("/" ++ k)
  = match Dict.lookup k (Node.children self) with
    | Some c => Py.Ok (Some ([k], c))
    | None => Py.Ok None
    end.
Proof.
  intros H. destruct (segment_here k "" H) as (H1 & H2 & H3).
  rewrite append_empty in H1, H2, H3.
  destruct (segment_split k H) as (Hlen & Hs & _).
  rewrite resolve_eq, H1, H2, H3.
  assert (Hf : Py.find_char "/" 2 ("/" ++ k) = None).
  { cbn [String.append Py.find_char].
    rewrite (find_char_absent "/" k Hs). reflexivity. }
  rewrite Hf. cbn [Py.try_except Py.exn_eqb]. cbv zeta.
  change (Py.slice_from 1 ("/" ++ k)) with k.
  unfold Dict.getitem.
  destruct (Dict.lookup k (Node.children self)); reflexivity.
Qed.

Lemma resolve_append (fuel : nat) (self : Node.t) (k p : string) :
  Path.segment k = true -> Py.startswith "/" p = true ->
  String.length p <= fuel ->
  Node.resolve (S fuel) self ("/" ++ k ++ p)
  = match Dict.lookup k (Node.children self) with
    | Some c =>
        r <- Node.resolve fuel c p ;;
        Py.Ok (option_map (fun am => (k :: fst am, snd am)) r)
    | None => Py.Ok None
    end.
Proof.
  intros H Hp Hfuel. destruct (segment_here k p H) as (H1 & H2 & H3).
  destruct (segment_split k H) as (Hlen & Hs & _).
  rewrite resolve_eq, H1, H2, H3.
  destruct p as [|c p']; [discriminate|].
  cbn [Py.startswith] in Hp. rewrite andb_true_r in Hp.
  apply Ascii.eqb_eq in Hp. subst c.
  assert (Hf : Py.find_char "/" 2 ("/" ++ k ++ String "/" p')
               = Some (S (String.length k))).
  { change ("/" ++ k ++ String "/" p')%string
      with (String "/" (k ++ String "/" p')).
    cbn [Py.find_char].
    rewrite (find_char_after "/" k p' Hs 1 Hlen). reflexivity. }
  rewrite Hf. cbv zeta.
  assert (Hk : Py.slice 1 (S (String.length k)) ("/" ++ k ++ String "/" p') = k).
  { unfold Py.slice.
    change (Py.slice_from 1 ("/" ++ k ++ String "/" p'))
      with (k ++ String "/" p')%string.
    replace (S (String.length k) - 1) with (String.length k) by lia.
    apply slice_to_append. }
  assert (Hr : Py.slice_from (S (String.length k)) ("/" ++ k ++ String "/" p')
               = String "/" p').
  { change (Py.slice_from (S (String.length k)) ("/" ++ k ++ String "/" p'))
      with (Py.slice_from (String.length k) (k ++ String "/" p')).
    apply slice_from_append. }
  rewrite Hk, Hr. unfold Dict.getitem.
  destruct (Dict.lookup k (Node.children self)) as [c|]; [|reflexivity].
  cbn [Py.bind].
  destruct (resolve_returns fuel c (String "/" p') Hfuel) as [r Er].
  rewrite Er. reflexivity.
Qed.

Lemma get_segment_eq (self : Node.t) (k : string) :
  Path.segment k = true ->
  Node.get self ("/" ++ k) = Py.Ok (Dict.lookup k (Node.children self)).
Proof.
  intros H. unfold Node.get. rewrite (resolve_segment _ self k H).
  destruct (Dict.lookup k (Node.children self)); reflexivity.
Qed.

Lemma get_append_eq (self : Node.t) (k p : string) :
  Path.segment k = true -> Py.startswith "/" p = true ->
  Node.get self ("/" ++ k ++ p)
  = match Dict.lookup k (Node.children self) with
    | Some c => Node.get c p
    | None => Py.Ok None
    end.
Proof.
  intros H Hp. unfold Node.get.
  assert (Hlen : String.length ("/" ++ k ++ p)
                 = S (String.length k + String.length p)).
  { change ("/" ++ k ++ p)%string with (String "/" (k ++ p)).
    cbn [String.length]. rewrite length_append. reflexivity. }
  rewrite Hlen, (resolve_append _ self k p H Hp) by lia.
  destruct (Dict.lookup k (Node.children self)) as [c|]; [|reflexivity].
  rewrite (resolve_fuel (String.length k + String.length p) (String.length p))
    by lia.
  destruct (Node.resolve (String.length p) c p) as [[r|]|e]; reflexivity.
Qed.

(** The paths that [get] does not answer with the node itself, by their
    first two characters [c0] and [c1]: the first character is passed
    over, and the name of the child begins with the second. *)
Lemma not_here (c0 c1 : ascii) (rest : string) :
  Ascii.eqb c0 "/" && (Ascii.eqb c1 "$" || Ascii.eqb c1 "@") = false ->
  String.eqb (String c0 (String c1 rest)) "/" = false /\
  Py.startswith "/$" (String c0 (String c1 rest)) = false /\
  Py.startswith "/@" (String c0 (String c1 rest)) = false.
Proof.
  intros H. split.
  { apply String.eqb_neq. intros E. injection E as _ E. discriminate E. }
  change (Py.startswith "/$" (String c0 (String c1 rest)))
    with (Ascii.eqb "/" c0 && (Ascii.eqb "$" c1 && true)).
  change (Py.startswith "/@" (String c0 (String c1 rest)))
    with (Ascii.eqb "/" c0 && (Ascii.eqb "@" c1 && true)).
  rewrite (Ascii.eqb_sym "/" c0), (Ascii.eqb_sym "$" c1), (Ascii.eqb_sym "@" c1).
  destruct (Ascii.eqb c0 "/"), (Ascii.eqb c1 "$"), (Ascii.eqb c1 "@");
    try discriminate H; split; reflexivity.
Qed.

Lemma resolve_leaf (fuel : nat) (self : Node.t) (c0 c1 : ascii) (k : string) :
  Path.has_char "/" k = false ->
  Ascii.eqb c0 "/" && (Ascii.eqb c1 "$" || Ascii.eqb c1 "@") = false ->
  Node.resolve fuel self (String c0 (String c1 k))
  = match Dict.lookup (String c1 k) (Node.children self) with
    | Some c => Py.Ok (Some ([String c1 k], c))
    | None => Py.Ok None
    end.
Proof.
  intros Hk Hself. destruct (not_here c0 c1 k Hself) as (H1 & H2 & H3).
  rewrite resolve_eq, H1, H2, H3.
  assert (Hf : Py.find_char "/" 2 (String c0 (String c1 k)) = None).
  { cbn [Py.find_char]. rewrite (find_char_absent "/" k Hk). reflexivity. }
  rewrite Hf. cbn [Py.try_except Py.exn_eqb]. cbv zeta.
  change (Py.slice_from 1 (String c0 (String c1 k))) with (String c1 k).
  unfold Dict.getitem.
  destruct (Dict.lookup (String c1 k) (Node.children self)); reflexivity.
Qed.

Lemma resolve_step (fuel : nat) (self : Node.t) (c0 c1 : ascii)
  (k rest : string) :
  Path.has_char "/" k = false ->
  Ascii.eqb c0 "/" && (Ascii.eqb c1 "$" || Ascii.eqb c1 "@") = false ->
  Py.startswith "/" rest = true ->
  String.length rest <= fuel ->
  Node.resolve (S fuel) self (String c0 (String c1 (k ++ rest)))
  = match Dict.lookup (String c1 k) (Node.children self) with
    | Some c =>
        r <- Node.resolve fuel c rest ;;
        Py.Ok (option_map (fun am => (String c1 k :: fst am, snd am)) r)
    | None => Py.Ok None
    end.
Proof.
  intros Hk Hself Hrest Hfuel.
  destruct (not_here c0 c1 (k ++ rest) Hself) as (H1 & H2 & H3).
  rewrite resolve_eq, H1, H2, H3.
  destruct rest as [|c rest']; [discriminate|].
  cbn [Py.startswith] in Hrest. rewrite andb_true_r in Hrest.
  apply Ascii.eqb_eq in Hrest. subst c.
  assert (Hf : Py.find_char "/" 2 (String c0 (String c1 (k ++ String "/" rest')))
               = Some (S (S (String.length k)))).
  { cbn [Py.find_char].
    rewrite (find_char_after "/" k rest' Hk 0) by lia. reflexivity. }
  rewrite Hf. cbv zeta.
  assert (Hname : Py.slice 1 (S (S (String.length k)))
                    (String c0 (String c1 (k ++ String "/" rest')))
                  = String c1 k).
  { unfold Py.slice.
    change (Py.slice_from 1 (String c0 (String c1 (k ++ String "/" rest'))))
      with (String c1 k ++ String "/" rest')%string.
    replace (S (S (String.length k)) - 1) with (String.length (String c1 k))
      by (cbn [String.length]; lia).
    apply slice_to_append. }
  assert (Hrem : Py.slice_from (S (S (String.length k)))
                   (String c0 (String c1 (k ++ String "/" rest')))
                 = String "/" rest').
  { change (Py.slice_from (S (S (String.length k)))
              (String c0 (String c1 (k ++ String "/" rest'))))
      with (Py.slice_from (String.length k) (k ++ String "/" rest')).
    apply slice_from_append. }
  rewrite Hname, Hrem. unfold Dict.getitem.
  destruct (Dict.lookup (String c1 k) (Node.children self)) as [c|];
    [|reflexivity].
  cbn [Py.bind].
  destruct (resolve_returns fuel c (String "/" rest') Hfuel) as [r Er].
  rewrite Er. reflexivity.
Qed.

(** C8.  [get] returns the node itself for the path ["/"] and for a path
    that begins with ["/$"] or ["/@"].  Any other path of two characters
    or more names a child by its first segment, which is what stands
    between the first character and the next slash from the third
    character on: if the path ends there, [get] returns that child; if
    more of the path follows, [get] returns what [get] of the rest returns
    on that child; if there is no such child, [get] returns [None].  A
    shorter path names the child with the empty name.  Whatever the node
    and the path, the call returns and raises nothing. *)
Theorem get_resolves (self : Node.t) :
  (forall p,
     p = "/" \/ Py.startswith "/$" p = true \/ Py.startswith "/@" p = true ->
     Node.get self p = Py.Ok (Some self)) /\
  (forall (c0 c1 : ascii) (k rest : string),
     Path.has_char "/" k = false ->
     Ascii.eqb c0 "/" && (Ascii.eqb c1 "$" || Ascii.eqb c1 "@") = false ->
     Node.get self (String c0 (String c1 k))
     = Py.Ok (Dict.lookup (String c1 k) (Node.children self)) /\
     (Py.startswith "/" rest = true ->
      Node.get self (String c0 (String c1 (k ++ rest)))
      = match Dict.lookup (String c1 k) (Node.children self) with
        | Some child => Node.get child rest
        | None => Py.Ok None
        end)) /\
  (forall c0 : ascii,
     Ascii.eqb c0 "/" = false ->
     Node.get self (String c0 "")
     = Py.Ok (Dict.lookup "" (Node.children self))) /\
  Node.get self "" = Py.Ok (Dict.lookup "" (Node.children self)) /\
  (forall p, exists r, Node.get self p = Py.Ok r).
Proof.
  split.
  { intros p Hp. unfold Node.get. rewrite resolve_eq.
    destruct Hp as [->|[Hp|Hp]].
    - reflexivity.
    - rewrite Hp. destruct (String.eqb p "/"); reflexivity.
    - rewrite Hp.
      destruct (String.eqb p "/"), (Py.startswith "/$" p); reflexivity. }
  split.
  { intros c0 c1 k rest Hk Hself. split.
    - unfold Node.get. rewrite (resolve_leaf _ self c0 c1 k Hk Hself).
      destruct (Dict.lookup (String c1 k) (Node.children self)); reflexivity.
    - intros Hrest. unfold Node.get.
      assert (Hlen : String.length (String c0 (String c1 (k ++ rest)))
                     = S (S (String.length k + String.length rest)))
        by (cbn [String.length]; rewrite length_append; reflexivity).
      rewrite Hlen.
      rewrite (resolve_step _ self c0 c1 k rest Hk Hself Hrest) by lia.
      destruct (Dict.lookup (String c1 k) (Node.children self)) as [c|];
        [|reflexivity].
      rewrite (resolve_fuel (S (String.length k + String.length rest))
                 (String.length rest)) by lia.
      destruct (Node.resolve (String.length rest) c rest) as [[r|]|e];
        reflexivity. }
  split.
  { intros c0 Hc0. unfold Node.get. rewrite resolve_eq.
    assert (H1 : String.eqb (String c0 "") "/" = false).
    { apply String.eqb_neq. intros E. injection E as E.
      subst c0. discriminate Hc0. }
    rewrite H1.
    change (Py.startswith "/$" (String c0 "")) with (Ascii.eqb "/" c0 && false).
    change (Py.startswith "/@" (String c0 "")) with (Ascii.eqb "/" c0 && false).
    rewrite andb_false_r. cbn [Py.find_char option_map Py.try_except Py.exn_eqb].
    cbv zeta. change (Py.slice_from 1 (String c0 "")) with "".
    unfold Dict.getitem.
    destruct (Dict.lookup "" (Node.children self)); reflexivity. }
  split.
  { unfold Node.get. rewrite resolve_eq.
    change (String.eqb "" "/") with false.
    change (Py.startswith "/$" "") with false.
    change (Py.startswith "/@" "") with false.
    cbn [Py.find_char Py.try_except Py.exn_eqb]. cbv zeta.
    change (Py.slice_from 1 "") with "".
    unfold Dict.getitem.
    destruct (Dict.lookup "" (Node.children self)); reflexivity. }
  intros p. exact (proj2 (get_returns self p)).
Qed.

(** Two segments are followed down to a grandchild, and a first segment
    that names no child gives [None]. *)
Lemma get_resolves_witness :
  (exists n,
     Node.get Trees.site "/plant/temperature" = Py.Ok (Some n) /\
     Node.path n = "/site/plant/temperature") /\
  Node.get Trees.site "/pump/speed" = Py.Ok None /\
  (exists n,
     Node.get Trees.site "/plant" = Py.Ok (Some n) /\
     Node.path n = "/site/plant").
Proof.
  pose proof (proj1 (proj2 (get_resolves Trees.site))) as H.
  split; [|split].
  - eexists. split.
    + etransitivity.
      * exact (proj2 (H "/"%char "p"%char "lant" "/temperature"
                        eq_refl eq_refl) eq_refl).
      * vm_compute. reflexivity.
    + reflexivity.
  - etransitivity.
    + exact (proj2 (H "/"%char "p"%char "ump" "/speed" eq_refl eq_refl)
               eq_refl).
    + reflexivity.
  - eexists. split.
    + etransitivity.
      * exact (proj1 (H "/"%char "p"%char "lant" "" eq_refl eq_refl)).
      * vm_compute. reflexivity.
    + reflexivity.
Defined.

(** X10.  [get] follows a path one component at a time.  For a component
    [k] (not empty, without a slash, beginning with neither sign),
    [get("/" + k)] is the child named [k], or [None] when there is none;
    and for a path [p] beginning with a slash, [get("/" + k + p)] is what
    [get(p)] returns from that child, or [None] when there is no such
    child. *)
Theorem get_along_path (self : Node.t) (k p : string) :
  Path.segment k = true ->
  Node.get self ("/" ++ k) = Py.Ok (Dict.lookup k (Node.children self)) /\
  (Py.startswith "/" p = true ->
   Node.get self ("/" ++ k ++ p)
   = match Dict.lookup k (Node.children self) with
     | Some c => Node.get c p
     | None => Py.Ok None
     end).
Proof.
  intros H. split; [apply get_segment_eq, H|].
  intros Hp. apply get_append_eq; assumption.
Qed.

Lemma get_along_path_witness :
  Path.segment "plant" = true /\
  Node.get Trees.site "/plant"
  = Py.Ok (Dict.lookup "plant" (Node.children Trees.site)) /\
  (Py.startswith "/" "/temperature" = true ->
   Node.get Trees.site "/plant/temperature"
   = match Dict.lookup "plant" (Node.children Trees.site) with
     | Some c => Node.get c "/temperature"
     | None => Py.Ok None
     end).
Proof.
  split; [reflexivity|].
  exact (get_along_path Trees.site "plant" "/temperature" eq_refl).
Defined.

(** X11.  A child added under a component name is what [get] returns for
    that name, however the children are then arranged, and [get] returns
    [None] for it once the child has been removed. *)
Theorem add_child_get (rehash : dict Node.t -> dict Node.t)
  (child self : Node.t) (link : DSLink.t) :
  Dict.arrangement rehash ->
  Path.segment (Node.name child) = true ->
  Dict.mem (Node.name child) (Node.children self) = false ->
  Node.get self ("/" ++ Node.name child) = Py.Ok None /\
  exists self1 link1 self2 link2,
    Node.add_child rehash child self link = (Py.Ok tt, self1, link1) /\
    Node.get self1 ("/" ++ Node.name child) = Py.Ok (Some child) /\
    Node.remove_child (Node.name child) self1 link1 = (true, self2, link2) /\
    Node.get self2 ("/" ++ Node.name child) = Py.Ok None.
Proof.
  intros Hr Hseg Hmem.
  split.
  { rewrite (get_segment_eq self _ Hseg).
    apply lookup_none_mem in Hmem. rewrite Hmem. reflexivity. }
  set (added := Node.with_children
                  (rehash (Node.children self ++ [(Node.name child, child)]))
                  self).
  pose proof (Hr (Node.children self ++ [(Node.name child, child)])) as Hperm.
  destruct (lookup_arranged _ _ _ _ Hperm Hmem) as (Hlook & _ & _).
  assert (H1 : exists self1 link1,
             Node.add_child rehash child self link = (Py.Ok tt, self1, link1) /\
             Node.children self1
             = rehash (Node.children self ++ [(Node.name child, child)])).
  { rewrite (add_child_fresh rehash child self link Hmem). fold added.
    destruct (notified_fields added) as (_ & _ & _ & _ & Hch & _).
    destruct (Node.standalone self || DSLink.active link);
      eexists; eexists; (split; [reflexivity|]); [exact Hch|reflexivity]. }
  destruct H1 as (self1 & link1 & E1 & Hch1).
  exists self1, link1. rewrite E1.
  rewrite (get_segment_eq self1 _ Hseg), Hch1, Hlook.
  rewrite remove_child_eq, Hch1, Hlook. cbv zeta.
  set (moved := Node.with_removed_children _ _).
  eexists; eexists. split; [reflexivity|]. split; [reflexivity|].
  split; [reflexivity|].
  rewrite (get_segment_eq _ _ Hseg).
  destruct (notified_fields moved) as (_ & _ & _ & _ & Hch & _).
  rewrite Hch. unfold moved.
  cbn [Node.with_removed_children Node.with_children Node.children].
  rewrite lookup_remove_same. reflexivity.
Qed.

Lemma add_child_get_witness :
  Dict.arrangement (@rev (string * Node.t)) /\
  Path.segment "valve" = true /\
  Dict.mem "valve" (Node.children Sample.plant) = false /\
  Node.get Sample.plant "/valve" = Py.Ok None /\
  exists self1 link1 self2 link2,
    Node.add_child (@rev _) (Node.fresh "valve" "/plant/valve" false)
      Sample.plant Sample.link = (Py.Ok tt, self1, link1) /\
    Node.get self1 "/valve"
    = Py.Ok (Some (Node.fresh "valve" "/plant/valve" false)) /\
    Node.remove_child "valve" self1 link1 = (true, self2, link2) /\
    Node.get self2 "/valve" = Py.Ok None.
Proof.
  split; [exact rev_arranges|]. split; [reflexivity|]. split; [reflexivity|].
  exact (add_child_get (@rev _) (Node.fresh "valve" "/plant/valve" false)
           Sample.plant Sample.link rev_arranges eq_refl eq_refl).
Defined.

(** ** Requests addressed by path *)

Lemma set_config_attr_eq (limit : nat) (p : string) (v : json)
  (now : datetime) (self : Node.t) (link : DSLink.t) :
  Node.set_config_attr limit p v now self link
  = if String.eqb p "/" || String.eqb p (Node.path self) then
      let '(r, self, link) := Node.set_value v true now self link in
      (_ <- r ;; Py.Ok tt, self, link)
    else if Py.startswith "/$" p || Py.startswith (Node.path self ++ "/$") p then
      let '(self, link) := Node.set_config (Py.slice_from 2 p) v self link in
      (Py.Ok tt, self, link)
    else if Py.startswith "/@" p || Py.startswith (Node.path self ++ "/@") p then
      let '(self, link) := Node.set_attribute (Py.slice_from 2 p) v self link in
      (Py.Ok tt, self, link)
    else
      match Node.resolve (String.length p) self p with
      | Py.Raise e => (Py.Raise e, self, link)
      | Py.Ok None => (Py.Ok tt, self, link)
      | Py.Ok (Some (addr, node)) =>
          match limit with
          | O => (Py.Raise Py.RuntimeError, self, link)
          | S limit' =>
              let '(r, node, link) :=
                Node.set_config_attr limit' p v now node link in
              (r, Node.put_at addr node self, link)
          end
      end.
Proof. destruct limit; reflexivity. Qed.

Lemma sign_not_key (c : ascii) (k : string) : String c k <> k.
Proof.
  intros H. apply (f_equal String.length) in H. cbn [String.length] in H. lia.
Qed.

Lemma getitem_remove {A : Type} (k k' : string) (d : dict A) :
  Dict.getitem (Dict.remove k' d) k
  = if String.eqb k k' then Py.Raise Py.KeyError else Dict.getitem d k.
Proof.
  unfold Dict.getitem. destruct (String.eqb_spec k k') as [E|E].
  - subst k'. rewrite lookup_remove_same. reflexivity.
  - rewrite (lookup_remove_other _ _ _ E). reflexivity.
Qed.

(** X12.  A request for the path ["/$" + k] stores the value in the config
    under [k], the key without its sign: [get_config(k)] returns it and
    [get_config("$" + k)] is what it was.  The removal request for the
    same path deletes that entry again, so that every key reads as it did
    before the two requests, and the config is the one the node had if
    [k] was not a key of it. *)
Theorem set_config_attr_remove_config_attr (limit limit' : nat) (k : string)
  (v : json) (now : datetime) (self : Node.t) (link : DSLink.t) :
  Node.path self <> ("/$" ++ k)%string ->
  exists self1 link1 self2,
    Node.set_config_attr limit ("/$" ++ k) v now self link
    = (Py.Ok tt, self1, link1) /\
    Node.get_config k self1 = Py.Ok v /\
    Node.get_config ("$" ++ k) self1 = Node.get_config ("$" ++ k) self /\
    Node.attributes self1 = Node.attributes self /\
    Node.remove_config_attr limit' ("/$" ++ k) self1 = (Py.Ok tt, self2) /\
    Node.get_config k self2 = Py.Raise Py.KeyError /\
    (forall k', k' <> k -> Node.get_config k' self2 = Node.get_config k' self) /\
    (Dict.mem k (Node.config self) = false ->
     Node.config self2 = Node.config self).
Proof.
  intros Hpath.
  assert (Hp : String.eqb ("/$" ++ k) (Node.path self) = false).
  { apply String.eqb_neq. intros E. apply Hpath. symmetry. exact E. }
  rewrite set_config_attr_eq.
  change (String.eqb ("/$" ++ k) "/") with false. rewrite Hp.
  change (Py.startswith "/$" ("/$" ++ k)) with true.
  cbn [orb]. change (Py.slice_from 2 ("/$" ++ k)) with k.
  pose proof (set_config_stored k v self link) as (Hco & Hat & _).
  destruct (Node.set_config k v self link) as [self1 link1].
  cbn [fst] in Hco, Hat.
  exists self1, link1.
  rewrite remove_config_attr_eq.
  change (Py.startswith "/$" ("/$" ++ k)) with true.
  cbn [orb]. change (Py.slice_from 2 ("/$" ++ k)) with k.
  unfold Dict.delitem. rewrite Hco, mem_set, String.eqb_refl. cbn [orb].
  eexists. split; [reflexivity|].
  unfold Node.get_config. rewrite Hco.
  split; [rewrite getitem_set, String.eqb_refl; reflexivity|].
  split.
  { rewrite getitem_set.
    destruct (String.eqb_spec ("$" ++ k) k) as [E|E]; [|reflexivity].
    exfalso. exact (sign_not_key _ _ E). }
  split; [exact Hat|].
  split; [reflexivity|].
  cbn [Node.with_config Node.config].
  split; [rewrite getitem_remove, String.eqb_refl; reflexivity|].
  split.
  { intros k' Hk. rewrite getitem_remove, getitem_set.
    apply String.eqb_neq in Hk. rewrite Hk. reflexivity. }
  intros Hmem. rewrite (set_fresh _ _ _ Hmem), remove_app, (remove_fresh _ _ Hmem).
  unfold Dict.remove. cbn [filter fst]. rewrite String.eqb_refl.
  apply app_nil_r.
Qed.

Lemma set_config_attr_remove_config_attr_witness :
  Node.path Sample.plant <> "/$unit" /\
  exists self1 link1 self2,
    Node.set_config_attr 1000 "/$unit" (JStr "C") Sample.noon Sample.plant
      Sample.link = (Py.Ok tt, self1, link1) /\
    Node.get_config "unit" self1 = Py.Ok (JStr "C") /\
    Node.get_config "$unit" self1 = Node.get_config "$unit" Sample.plant /\
    Node.attributes self1 = Node.attributes Sample.plant /\
    Node.remove_config_attr 1000 "/$unit" self1 = (Py.Ok tt, self2) /\
    Node.get_config "unit" self2 = Py.Raise Py.KeyError /\
    (forall k', k' <> "unit" ->
       Node.get_config k' self2 = Node.get_config k' Sample.plant) /\
    (Dict.mem "unit" (Node.config Sample.plant) = false ->
     Node.config self2 = Node.config Sample.plant).
Proof.
  split; [discriminate|].
  apply (set_config_attr_remove_config_attr 1000 1000 "unit" (JStr "C")
           Sample.noon Sample.plant Sample.link).
  discriminate.
Defined.

Lemma startswith_longer (p s : string) :
  String.length s < String.length p -> Py.startswith p s = false.
Proof.
  revert s. induction p as [|a p IH]; intros s H; [cbn in H; lia|].
  destruct s as [|b s]; [reflexivity|].
  cbn [Py.startswith]. cbn [String.length] in H. rewrite (IH s) by lia.
  apply andb_false_r.
Qed.

(** X13.  The removal request for the path ["/"] never completes: the
    path names no config or attribute, [get("/")] is the node itself, and
    the request is made again on it, until the depth of recursion that
    the interpreter allows is used up, whatever that depth.  The node is
    not changed. *)
Theorem remove_config_attr_root_overflow (limit : nat) (self : Node.t) :
  Node.remove_config_attr limit "/" self = (Py.Raise Py.RuntimeError, self).
Proof.
  assert (H1 : Py.startswith (Node.path self ++ "/$") "/" = false).
  { apply startswith_longer. rewrite length_append. cbn. lia. }
  assert (H2 : Py.startswith (Node.path self ++ "/@") "/" = false).
  { apply startswith_longer. rewrite length_append. cbn. lia. }
  induction limit as [|limit IH]; rewrite remove_config_attr_eq;
    change (Py.startswith "/$" "/") with false;
    change (Py.startswith "/@" "/") with false;
    rewrite H1, H2; cbn [orb]; rewrite resolve_eq;
    change (String.eqb "/" "/") with true; cbv iota.
  - reflexivity.
  - rewrite IH. reflexivity.
Qed.

Lemma startswith_under_root (pth suffix k : string) :
  String.length pth <= 1 ->
  Path.has_char "/" k = false ->
  Py.startswith "/" suffix = true ->
  Py.startswith suffix ("/" ++ k) = false ->
  Py.startswith (pth ++ suffix) ("/" ++ k) = false.
Proof.
  intros Hlen Hk Hs Hroot.
  destruct pth as [|a [|b pth]]; [exact Hroot| |cbn in Hlen; lia].
  destruct suffix as [|c suffix]; [discriminate|].
  cbn [Py.startswith] in Hs. rewrite andb_true_r in Hs.
  apply Ascii.eqb_eq in Hs. subst c.
  change (Py.startswith (String a "" ++ String "/" suffix) ("/" ++ k))
    with (Ascii.eqb a "/" && Py.startswith (String "/" suffix) k).
  destruct k as [|d k]; [apply andb_false_r|].
  cbn [Py.startswith]. cbn [Path.has_char] in Hk.
  apply orb_false_iff in Hk. destruct Hk as [Hd _].
  rewrite (Ascii.eqb_sym "/" d), Hd. apply andb_false_r.
Qed.

Lemma segment_not_here (self : Node.t) (k : string) :
  Path.segment k = true -> String.length (Node.path self) <= 1 ->
  String.eqb ("/" ++ k) "/" || String.eqb ("/" ++ k) (Node.path self) = false /\
  Py.startswith "/$" ("/" ++ k)
  || Py.startswith (Node.path self ++ "/$") ("/" ++ k) = false /\
  Py.startswith "/@" ("/" ++ k)
  || Py.startswith (Node.path self ++ "/@") ("/" ++ k) = false.
Proof.
  intros H Hlen. destruct (segment_here k "" H) as (H1 & H2 & H3).
  rewrite append_empty in H1, H2, H3.
  destruct (segment_split k H) as (Hk & Hs & _).
  rewrite H1, H2, H3. cbn [orb].
  split.
  { apply String.eqb_neq. intros E. apply (f_equal String.length) in E.
    change ("/" ++ k)%string with (String "/" k) in E.
    cbn [String.length] in E. lia. }
  split; apply startswith_under_root; assumption || reflexivity.
Qed.

(** X14.  A request for the path ["/" + k], made on a root (a node whose
    path is empty or a single character) for a component [k] that names
    no child, finds no node: the set request then returns without raising
    and changes neither the node nor the link, and the removal request
    raises [AttributeError], the node unchanged. *)
Theorem config_attr_missing_node (limit : nat) (k : string) (v : json)
  (now : datetime) (self : Node.t) (link : DSLink.t) :
  Path.segment k = true ->
  String.length (Node.path self) <= 1 ->
  Dict.lookup k (Node.children self) = None ->
  Node.set_config_attr limit ("/" ++ k) v now self link = (Py.Ok tt, self, link) /\
  Node.remove_config_attr limit ("/" ++ k) self
  = (Py.Raise Py.AttributeError, self).
Proof.
  intros H Hlen Hnone.
  destruct (segment_not_here self k H Hlen) as (H1 & H2 & H3).
  rewrite set_config_attr_eq, remove_config_attr_eq, H1, H2, H3.
  rewrite (resolve_segment _ self k H), Hnone. split; reflexivity.
Qed.

Lemma config_attr_missing_node_witness :
  Path.segment "pump" = true /\
  String.length (Node.path (Node.fresh "" "" false)) <= 1 /\
  Dict.lookup "pump" (Node.children (Node.fresh "" "" false)) = None /\
  Node.set_config_attr 1000 "/pump" (JNum 3) Sample.noon
    (Node.fresh "" "" false) Sample.link
  = (Py.Ok tt, Node.fresh "" "" false, Sample.link) /\
  Node.remove_config_attr 1000 "/pump" (Node.fresh "" "" false)
  = (Py.Raise Py.AttributeError, Node.fresh "" "" false).
Proof.
  split; [reflexivity|]. split; [cbn; lia|]. split; [reflexivity|].
  apply (config_attr_missing_node 1000 "pump" (JNum 3) Sample.noon
           (Node.fresh "" "" false) Sample.link); [reflexivity|cbn; lia|reflexivity].
Defined.

(** X15.  A set request for the path of a child of a root sets the value
    of that child, with the callbacks, and changes the child where it
    stands among the children: the root keeps everything else, and the
    request raises what [set_value] raises. *)
Theorem set_config_attr_child (limit : nat) (k : string) (v : json)
  (now : datetime) (self c : Node.t) (link : DSLink.t) :
  Path.segment k = true ->
  String.length (Node.path self) <= 1 ->
  Dict.lookup k (Node.children self) = Some c ->
  Node.path c = ("/" ++ k)%string ->
  Node.set_config_attr (S limit) ("/" ++ k) v now self link
  = (let '(r, c', link') := Node.set_value v true now c link in
     (_ <- r ;; Py.Ok tt,
      Node.with_children (Dict.set k c' (Node.children self)) self,
      link')).
Proof.
  intros H Hlen Hc Hpath.
  destruct (segment_not_here self k H Hlen) as (H1 & H2 & H3).
  rewrite set_config_attr_eq, H1, H2, H3.
  rewrite (resolve_segment _ self k H), Hc.
  rewrite set_config_attr_eq, Hpath, String.eqb_refl, orb_true_r.
  destruct (Node.set_value v true now c link) as [[r c'] link'].
  cbn [Node.put_at]. rewrite Hc. reflexivity.
Qed.

Lemma set_config_attr_child_witness :
  Path.segment "pump" = true /\
  String.length (Node.path Roots.farm) <= 1 /\
  Dict.lookup "pump" (Node.children Roots.farm) = Some Roots.pump /\
  Node.path Roots.pump = "/pump" /\
  Node.set_config_attr 1 "/pump" (JNum 3) Sample.noon Roots.farm Sample.link
  = (let '(r, c', link') :=
       Node.set_value (JNum 3) true Sample.noon Roots.pump Sample.link in
     (_ <- r ;; Py.Ok tt,
      Node.with_children (Dict.set "pump" c' (Node.children Roots.farm))
        Roots.farm,
      link')).
Proof.
  split; [reflexivity|]. split; [cbn; lia|]. split; [reflexivity|].
  split; [reflexivity|].
  apply (set_config_attr_child 0 "pump" (JNum 3) Sample.noon Roots.farm
           Roots.pump Sample.link);
    [reflexivity | cbn; lia | reflexivity | reflexivity].
Defined.

(** The request reaches the pump: its value is set, its subscriber is
    sent the value, and the set callback of its profile is run. *)
Example set_config_attr_pump :
  exists farm' link',
    Node.set_config_attr 1 "/pump" (JNum 3) Sample.noon Roots.farm Sample.link
    = (Py.Ok tt, farm', link') /\
    option_map (fun c => Value.held (Node.value c))
      (Dict.lookup "pump" (Node.children farm'))
    = Some (Some (JNum 3, Sample.noon)) /\
    DSLink.wsp link'
    = [JDict [("responses",
               JList [value_response (JNum 3) Sample.noon 7])]] /\
    DSLink.calls link' = [DSLink.RunSetCallback (JStr "node") "/pump" (JNum 3)].
Proof. eexists; eexists. repeat split. Qed.

(** ** Building a tree from an object *)

Lemma unique_keys_dict (d : list (string * json)) :
  Built.unique_keys (JDict d) = true ->
  Tree.distinct (Dict.keys d) = true /\
  Forall (fun kv => Built.unique_keys (snd kv) = true) d.
Proof.
  cbn [Built.unique_keys]. intros H. apply andb_prop in H.
  destruct H as [Hd Hall]. split; [exact Hd|].
  clear Hd. induction d as [|kv d IH]; constructor.
  - apply andb_prop in Hall. exact (proj1 Hall).
  - apply IH. apply andb_prop in Hall. exact (proj2 Hall).
Qed.

Lemma placed_eq (n : Node.t) :
  Built.placed n
  = forallb
      (fun kc =>
         String.eqb (Node.name (snd kc)) (fst kc) &&
         String.eqb (Node.path (snd kc))
           (Built.child_path (Node.path n) (fst kc)) &&
         Built.placed (snd kc))
      (Node.children n).
Proof. destruct n; reflexivity. Qed.

Lemma lookup_filter_key {A : Type} (f : string * A -> bool) (k : string)
  (d : dict A) :
  (forall v, f (k, v) = true) ->
  Dict.lookup k (filter f d) = Dict.lookup k d.
Proof.
  intros Hf. induction d as [|[k' v'] d IH]; [reflexivity|].
  cbn [filter Dict.lookup]. destruct (String.eqb_spec k k') as [E|E].
  - subst k'. rewrite Hf. cbn [Dict.lookup]. rewrite String.eqb_refl.
    reflexivity.
  - destruct (f (k', v')); [|exact IH].
    cbn [Dict.lookup]. apply String.eqb_neq in E. rewrite E. exact IH.
Qed.

Section Build.

Variable rehash : dict Node.t -> dict Node.t.
Hypothesis rehash_arranges : Dict.arrangement rehash.

Variable F :
  json -> option Node.t -> option string -> DSLink.t
  -> Py.outcome Node.t * DSLink.t.
(** What is known of the node built for a key, given the path of the
    node it is built under. *)
Variable Q : string -> string -> Node.t -> Prop.

(** The loop over the properties of an object with one entry per key. *)
Lemma props_built (items : dict json) (node : Node.t) (link : DSLink.t) :
  Tree.distinct (Dict.keys items) = true ->
  (forall kv, In kv items -> Tree.is_child kv = true ->
     forall root link,
       exists m link',
         F (snd kv) (Some root) (Some (fst kv)) link = (Py.Ok m, link') /\
         Node.name m = fst kv /\ Q (Node.path root) (fst kv) m) ->
  (forall kv, In kv items -> Dict.mem (fst kv) (Node.children node) = false) ->
  Node.streams node = [] ->
  exists ms node' link',
    Node.from_json_props rehash F items node link = (Py.Ok node', link') /\
    Node.config node'
    = Dict.update (Node.config node) (filter Tree.is_config items) /\
    Node.attributes node'
    = Dict.update (Node.attributes node) (filter Tree.is_attribute items) /\
    Permutation (Node.children node') (Node.children node ++ ms) /\
    Forall2 (fun kv km => fst km = fst kv /\ Q (Node.path node) (fst kv) (snd km))
      (filter Tree.is_child items) ms /\
    Node.name node' = Node.name node /\
    Node.path node' = Node.path node /\
    Value.type (Node.value node')
    = match Dict.lookup "$type" items with
      | Some ty => Some ty
      | None => Value.type (Node.value node)
      end.
Proof.
  revert node link; induction items as [|[k v] items IH];
    intros node link Hd HF Hfresh Hs.
  - exists [], node, link. rewrite app_nil_r. repeat split; auto.
  - cbn [Dict.keys map fst] in Hd.
    assert (Hk : Dict.mem k items = false).
    { rewrite mem_keys. cbn [Tree.distinct] in Hd. apply andb_prop in Hd.
      apply negb_true_iff. exact (proj1 Hd). }
    apply distinct_cons in Hd. destruct Hd as [Hne Hd].
    assert (HF' : forall kv, In kv items -> Tree.is_child kv = true ->
              forall root link,
                exists m link',
                  F (snd kv) (Some root) (Some (fst kv)) link = (Py.Ok m, link') /\
                  Node.name m = fst kv /\ Q (Node.path root) (fst kv) m)
      by (intros kv Hin; apply HF; now right).
    cbn [Node.from_json_props filter Dict.lookup].
    unfold Tree.is_config at 1, Tree.is_attribute at 1, Tree.is_child at 1,
      Tree.plain.
    cbn [fst].
    destruct (Py.startswith "$" k) eqn:E1.
    + (* a config entry *)
      assert (E : exists node1,
                 (if String.eqb k "$type"
                  then let '(node0, link0) := Node.set_type v node link in
                       Node.from_json_props rehash F items node0 link0
                  else let '(node0, link0) := Node.set_config k v node link in
                       Node.from_json_props rehash F items node0 link0)
                 = Node.from_json_props rehash F items node1
                     (DSLink.with_nodes_changed true link) /\
                 Node.config node1 = Dict.set k v (Node.config node) /\
                 Node.attributes node1 = Node.attributes node /\
                 Node.children node1 = Node.children node /\
                 Node.streams node1 = [] /\ Node.name node1 = Node.name node /\
                 Node.path node1 = Node.path node /\
                 Value.type (Node.value node1)
                 = if String.eqb "$type" k then Some v
                   else Value.type (Node.value node)).
      { rewrite (String.eqb_sym "$type" k).
        destruct (String.eqb_spec k "$type") as [->|_].
        - unfold Node.set_type. rewrite set_config_quiet by exact Hs.
          eexists. split; [reflexivity|]. repeat split; exact Hs.
        - rewrite set_config_quiet by exact Hs.
          eexists. split; [reflexivity|]. repeat split; exact Hs. }
      destruct E as (node1 & -> & Hc1 & Ha1 & Hn1 & Hs1 & Hnm1 & Hp1 & Hv1).
      destruct (IH node1 (DSLink.with_nodes_changed true link) Hd HF')
        as (ms & node' & link' & E & Hc & Ha & Hn & Hall & Hnm & Hp & Hv);
        [intros kv Hin; rewrite Hn1; apply Hfresh; now right | exact Hs1 |].
      exists ms, node', link'. rewrite E. cbn [negb andb].
      rewrite Hn1 in Hn.
      rewrite Hc, Ha, Hnm, Hp, Hv, Hc1, Ha1, Hnm1, Hp1, Hv1.
      rewrite Hp1 in Hall.
      repeat split; auto.
      destruct (String.eqb_spec "$type" k) as [Ek|Ek]; [|reflexivity].
      subst k. apply lookup_none_mem in Hk. rewrite Hk. reflexivity.
    + assert (Et : String.eqb "$type" k = false).
      { apply String.eqb_neq. intros Ek. subst k. discriminate. }
      rewrite Et.
      cbn [negb andb]. destruct (Py.startswith "@" k) eqn:E2.
      * (* an attribute entry *)
        rewrite set_attribute_quiet by exact Hs.
        destruct (IH (Node.with_attributes
                        (Dict.set k v (Node.attributes node)) node)
                    (DSLink.with_nodes_changed true link) Hd HF')
          as (ms & node' & link' & E & Hc & Ha & Hn & Hall & Hnm & Hp & Hv);
          [intros kv Hin; apply Hfresh; now right | exact Hs |].
        exists ms, node', link'. rewrite E, Hc, Ha, Hnm, Hp, Hv.
        repeat split; auto.
      * (* the entry of a child *)
        destruct (HF (k, v) (or_introl eq_refl)) with (root := node)
          (link := link) as (m & link1 & Em & Hname & Hq).
        { unfold Tree.is_child, Tree.plain. cbn [fst]. now rewrite E1, E2. }
        cbn [fst snd] in Em, Hname, Hq. rewrite Em.
        pose proof (Hfresh (k, v) (or_introl eq_refl)) as Hkf. cbn [fst] in Hkf.
        rewrite add_child_quiet by (rewrite ?Hname; assumption).
        rewrite Hname.
        pose proof (rehash_arranges (Node.children node ++ [(k, m)])) as Hperm.
        destruct (IH (Node.with_children
                        (rehash (Node.children node ++ [(k, m)])) node)
                    (DSLink.with_nodes_changed true link1) Hd HF')
          as (ms & node' & link' & E & Hc & Ha & Hn & Hall & Hnm & Hp & Hv).
        { intros kv Hin. cbn [Node.children Node.with_children].
          rewrite (mem_perm _ _ _ (Permutation_sym Hperm)).
          rewrite mem_app, (Hfresh kv (or_intror Hin)), mem_cons, mem_nil.
          destruct (String.eqb_spec (fst kv) k) as [Ek|Ek]; [|reflexivity].
          exfalso. apply (Hne (fst kv)); [|exact Ek].
          unfold Dict.keys. now apply in_map. }
        { exact Hs. }
        exists ((k, m) :: ms), node', link'. rewrite E.
        cbn [Node.children Node.with_children] in Hn.
        rewrite Hc, Ha, Hnm, Hp, Hv. cbn [negb andb].
        repeat split; auto.
        rewrite Hn, Hperm, <- app_assoc. reflexivity.
Qed.

End Build.

Lemma init_child_path (nm : string) (root : option Node.t) (sa : bool) :
  Node.init (Some nm) root sa
  = Py.Ok (Node.fresh nm
             match root with
             | Some r => Built.child_path (Node.path r) nm
             | None => ("/" ++ nm)%string
             end sa).
Proof.
  destruct root as [r|]; [|reflexivity].
  unfold Node.init, Built.child_path.
  destruct (Py.endswith "/" (Node.path r)); reflexivity.
Qed.

(** X16.  From an object with one entry per key, as every Python [dict]
    has, [from_json] builds a node without raising.  The node has the
    name and the path that the constructor gives it.  If the object is a
    mapping, the config of the node is the default config updated with
    the entries whose key begins with a dollar sign, its attributes are
    the entries whose key begins with an at sign, and its children are
    named by the other keys, one child per key, in whatever order the
    dictionary then iterates; otherwise the node is a fresh one.  The
    declared type of the value is the entry [$type], so that it agrees
    with what [get_type] returns; and every node below the one built is
    filed under its name and has the path of its place. *)
Theorem from_json_builds (rehash : dict Node.t -> dict Node.t) (obj : json)
  (root : option Node.t) (nm : string) (link : DSLink.t) :
  Dict.arrangement rehash ->
  Built.unique_keys obj = true ->
  exists m link',
    Node.from_json rehash obj root (Some nm) link = (Py.Ok m, link') /\
    Node.name m = nm /\
    Node.path m
    = match root with
      | Some r => Built.child_path (Node.path r) nm
      | None => ("/" ++ nm)%string
      end /\
    match obj with
    | JDict items =>
        Node.config m
        = Dict.update [("$is", JStr "node")] (filter Tree.is_config items) /\
        Node.attributes m = Dict.update [] (filter Tree.is_attribute items) /\
        Permutation (Dict.keys (Node.children m))
          (Dict.keys (filter Tree.is_child items)) /\
        Tree.distinct (Dict.keys (Node.children m)) = true
    | _ => m = Node.fresh nm (Node.path m) false
    end /\
    Node.get_type m
    = match Value.type (Node.value m) with
      | Some ty => Py.Ok ty
      | None => Py.Raise Py.KeyError
      end /\
    Built.placed m = true.
Proof.
  intros Hr.
  revert root nm link. pattern obj. apply json_induction; clear obj;
    try (intros; rewrite from_json_eq, init_child_path;
         eexists; eexists; split; [reflexivity|]; repeat split).
  intros d IH root nm link Hu.
  destruct (unique_keys_dict d Hu) as [Hd Hall].
  rewrite from_json_eq, init_child_path.
  set (pth := match root with
              | Some r => Built.child_path (Node.path r) nm
              | None => ("/" ++ nm)%string
              end).
  destruct (props_built rehash Hr (Node.from_json rehash)
              (fun ppath k m =>
                 Node.name m = k /\
                 Node.path m = Built.child_path ppath k /\
                 Built.placed m = true)
              d (Node.fresh nm pth false) link Hd)
    as (ms & node' & link' & E & Hc & Ha & Hn & Hpairs & Hnm & Hp & Hv).
  { intros kv Hin _ r l.
    rewrite Forall_forall in IH, Hall.
    destruct (IH kv Hin (Some r) (fst kv) l (Hall kv Hin))
      as (m & l' & Em & Hname & Hpath & _ & _ & Hpl).
    exists m, l'. repeat split; assumption. }
  { intros kv _. reflexivity. }
  { reflexivity. }
  exists node', link'. split; [exact E|].
  split; [exact Hnm|]. split; [exact Hp|].
  cbn [Node.fresh Node.config Node.attributes Node.children Node.value
       Value.empty Value.type app] in Hc, Ha, Hn, Hv.
  pose proof (paired_keys _ _ _ (fun _ _ H => proj1 H) Hpairs) as Hkeys.
  assert (Pkeys : Permutation (Dict.keys (Node.children node')) (Dict.keys ms))
    by (apply Permutation_map; exact Hn).
  split.
  { split; [exact Hc|]. split; [exact Ha|].
    rewrite <- Hkeys. split; [exact Pkeys|].
    apply (distinct_keys_perm ms); [exact (Permutation_sym Hn)|].
    rewrite Hkeys. apply distinct_filter, Hd. }
  split.
  { rewrite Hv. unfold Node.get_type, Node.get_config, Dict.getitem.
    rewrite Hc, lookup_update by (apply distinct_filter; exact Hd).
    rewrite lookup_filter_key by reflexivity.
    destruct (Dict.lookup "$type" d); reflexivity. }
  rewrite placed_eq, Hp. apply forallb_forall. intros km Hin.
  apply (Permutation_in _ Hn) in Hin.
  destruct (paired_right _ _ _ km Hpairs Hin)
    as (kv & Hkv & Hfst & Hname & Hpath & Hpl).
  change (Node.path (Node.fresh nm pth false)) with pth in Hpath.
  rewrite Hname, Hpath, Hpl, Hfst, !String.eqb_refl. reflexivity.
Qed.

Lemma from_json_builds_witness :
  Dict.arrangement (@rev (string * Node.t)) /\
  Built.unique_keys
    (JDict [("$type", JStr "number"); ("@unit", JStr "C");
            ("inner", JDict [("$name", JStr "Inner")]); ("$is", JStr "gauge");
            ("outer", JNum 1)])
  = true /\
  exists m link',
    Node.from_json (@rev _)
      (JDict [("$type", JStr "number"); ("@unit", JStr "C");
              ("inner", JDict [("$name", JStr "Inner")]); ("$is", JStr "gauge");
              ("outer", JNum 1)])
      (Some Sample.plant) (Some "gauge") Sample.link = (Py.Ok m, link') /\
    Node.name m = "gauge" /\
    Node.path m = "/plant/gauge" /\
    (Node.config m = [("$is", JStr "gauge"); ("$type", JStr "number")] /\
     Node.attributes m = [("@unit", JStr "C")] /\
     Permutation (Dict.keys (Node.children m)) ["inner"; "outer"] /\
     Tree.distinct (Dict.keys (Node.children m)) = true) /\
    Node.get_type m
    = match Value.type (Node.value m) with
      | Some ty => Py.Ok ty
      | None => Py.Raise Py.KeyError
      end /\
    Built.placed m = true.
Proof.
  split; [exact rev_arranges|]. split; [reflexivity|].
  exact (from_json_builds (@rev _)
           (JDict [("$type", JStr "number"); ("@unit", JStr "C");
                   ("inner", JDict [("$name", JStr "Inner")]);
                   ("$is", JStr "gauge"); ("outer", JNum 1)])
           (Some Sample.plant) "gauge" Sample.link rev_arranges eq_refl).
Defined.

(** ** What [to_json] keeps of a key *)

Lemma fold_skip_update {A B : Type} (skip : A -> bool) (key : A -> string)
  (val : A -> B) (l : list A) (acc : dict B) :
  fold_left
    (fun out x => if skip x then out else Dict.set (key x) (val x) out) l acc
  = Dict.update acc
      (map (fun x => (key x, val x)) (filter (fun x => negb (skip x)) l)).
Proof.
  revert acc. induction l as [|x l IH]; intros acc; [reflexivity|].
  cbn [fold_left filter]. rewrite IH.
  destruct (skip x); reflexivity.
Qed.

Lemma lookup_map_values {A B : Type} (f : A -> B) (k : string) (d : dict A) :
  Dict.lookup k (map (fun kc => (fst kc, f (snd kc))) d)
  = option_map f (Dict.lookup k d).
Proof.
  induction d as [|[k' v'] d IH]; [reflexivity|].
  cbn [map Dict.lookup fst snd].
  destruct (String.eqb k k'); [reflexivity|exact IH].
Qed.

Lemma keys_map_values {A B : Type} (f : A -> B) (d : dict A) :
  Dict.keys (map (fun kc => (fst kc, f (snd kc))) d) = Dict.keys d.
Proof. unfold Dict.keys. rewrite map_map. reflexivity. Qed.

Lemma lookup_filter_none {A : Type} (f : string * A -> bool) (k : string)
  (d : dict A) :
  Dict.lookup k d = None -> Dict.lookup k (filter f d) = None.
Proof.
  induction d as [|[k' v'] d IH]; [reflexivity|].
  cbn [filter Dict.lookup]. destruct (String.eqb k k') eqn:E; [discriminate|].
  intros H. destruct (f (k', v')); [|exact (IH H)].
  cbn [Dict.lookup]. rewrite E. exact (IH H).
Qed.

Lemma lookup_filter_distinct {A : Type} (f : string * A -> bool) (k : string)
  (d : dict A) :
  Tree.distinct (Dict.keys d) = true ->
  Dict.lookup k (filter f d)
  = match Dict.lookup k d with
    | Some v => if f (k, v) then Some v else None
    | None => None
    end.
Proof.
  induction d as [|[k' v'] d IH]; intros Hd; [reflexivity|].
  cbn [Dict.keys map fst] in Hd.
  assert (Hk : Dict.mem k' d = false).
  { rewrite mem_keys. cbn [Tree.distinct] in Hd. apply andb_prop in Hd.
    apply negb_true_iff. exact (proj1 Hd). }
  apply distinct_cons in Hd. destruct Hd as [_ Hd].
  cbn [filter Dict.lookup]. destruct (String.eqb_spec k k') as [E|E].
  - subst k'. destruct (f (k, v')).
    + cbn [Dict.lookup]. rewrite String.eqb_refl. reflexivity.
    + apply lookup_filter_none, lookup_none_mem, Hk.
  - destruct (f (k', v')); [|exact (IH Hd)].
    cbn [Dict.lookup]. apply String.eqb_neq in E. rewrite E. exact (IH Hd).
Qed.

(** X17.  The three loops of [to_json] write into one dictionary, so a
    key is not kept apart by what it names: for a node whose dictionaries
    have one entry per key, the serialization holds under [k] the
    serialization of the child named [k] if there is one and it is not
    transient; otherwise the attribute [k] if there is one; otherwise the
    config entry [k], if any.  A child hides an attribute or a config
    entry of its name, and a transient child is not written. *)
Theorem to_json_lookup (n : Node.t) (k : string) :
  Tree.distinct (Dict.keys (Node.config n)) = true ->
  Tree.distinct (Dict.keys (Node.attributes n)) = true ->
  Tree.distinct (Dict.keys (Node.children n)) = true ->
  let entry :=
    match Dict.lookup k (Node.attributes n) with
    | Some v => Some v
    | None => Dict.lookup k (Node.config n)
    end in
  Dict.lookup k (Node.to_json n)
  = match Dict.lookup k (Node.children n) with
    | Some c => if Node.transient c then entry else Some (JDict (Node.to_json c))
    | None => entry
    end.
Proof.
  intros Hc Ha Hn entry. rewrite to_json_eq.
  rewrite (fold_skip_update (fun kc => Node.transient (snd kc)) fst
             (fun kc => JDict (Node.to_json (snd kc)))).
  rewrite lookup_update.
  2:{ rewrite (keys_map_values (fun c => JDict (Node.to_json c))).
      apply distinct_filter, Hn. }
  rewrite (lookup_map_values (fun c => JDict (Node.to_json c))).
  rewrite lookup_filter_distinct by exact Hn. cbn [snd].
  change (fold_left (fun out kv => Dict.set (fst kv) (snd kv) out)
            (Node.attributes n)
            (fold_left (fun out kv => Dict.set (fst kv) (snd kv) out)
               (Node.config n) []))
    with (Dict.update (Dict.update [] (Node.config n)) (Node.attributes n)).
  rewrite !lookup_update by assumption. cbn [Dict.lookup].
  assert (E : match Dict.lookup k (Node.attributes n) with
              | Some v => Some v
              | None =>
                  match Dict.lookup k (Node.config n) with
                  | Some v => Some v
                  | None => None
                  end
              end = entry).
  { unfold entry. destruct (Dict.lookup k (Node.attributes n)); [reflexivity|].
    destruct (Dict.lookup k (Node.config n)); reflexivity. }
  rewrite E.
  destruct (Dict.lookup k (Node.children n)) as [c|]; [|reflexivity].
  destruct (Node.transient c); reflexivity.
Qed.

Lemma to_json_lookup_witness :
  Tree.distinct (Dict.keys (Node.config Trees.site)) = true /\
  Tree.distinct (Dict.keys (Node.attributes Trees.site)) = true /\
  Tree.distinct (Dict.keys (Node.children Trees.site)) = true /\
  Dict.lookup "scratch" (Node.to_json Trees.site) = None /\
  Dict.lookup "@site" (Node.to_json Trees.site) = Some (JStr "north").
Proof.
  split; [reflexivity|]. split; [reflexivity|]. split; [reflexivity|].
  split.
  - exact (to_json_lookup Trees.site "scratch" eq_refl eq_refl eq_refl).
  - exact (to_json_lookup Trees.site "@site" eq_refl eq_refl eq_refl).
Defined.

(** ** Names and paths *)

Lemma append_cancel (s a b : string) :
  (s ++ a)%string = (s ++ b)%string -> a = b.
Proof.
  induction s as [|c s IH]; intros H; [exact H|].
  cbn [String.append] in H. injection H as H. exact (IH H).
Qed.

Lemma startswith_append (s x : string) : Py.startswith s (s ++ x) = true.
Proof.
  induction s as [|c s IH]; [reflexivity|].
  cbn [String.append Py.startswith]. rewrite Ascii.eqb_refl. exact IH.
Qed.

(** X18.  Under one parent, nodes constructed with different names have
    different paths; the path of each begins with the path of the parent
    and ends with the name. *)
Theorem init_path_injective (a b : string) (parent : Node.t) (sa sb : bool) :
  exists n m,
    Node.init (Some a) (Some parent) sa = Py.Ok n /\
    Node.init (Some b) (Some parent) sb = Py.Ok m /\
    (Node.path n = Node.path m -> a = b) /\
    Py.startswith (Node.path parent) (Node.path n) = true /\
    Py.endswith a (Node.path n) = true.
Proof.
  exists (Node.fresh a (Built.child_path (Node.path parent) a) sa),
         (Node.fresh b (Built.child_path (Node.path parent) b) sb).
  rewrite !(init_child_path _ (Some parent)).
  split; [reflexivity|]. split; [reflexivity|].
  cbn [Node.fresh Node.path]. unfold Built.child_path.
  destruct (Py.endswith "/" (Node.path parent)).
  - split; [apply append_cancel|].
    split; [apply startswith_append|].
    apply endswith_iff. exists (Node.path parent). reflexivity.
  - split.
    { intros H. apply append_cancel in H. apply append_cancel in H. exact H. }
    split; [apply startswith_append|].
    apply endswith_iff. exists (Node.path parent ++ "/")%string.
    rewrite append_assoc. reflexivity.
Qed.

(** ** The declared type *)

(** X19.  [set_type] keeps the declared type of the value and the config
    entry [$type] in agreement: afterwards [get_type] returns the type,
    the value declares it, and the value held and every other config
    entry are as before.  A node that was just constructed has no type:
    [get_type] raises [KeyError] on it. *)
Theorem set_type_get_type (ty : json) (self : Node.t) (link : DSLink.t) :
  let self' := fst (Node.set_type ty self link) in
  Node.get_type self' = Py.Ok ty /\
  Value.type (Node.value self') = Some ty /\
  Value.held (Node.value self') = Value.held (Node.value self) /\
  (forall k, k <> "$type" -> Node.get_config k self' = Node.get_config k self) /\
  forall nm parent standalone n,
    Node.init nm parent standalone = Py.Ok n ->
    Node.get_type n = Py.Raise Py.KeyError.
Proof.
  intros self'. unfold Node.set_type in self'.
  set (typed := Node.with_value (Value.set_type ty (Node.value self)) self)
    in self'.
  destruct (set_config_stored "$type" ty typed link) as (Hco & _).
  fold self' in Hco.
  assert (Hval : Node.value self' = Node.value typed).
  { unfold self'. rewrite set_config_eq. cbn [fst].
    destruct (notified_fields
                (Node.with_config (Dict.set "$type" ty (Node.config typed)) typed))
      as (_ & _ & _ & Hv & _).
    exact Hv. }
  unfold Node.get_type, Node.get_config. rewrite Hco, Hval.
  split; [rewrite getitem_set; reflexivity|].
  split; [reflexivity|]. split; [reflexivity|].
  split.
  { intros k Hk. rewrite getitem_set. apply String.eqb_neq in Hk.
    rewrite Hk. reflexivity. }
  intros nm parent standalone n Hn.
  assert (Hc : Node.config n = [("$is", JStr "node")]).
  { unfold Node.init in Hn.
    destruct parent as [p|]; destruct nm as [s|]; try discriminate;
      try destruct (Py.endswith "/" (Node.path p));
      injection Hn as <-; reflexivity. }
  rewrite Hc. reflexivity.
Qed.

(** ** Callbacks of a value assignment *)

(** X20.  [set_value] runs callbacks only if the value changed, the node
    is attached or the link active, and [trigger_callback] is set: first
    the callable installed on the node, if any, then the set callback of
    the profile named by [$is].  A profile that the manager does not know
    is passed over silently.  A node without [$is] makes the call raise
    [KeyError]; this happens after the value was stored, the subscribers
    were notified and the installed callable was run. *)
Theorem set_value_callbacks (v : json) (tc : bool) (now : datetime)
  (self : Node.t) (link : DSLink.t) :
  let changed := Value.changes v (Node.value self) in
  let notifying :=
    changed && (negb (Node.standalone self) || DSLink.active link) in
  let legacy :=
    if Node.set_value_callback self
    then [DSLink.SetValueCallback (Node.path self) v] else [] in
  let '(r, self', link') := Node.set_value v tc now self link in
  self' = Node.with_value (snd (Value.set_value v now (Node.value self))) self /\
  DSLink.wsp link'
  = DSLink.wsp link ++ (if notifying then value_messages self' else []) /\
  (if notifying && tc then
     match Node.get_config "$is" self with
     | Py.Ok profile =>
         r = Py.Ok changed /\
         DSLink.calls link'
         = DSLink.calls link ++ legacy ++
           (if existsb (json_eqb profile) (DSLink.profile_manager link)
            then [DSLink.RunSetCallback profile (Node.path self) v] else [])
     | Py.Raise e =>
         e = Py.KeyError /\ r = Py.Raise Py.KeyError /\
         DSLink.calls link' = DSLink.calls link ++ legacy
     end
   else r = Py.Ok changed /\ DSLink.calls link' = DSLink.calls link).
Proof.
  intros changed notifying legacy.
  unfold Node.set_value, Value.set_value. fold changed.
  set (stored := Node.with_value
                   (snd (if changed
                         then (true, Value.mk (Value.type (Node.value self))
                                       (Some (v, now)))
                         else (false, Node.value self))) self).
  assert (Hcalls : forall l, DSLink.calls (send_all (value_messages stored) l)
                             = DSLink.calls l).
  { intros l. unfold send_all. generalize (value_messages stored).
    intros msgs. revert l. induction msgs as [|m msgs IH]; intros l;
      [reflexivity|].
    cbn [fold_left]. rewrite IH. reflexivity. }
  assert (Hpm : forall l, DSLink.profile_manager (send_all (value_messages stored) l)
                          = DSLink.profile_manager l).
  { intros l. unfold send_all. generalize (value_messages stored).
    intros msgs. revert l. induction msgs as [|m msgs IH]; intros l;
      [reflexivity|].
    cbn [fold_left]. rewrite IH. reflexivity. }
  destruct changed eqn:Hch; cbn [andb] in notifying; unfold notifying;
    cbn [snd] in stored.
  2:{ cbn [andb]. split; [reflexivity|].
      split; [symmetry; apply app_nil_r|]. split; reflexivity. }
  change (Node.standalone (Node.with_value
            (Value.mk (Value.type (Node.value self)) (Some (v, now))) self))
    with (Node.standalone self).
  fold stored.
  destruct (negb (Node.standalone self) || DSLink.active link); cbn [andb].
  2:{ split; [reflexivity|].
      split; [symmetry; apply app_nil_r|]. split; reflexivity. }
  rewrite update_subscribers_values_eq.
  destruct tc.
  2:{ split; [reflexivity|].
      split; [apply wsp_send_all|]. split; [reflexivity|apply Hcalls]. }
  change (Node.set_value_callback stored) with (Node.set_value_callback self).
  change (Node.get_config "$is" stored) with (Node.get_config "$is" self).
  change (Node.path stored) with (Node.path self).
  unfold Node.get_config, Dict.getitem.
  destruct (Dict.lookup "$is" (Node.config self)) as [profile|].
  - unfold DSLink.get_profile.
    assert (Hpm' : DSLink.profile_manager
                     (if Node.set_value_callback self
                      then DSLink.record_call
                             (DSLink.SetValueCallback (Node.path self) v)
                             (send_all (value_messages stored) link)
                      else send_all (value_messages stored) link)
                   = DSLink.profile_manager link).
    { destruct (Node.set_value_callback self); [cbn [DSLink.record_call
        DSLink.profile_manager]|]; apply Hpm. }
    rewrite Hpm'.
    destruct (existsb (json_eqb profile) (DSLink.profile_manager link));
      (split; [reflexivity|]); unfold legacy;
      destruct (Node.set_value_callback self);
      cbn [DSLink.record_call DSLink.wsp DSLink.calls];
      rewrite ?wsp_send_all, ?Hcalls, ?app_nil_r, <- ?app_assoc;
      repeat split; reflexivity.
  - split; [reflexivity|]. unfold legacy.
    destruct (Node.set_value_callback self);
      cbn [DSLink.record_call DSLink.wsp DSLink.calls];
      rewrite ?wsp_send_all, ?Hcalls, ?app_nil_r; repeat split; reflexivity.
Qed.

(** ** Padding of a token *)

Lemma add_padding_loop_eq (turns : nat) (s : string) :
  DSLink.add_padding_loop turns s
  = if Nat.eqb (String.length s mod 4) 0 then s
    else
      match turns with
      | O => s
      | S turns' => DSLink.add_padding_loop turns' (s ++ "=")
      end.
Proof. destruct turns; reflexivity. Qed.

Lemma add_padding_loop_pads (turns : nat) (s : string) :
  (4 - String.length s mod 4) mod 4 <= turns ->
  DSLink.add_padding_loop turns s
  = (s ++ string_of_list_ascii
            (repeat "="%char ((4 - String.length s mod 4) mod 4)))%string.
Proof.
  revert s. induction turns as [|turns IH]; intros s Hn;
    rewrite add_padding_loop_eq;
    destruct (Nat.eqb_spec (String.length s mod 4) 0) as [E|E].
  - rewrite E. cbn. symmetry. apply append_empty.
  - pose proof (Nat.mod_upper_bound (String.length s) 4 ltac:(lia)) as Hb.
    exfalso. revert Hn.
    destruct (String.length s mod 4) as [|[|[|[|m]]]]; cbn; lia.
  - rewrite E. cbn. symmetry. apply append_empty.
  - pose proof (Nat.mod_upper_bound (String.length s) 4 ltac:(lia)) as Hb.
    assert (Hlen : String.length (s ++ "=") mod 4
                   = (String.length s mod 4 + 1) mod 4).
    { rewrite length_append. cbn [String.length].
      rewrite Nat.Div0.add_mod_idemp_l. reflexivity. }
    rewrite IH; rewrite Hlen.
    + rewrite append_assoc. f_equal.
      destruct (String.length s mod 4) as [|[|[|[|m]]]]; try reflexivity; lia.
    + revert Hn.
      destruct (String.length s mod 4) as [|[|[|[|m]]]]; cbn; lia.
Qed.

Lemma add_padding_eq (s : string) :
  DSLink.add_padding s
  = (s ++ string_of_list_ascii
            (repeat "="%char ((4 - String.length s mod 4) mod 4)))%string.
Proof.
  apply add_padding_loop_pads.
  pose proof (Nat.mod_upper_bound (4 - String.length s mod 4) 4 ltac:(lia)).
  lia.
Qed.

Lemma length_pad (n : nat) :
  String.length (string_of_list_ascii (repeat "="%char n)) = n.
Proof. induction n as [|n IH]; [reflexivity|]. cbn. rewrite IH. reflexivity. Qed.

(** X21.  [add_padding] returns its argument followed by at most three
    padding characters, as few as make the length a multiple of four: the
    loop ends within three turns.  A string whose length is a multiple of
    four is returned as it is, so padding twice is padding once. *)
Theorem add_padding_aligned (s : string) :
  let n := (4 - String.length s mod 4) mod 4 in
  DSLink.add_padding s
  = (s ++ string_of_list_ascii (repeat "="%char n))%string /\
  n <= 3 /\
  String.length (DSLink.add_padding s) mod 4 = 0 /\
  (String.length s mod 4 = 0 -> DSLink.add_padding s = s) /\
  DSLink.add_padding (DSLink.add_padding s) = DSLink.add_padding s.
Proof.
  intros n.
  assert (Hn : n <= 3).
  { pose proof (Nat.mod_upper_bound (4 - String.length s mod 4) 4 ltac:(lia)).
    unfold n. lia. }
  assert (Hal : String.length (DSLink.add_padding s) mod 4 = 0).
  { rewrite add_padding_eq, length_append, length_pad. fold n.
    pose proof (Nat.mod_upper_bound (String.length s) 4 ltac:(lia)) as Hb.
    rewrite <- Nat.Div0.add_mod_idemp_l. unfold n.
    destruct (String.length s mod 4) as [|[|[|[|m]]]]; try reflexivity; lia. }
  split; [apply add_padding_eq|]. split; [exact Hn|]. split; [exact Hal|].
  split.
  - intros E. rewrite add_padding_eq, E. cbn. apply append_empty.
  - rewrite (add_padding_eq (DSLink.add_padding s)), Hal. cbn.
    apply append_empty.
Qed.

Lemma add_padding_quad (a b c d : ascii) (s : string) :
  DSLink.add_padding (String a (String b (String c (String d s))))
  = String a (String b (String c (String d (DSLink.add_padding s)))).
Proof.
  rewrite !add_padding_eq. cbn [String.length String.append].
  replace (S (S (S (S (String.length s)))) mod 4) with (String.length s mod 4).
  - reflexivity.
  - replace (S (S (S (S (String.length s))))) with (String.length s + 1 * 4)
      by lia.
    symmetry. apply Nat.Div0.mod_add.
Qed.

Lemma b64url_char_urlsafe (d : Z) :
  (0 <= d < 64)%Z -> Alphabet.urlsafe (Crypto.b64url_char d) = true.
Proof.
  intros Hd.
  assert (E : d = Z.of_nat (Z.to_nat d)) by lia.
  assert (Hn : Z.to_nat d < 64) by lia.
  rewrite E. clear E Hd. revert Hn. generalize (Z.to_nat d) as n. intros n Hn.
  do 64 (destruct n as [|n]; [reflexivity|]). lia.
Qed.

(** The token of a byte sequence: its encoding without the padding. *)
Lemma token_shape (bytes : list Z) :
  Forall (fun b => (0 <= b < 256)%Z) bytes ->
  let token :=
    Py.replace "=" "" (string_of_list_ascii (Crypto.b64url bytes)) in
  String.length token = (4 * List.length bytes + 2) / 3 /\
  Alphabet.all_urlsafe token = true /\
  DSLink.add_padding token = string_of_list_ascii (Crypto.b64url bytes).
Proof.
  revert bytes. fix IH 1. intros [|b0 [|b1 [|b2 rest]]] Hr.
  - repeat split.
  - inversion_clear Hr as [|? ? H0 _].
    cbn [Crypto.b64url string_of_list_ascii]. cbv zeta.
    rewrite !replace_pad_cons.
    rewrite !b64url_char_not_pad by sextet_range.
    change (Ascii.eqb Crypto.pad_char "=") with true. cbv iota.
    change (Py.replace "=" "" "") with "".
    split; [reflexivity|].
    split; [|reflexivity].
    cbn [Alphabet.all_urlsafe]. rewrite !b64url_char_urlsafe by sextet_range.
    reflexivity.
  - inversion_clear Hr as [|? ? H0 Hr']. inversion_clear Hr' as [|? ? H1 _].
    cbn [Crypto.b64url string_of_list_ascii]. cbv zeta.
    rewrite !replace_pad_cons.
    rewrite !b64url_char_not_pad by sextet_range.
    change (Ascii.eqb Crypto.pad_char "=") with true. cbv iota.
    change (Py.replace "=" "" "") with "".
    split; [reflexivity|].
    split; [|reflexivity].
    cbn [Alphabet.all_urlsafe]. rewrite !b64url_char_urlsafe by sextet_range.
    reflexivity.
  - inversion_clear Hr as [|? ? H0 Hr']. inversion_clear Hr' as [|? ? H1 Hr].
    inversion_clear Hr as [|? ? H2 Hr'].
    destruct (IH rest Hr') as (Hlen & Hsafe & Hpad).
    cbn [Crypto.b64url string_of_list_ascii]. cbv zeta.
    rewrite !replace_pad_cons.
    rewrite !b64url_char_not_pad by sextet_range.
    split.
    { cbn [String.length List.length]. rewrite Hlen.
      replace (4 * S (S (S (List.length rest))) + 2)
        with ((4 * List.length rest + 2) + 4 * 3) by lia.
      rewrite Nat.div_add by lia. lia. }
    split.
    { cbn [Alphabet.all_urlsafe].
      rewrite !b64url_char_urlsafe by sextet_range. exact Hsafe. }
    rewrite add_padding_quad, Hpad. reflexivity.
Qed.

Lemma length_bytes_of_string (s : string) :
  List.length (Crypto.bytes_of_string s) = String.length s.
Proof.
  unfold Crypto.bytes_of_string. rewrite length_map.
  induction s as [|c s IH]; [reflexivity|]. cbn. rewrite IH. reflexivity.
Qed.

Lemma length_string_of_bytes (l : list Z) :
  String.length (Crypto.string_of_bytes l) = List.length l.
Proof.
  unfold Crypto.string_of_bytes.
  induction l as [|b l IH]; [reflexivity|]. cbn. rewrite IH. reflexivity.
Qed.

Lemma length_sha256 (s : string) : String.length (Crypto.sha256 s) = 32.
Proof.
  unfold Crypto.sha256. rewrite length_string_of_bytes.
  unfold Crypto.digest_bytes. cbv zeta.
  rewrite !length_app. unfold Crypto.be32. rewrite !length_map. reflexivity.
Qed.

(** X22.  Once the broker has supplied a salt, the token that [get_auth]
    returns has forty-three characters, each a letter, a digit, a hyphen
    or an underscore, so that it needs no escaping in the query of the
    connect address; and [add_padding] gives back the encoding that the
    token was cut from.  Before the handshake has answered, [get_auth]
    raises [TypeError]. *)
Theorem get_auth_token_shape (l : DSLink.t) :
  match DSLink.server_config l with
  | Some sc =>
      exists token,
        DSLink.get_auth l = Py.Ok token /\
        String.length token = 43 /\
        Alphabet.all_urlsafe token = true /\
        DSLink.add_padding token
        = Crypto.urlsafe_b64encode
            (Crypto.sha256 (DSLink.salt sc ++ DSLink.shared_secret l))
  | None => DSLink.get_auth l = Py.Raise Py.TypeError
  end.
Proof.
  unfold DSLink.get_auth.
  destruct (DSLink.server_config l) as [sc|]; [|reflexivity].
  cbv zeta. unfold Crypto.urlsafe_b64encode.
  generalize (Crypto.sha256 (DSLink.salt sc ++ DSLink.shared_secret l))
    (length_sha256 (DSLink.salt sc ++ DSLink.shared_secret l)).
  intros digest Hlen.
  destruct (token_shape (Crypto.bytes_of_string digest)
              (bytes_of_string_range digest)) as (H1 & H2 & H3).
  eexists. split; [reflexivity|].
  rewrite length_bytes_of_string, Hlen in H1.
  split; [exact H1|]. split; [exact H2|exact H3].
Qed.

(** ** Invoking an action *)

(** X23.  [invoke] never raises [ValueError]: one raised by the lookup of
    the profile, or by the callback itself, makes it return the pair of two
    empty lists, the configured columns dropped.  Otherwise it returns
    the entry [$columns], or an empty list when there is none, with what
    the callback returned, and raises what the callback raised.  A node
    without [$is] makes it raise [KeyError], and the callback is not
    run. *)
Theorem invoke_outcome
  (run_callback :
     json -> Node.t -> json -> DSLink.t
     -> Py.outcome json * Node.t * DSLink.t)
  (params : json) (self : Node.t) (link : DSLink.t) :
  let columns :=
    match Dict.lookup "$columns" (Node.config self) with
    | Some c => c
    | None => JList []
    end in
  let '(r, self', link') := Node.invoke run_callback params self link in
  r <> Py.Raise Py.ValueError /\
  match Dict.lookup "$is" (Node.config self) with
  | None => r = Py.Raise Py.KeyError /\ self' = self /\ link' = link
  | Some profile =>
      if existsb (json_eqb profile) (DSLink.profile_manager link)
      then
        let '(rc, self1, link1) := run_callback profile self params link in
        self' = self1 /\ link' = link1 /\
        r = match rc with
            | Py.Ok rows => Py.Ok (columns, rows)
            | Py.Raise Py.ValueError => Py.Ok (JList [], JList [])
            | Py.Raise e => Py.Raise e
            end
      else r = Py.Ok (JList [], JList []) /\ self' = self /\ link' = link
  end.
Proof.
  intros columns. unfold Node.invoke, Node.get_config, Dict.getitem, Dict.mem.
  assert (Hcol : (if match Dict.lookup "$columns" (Node.config self) with
                     | Some _ => true
                     | None => false
                     end
                  then match Dict.lookup "$columns" (Node.config self) with
                       | Some v => Py.Ok v
                       | None => Py.Raise Py.KeyError
                       end
                  else Py.Ok (JList [])) = Py.Ok columns).
  { unfold columns.
    destruct (Dict.lookup "$columns" (Node.config self)); reflexivity. }
  rewrite Hcol.
  destruct (Dict.lookup "$is" (Node.config self)) as [profile|].
  - unfold DSLink.get_profile.
    destruct (existsb (json_eqb profile) (DSLink.profile_manager link)).
    + destruct (run_callback profile self params link) as [[rc self1] link1].
      destruct rc as [rows|[]]; cbn [Py.bind Py.try_except Py.exn_eqb];
        repeat split; discriminate.
    + cbn [Py.try_except Py.exn_eqb]. repeat split. discriminate.
  - cbn [Py.try_except Py.exn_eqb]. repeat split. discriminate.
Qed.

(** ** The example link *)

Lemma add_seconds_eq (rehash : dict Node.t -> dict Node.t) (ys : list nat)
  (first : Node.t) (link : DSLink.t) :
  Dict.arrangement rehash ->
  Node.streams first = [] ->
  Tree.distinct (map LargeNodeStructure.test_name ys) = true ->
  (forall y, In y ys ->
     Dict.mem (LargeNodeStructure.test_name y) (Node.children first) = false) ->
  exists leaves,
    LargeNodeStructure.add_seconds rehash ys first link
    = (Py.Ok tt, Node.with_children leaves first,
       match ys with
       | [] => link
       | _ :: _ => DSLink.with_nodes_changed true link
       end) /\
    Permutation leaves
      (Node.children first ++
       map (fun y => (LargeNodeStructure.test_name y,
                      Large.leaf (Node.path first) y)) ys).
Proof.
  intros Hr. revert first link.
  induction ys as [|y ys IH]; intros first link Hs Hd Hfresh.
  - exists (Node.children first).
    cbn [LargeNodeStructure.add_seconds map]. rewrite app_nil_r.
    split; [destruct first; reflexivity|reflexivity].
  - cbn [map] in Hd. apply distinct_cons in Hd. destruct Hd as [Hne Hd].
    cbn [LargeNodeStructure.add_seconds].
    rewrite (init_child_path _ (Some first)).
    fold (Large.leaf (Node.path first) y).
    rewrite add_child_quiet; [|exact Hs|apply Hfresh; left; reflexivity].
    change (Node.name (Large.leaf (Node.path first) y))
      with (LargeNodeStructure.test_name y).
    set (entry := (LargeNodeStructure.test_name y, Large.leaf (Node.path first) y)).
    pose proof (Hr (Node.children first ++ [entry])) as Hperm.
    destruct (IH (Node.with_children (rehash (Node.children first ++ [entry]))
                    first)
                (DSLink.with_nodes_changed true link) Hs Hd)
      as (leaves & E & Hleaves).
    { intros y' Hin. cbn [Node.with_children Node.children].
      rewrite (mem_perm _ _ _ (Permutation_sym Hperm)).
      unfold entry.
      rewrite mem_app, (Hfresh y' (or_intror Hin)), mem_cons, mem_nil.
      destruct (String.eqb_spec (LargeNodeStructure.test_name y')
                  (LargeNodeStructure.test_name y)) as [Ey|Ey]; [|reflexivity].
      exfalso. apply (Hne (LargeNodeStructure.test_name y')); [|exact Ey].
      apply in_map, Hin. }
    exists leaves. rewrite E. split.
    + cbn [Node.with_children]. destruct ys; reflexivity.
    + cbn [Node.with_children Node.children Node.path map] in Hleaves |- *.
      rewrite Hleaves, Hperm, <- app_assoc. reflexivity.
Qed.

Lemma notified_path (self : Node.t) :
  Node.path (notified self) = Node.path self.
Proof. unfold notified. destruct (Node.streams self); reflexivity. Qed.

(** One turn of the outer loop: a branch is built and added. *)
Lemma add_firsts_eq (rehash : dict Node.t -> dict Node.t) (x : nat)
  (xs : list nat) (super_root : Node.t) (link : DSLink.t) :
  Dict.arrangement rehash ->
  exists b,
    Large.is_branch (Node.path super_root) x b /\
    LargeNodeStructure.add_firsts rehash (x :: xs) super_root link
    = match
        Node.add_child rehash b super_root (DSLink.with_nodes_changed true link)
      with
      | (Py.Raise e, super_root, link) => (Py.Raise e, super_root, link)
      | (Py.Ok _, super_root, link) =>
          LargeNodeStructure.add_firsts rehash xs super_root link
      end.
Proof.
  intros Hr. cbn [LargeNodeStructure.add_firsts].
  rewrite (init_child_path _ (Some super_root)).
  set (first := Node.fresh _ _ false).
  destruct (add_seconds_eq rehash (seq 0 10) first link Hr eq_refl eq_refl)
    as (leaves & E & Hleaves).
  { intros y _. reflexivity. }
  rewrite E. exists (Node.with_children leaves first).
  split; [|reflexivity].
  exists leaves. split; [reflexivity|exact Hleaves].
Qed.

Lemma is_branch_name (parent_path : string) (x : nat) (b : Node.t) :
  Large.is_branch parent_path x b ->
  Node.name b = LargeNodeStructure.test_name x.
Proof. intros (leaves & -> & _). reflexivity. Qed.

Lemma add_firsts_taken (rehash : dict Node.t -> dict Node.t) (xs : list nat)
  (super_root : Node.t) (link : DSLink.t) :
  Dict.arrangement rehash ->
  existsb
    (fun x => Node.has_child (LargeNodeStructure.test_name x) super_root) xs
  = true ->
  fst (fst (LargeNodeStructure.add_firsts rehash xs super_root link))
  = Py.Raise Py.ValueError.
Proof.
  intros Hr. revert super_root link.
  induction xs as [|x xs IH]; intros root link H; [discriminate|].
  destruct (add_firsts_eq rehash x xs root link Hr) as (b & Hb & ->).
  pose proof (is_branch_name _ _ _ Hb) as Hname.
  cbn [existsb] in H. unfold Node.has_child at 1 in H. rewrite <- Hname in H.
  destruct (Dict.mem (Node.name b) (Node.children root)) eqn:Hmem.
  - unfold Node.add_child. rewrite Hmem. reflexivity.
  - cbn [orb] in H.
    rewrite (add_child_fresh rehash _ root _ Hmem).
    set (added := Node.with_children _ root).
    assert (Hmono : forall root',
              Node.children root' = Node.children added ->
              existsb
                (fun x => Node.has_child (LargeNodeStructure.test_name x) root')
                xs = true).
    { intros root' Hch. apply existsb_exists in H.
      destruct H as (x' & Hin & Hx'). apply existsb_exists.
      exists x'. split; [exact Hin|].
      unfold Node.has_child in *. rewrite Hch. unfold added.
      cbn [Node.with_children Node.children].
      rewrite (mem_perm _ _ _ (Permutation_sym (Hr _))).
      rewrite mem_app, Hx'. reflexivity. }
    destruct (Node.standalone root
              || DSLink.active (DSLink.with_nodes_changed true link)).
    + apply IH, Hmono.
      destruct (notified_fields added) as (_ & _ & _ & _ & Hch & _).
      exact Hch.
    + apply IH, Hmono. reflexivity.
Qed.

Lemma add_firsts_built (rehash : dict Node.t -> dict Node.t) (xs : list nat)
  (super_root : Node.t) (link : DSLink.t) :
  Dict.arrangement rehash ->
  Tree.distinct (map LargeNodeStructure.test_name xs) = true ->
  (forall x, In x xs ->
     Node.has_child (LargeNodeStructure.test_name x) super_root = false) ->
  exists branches root' link',
    LargeNodeStructure.add_firsts rehash xs super_root link
    = (Py.Ok tt, root', link') /\
    Permutation (Node.children root') (Node.children super_root ++ branches) /\
    Forall2
      (fun x kb =>
         fst kb = LargeNodeStructure.test_name x /\
         Large.is_branch (Node.path super_root) x (snd kb))
      xs branches /\
    Node.config root' = Node.config super_root /\
    Node.attributes root' = Node.attributes super_root /\
    Node.path root' = Node.path super_root /\
    Node.standalone root' = Node.standalone super_root /\
    Node.streams root' = Node.streams super_root /\
    DSLink.active link' = DSLink.active link /\
    DSLink.nodes_changed link'
    = match xs with
      | [] => DSLink.nodes_changed link
      | _ :: _ => true
      end /\
    List.length (DSLink.wsp link')
    = List.length (DSLink.wsp link) +
      (if Node.standalone super_root || DSLink.active link
       then match Node.streams super_root with
            | [] => 0
            | _ :: _ => List.length xs
            end
       else 0).
Proof.
  intros Hr. revert super_root link.
  induction xs as [|x xs IH]; intros root link Hd Hfree.
  - exists [], root, link. cbn [LargeNodeStructure.add_firsts List.length].
    rewrite app_nil_r. repeat split; try reflexivity; [constructor|].
    destruct (Node.standalone root || DSLink.active link);
      [destruct (Node.streams root)|]; lia.
  - cbn [map] in Hd. apply distinct_cons in Hd. destruct Hd as [Hne Hd].
    destruct (add_firsts_eq rehash x xs root link Hr) as (b & Hb & ->).
    pose proof (is_branch_name _ _ _ Hb) as Hname.
    assert (Hmem : Dict.mem (Node.name b) (Node.children root) = false)
      by (rewrite Hname; apply (Hfree x); left; reflexivity).
    rewrite (add_child_fresh rehash _ root _ Hmem).
    set (link1 := DSLink.with_nodes_changed true
                    (DSLink.with_nodes_changed true link)).
    set (added := Node.with_children _ root).
    pose proof (Hr (Node.children root ++ [(Node.name b, b)])) as Hperm.
    assert (Hstep : exists root1 link2,
              (if Node.standalone root
                  || DSLink.active (DSLink.with_nodes_changed true link)
               then (Py.Ok tt, notified added,
                     snd (Node.update_subscribers added link1))
               else (Py.Ok tt, added, link1))
              = (Py.Ok tt, root1, link2) /\
              Node.children root1 = Node.children added /\
              Node.config root1 = Node.config root /\
              Node.attributes root1 = Node.attributes root /\
              Node.path root1 = Node.path root /\
              Node.standalone root1 = Node.standalone root /\
              Node.streams root1 = Node.streams root /\
              DSLink.active link2 = DSLink.active link /\
              DSLink.nodes_changed link2 = true /\
              List.length (DSLink.wsp link2)
              = List.length (DSLink.wsp link) +
                (if Node.standalone root || DSLink.active link
                 then match Node.streams root with
                      | [] => 0
                      | _ :: _ => 1
                      end
                 else 0)).
    { change (DSLink.active (DSLink.with_nodes_changed true link))
        with (DSLink.active link).
      destruct (Node.standalone root || DSLink.active link).
      - destruct (notified_fields added)
          as (_ & Hsa & _ & _ & Hch & Hco & Hat & _ & Hst).
        eexists; eexists. split; [reflexivity|].
        rewrite Hch, Hco, Hat, Hsa, Hst, notified_path.
        rewrite update_subscribers_wsp, length_app.
        rewrite update_subscribers_nodes_changed by reflexivity.
        repeat split; try reflexivity.
        + rewrite update_subscribers_eq.
          destruct (Node.streams added); [reflexivity|].
          cbn [snd DSLink.sendMessage DSLink.active].
          destruct (Node.removed_children added); reflexivity.
        + unfold structural_messages.
          change (Node.streams added) with (Node.streams root).
          destruct (Node.streams root); reflexivity.
      - eexists; eexists. split; [reflexivity|].
        repeat split; try reflexivity.
        cbn [link1 DSLink.with_nodes_changed DSLink.wsp]. lia. }
    destruct Hstep as (root1 & link2 & -> & Hch1 & Hco1 & Hat1 & Hp1 & Hsa1
                       & Hst1 & Hac1 & Hnc1 & Hw1).
    unfold added in Hch1. cbn [Node.with_children Node.children] in Hch1.
    destruct (IH root1 link2 Hd)
      as (branches & root' & link' & E & Hch & Hall & Hco & Hat & Hp
          & Hsa & Hst & Hac & Hnc & Hw).
    { intros x' Hin. unfold Node.has_child. rewrite Hch1.
      rewrite (mem_perm _ _ _ (Permutation_sym Hperm)).
      rewrite mem_app, mem_cons, mem_nil.
      pose proof (Hfree x' (or_intror Hin)) as Hx'. unfold Node.has_child in Hx'.
      rewrite Hx', Hname.
      destruct (String.eqb_spec (LargeNodeStructure.test_name x')
                  (LargeNodeStructure.test_name x)) as [Ex|Ex]; [|reflexivity].
      exfalso. apply (Hne (LargeNodeStructure.test_name x')); [|exact Ex].
      apply in_map, Hin. }
    exists ((Node.name b, b) :: branches), root', link'.
    split; [exact E|].
    rewrite Hco, Hat, Hp, Hsa, Hst, Hac, Hw.
    rewrite Hco1, Hat1, Hp1, Hsa1, Hst1, Hac1, Hw1.
    cbn [List.length].
    split.
    { rewrite Hch, Hch1, Hperm, <- app_assoc. reflexivity. }
    split.
    { constructor; [split; [exact Hname|exact Hb]|].
      rewrite Hp1 in Hall. exact Hall. }
    repeat split; try reflexivity.
    + rewrite Hnc. destruct xs; [exact Hnc1|reflexivity].
    + destruct (Node.standalone root || DSLink.active link);
        [destruct (Node.streams root)|]; lia.
Qed.

Lemma is_branch_placed (parent_path : string) (x : nat) (b : Node.t) :
  Large.is_branch parent_path x b ->
  Node.path b
  = Built.child_path parent_path (LargeNodeStructure.test_name x) /\
  Node.config b = [("$is", JStr "node")] /\
  Built.placed b = true /\
  Permutation (Dict.keys (Node.children b))
    (map LargeNodeStructure.test_name (seq 0 10)) /\
  forall y, y < 10 ->
    Dict.lookup (LargeNodeStructure.test_name y) (Node.children b)
    = Some (Large.leaf (Node.path b) y).
Proof.
  intros (leaves & -> & Hperm).
  cbn [Node.with_children Node.fresh Node.path Node.config Node.children]
    in Hperm |- *.
  set (pth := Built.child_path parent_path (LargeNodeStructure.test_name x))
    in *.
  set (full := map (fun y => (LargeNodeStructure.test_name y, Large.leaf pth y))
                 (seq 0 10)) in *.
  split; [reflexivity|]. split; [reflexivity|].
  split.
  { rewrite placed_eq.
    cbn [Node.with_children Node.fresh Node.path Node.children].
    apply forallb_forall. intros km Hin.
    apply (Permutation_in _ Hperm) in Hin. unfold full in Hin.
    apply in_map_iff in Hin. destruct Hin as (y & <- & _).
    cbn [fst snd Large.leaf Node.fresh Node.name Node.path Node.children
         Built.placed forallb].
    rewrite !String.eqb_refl. reflexivity. }
  split.
  { assert (E : map LargeNodeStructure.test_name (seq 0 10) = Dict.keys full)
      by (unfold full, Dict.keys; rewrite map_map; reflexivity).
    rewrite E. apply Permutation_map, Hperm. }
  intros y Hy.
  rewrite (lookup_perm _ full leaves); [| reflexivity | exact (Permutation_sym Hperm)].
  apply lookup_in; [reflexivity|]. unfold full.
  apply in_map_iff. exists y. split; [reflexivity|].
  apply in_seq. lia.
Qed.

(** X24.  [start] of the example link adds nine nodes [Test0] to
    [Test8] to the children of the super root, provided that none of the
    nine names is taken: each is found under its name, has the path of
    its place, the default config, and as children exactly ten nodes
    [Test0] to [Test9], each found under its name with the path of its
    place; the children that the super root had are kept, and so are its
    config, attributes and path; the link is marked as changed.  The
    order in which any of these children iterate is left open.  The
    children of a new node are added before the node is attached, so the
    open streams of the super root receive nine messages and not
    ninety-nine, and none unless the super root is standalone or the link
    active.  If one of the nine names is taken, [start] raises
    [ValueError]. *)
Theorem start_builds (rehash : dict Node.t -> dict Node.t)
  (super_root : Node.t) (link : DSLink.t) :
  Dict.arrangement rehash ->
  if existsb
       (fun x => Node.has_child (LargeNodeStructure.test_name x) super_root)
       (seq 0 9)
  then fst (fst (LargeNodeStructure.start rehash super_root link))
       = Py.Raise Py.ValueError
  else
    exists branches root' link',
      LargeNodeStructure.start rehash super_root link
      = (Py.Ok tt, root', link') /\
      Permutation (Node.children root')
        (Node.children super_root ++ branches) /\
      Dict.keys branches = map LargeNodeStructure.test_name (seq 0 9) /\
      (forall x b,
         In (LargeNodeStructure.test_name x, b) branches ->
         Dict.lookup (LargeNodeStructure.test_name x) (Node.children root')
         = Some b /\
         Node.name b = LargeNodeStructure.test_name x /\
         Node.path b
         = Built.child_path (Node.path super_root)
             (LargeNodeStructure.test_name x) /\
         Node.config b = [("$is", JStr "node")] /\
         Built.placed b = true /\
         Permutation (Dict.keys (Node.children b))
           (map LargeNodeStructure.test_name (seq 0 10)) /\
         forall y, y < 10 ->
           Dict.lookup (LargeNodeStructure.test_name y) (Node.children b)
           = Some (Large.leaf (Node.path b) y)) /\
      Node.config root' = Node.config super_root /\
      Node.attributes root' = Node.attributes super_root /\
      Node.path root' = Node.path super_root /\
      DSLink.nodes_changed link' = true /\
      List.length (DSLink.wsp link')
      = List.length (DSLink.wsp link) +
        (if Node.standalone super_root || DSLink.active link
         then match Node.streams super_root with
              | [] => 0
              | _ :: _ => 9
              end
         else 0).
Proof.
  intros Hr.
  destruct (existsb _ (seq 0 9)) eqn:H.
  - apply add_firsts_taken; [exact Hr|exact H].
  - assert (Hfree : forall x, In x (seq 0 9) ->
              Node.has_child (LargeNodeStructure.test_name x) super_root = false).
    { intros x Hin. apply not_true_is_false. intros Hx.
      assert (G : existsb
                    (fun x => Node.has_child (LargeNodeStructure.test_name x)
                                super_root) (seq 0 9) = true)
        by (apply existsb_exists; exists x; split; assumption).
      rewrite G in H. discriminate. }
    destruct (add_firsts_built rehash (seq 0 9) super_root link Hr eq_refl Hfree)
      as (branches & root' & link' & E & Hch & Hall & Hco & Hat & Hp & _ & _ & _
          & Hnc & Hw).
    exists branches, root', link'. split; [exact E|]. split; [exact Hch|].
    assert (Hkeys : Dict.keys branches
                    = map LargeNodeStructure.test_name (seq 0 9)).
    { clear - Hall. induction Hall as [|x kb xs bs [Hk _] _ IH]; [reflexivity|].
      cbn [Dict.keys map]. rewrite Hk. f_equal. exact IH. }
    split; [exact Hkeys|].
    split.
    { intros x b Hin.
      destruct (paired_right _ _ _ _ Hall Hin) as (x' & Hx' & Hk & Hb).
      cbn [fst snd] in Hk, Hb.
      pose proof (is_branch_name _ _ _ Hb) as Hname.
      destruct (is_branch_placed _ _ _ Hb) as (Pp & Pc & Ppl & Pk & Pl).
      rewrite <- Hk in Hname, Pp.
      split.
      - apply lookup_only.
        + intros b' Hin'. apply (Permutation_in _ Hch) in Hin'.
          apply in_app_or in Hin'. destruct Hin' as [Hin'|Hin'].
          * apply in_mem in Hin'.
            assert (Hx : In x' (seq 0 9)) by exact Hx'.
            pose proof (Hfree x' Hx) as Hf. unfold Node.has_child in Hf.
            rewrite <- Hk in Hf. congruence.
          * assert (Hdb : Tree.distinct (Dict.keys branches) = true)
              by (rewrite Hkeys; reflexivity).
            apply (lookup_in _ _ _ Hdb) in Hin, Hin'. congruence.
        + apply (Permutation_in _ (Permutation_sym Hch)).
          apply in_or_app. right. exact Hin.
      - repeat split; assumption. }
    repeat split; assumption.
Qed.

Lemma start_builds_witness :
  Dict.arrangement (@rev (string * Node.t)) /\
  exists branches root' link',
    LargeNodeStructure.start (@rev _) Roots.farm Sample.link
    = (Py.Ok tt, root', link') /\
    Permutation (Node.children root') (Node.children Roots.farm ++ branches) /\
    Dict.keys branches = map LargeNodeStructure.test_name (seq 0 9) /\
    (forall x b,
       In (LargeNodeStructure.test_name x, b) branches ->
       Dict.lookup (LargeNodeStructure.test_name x) (Node.children root')
       = Some b /\
       Node.name b = LargeNodeStructure.test_name x /\
       Node.path b
       = Built.child_path (Node.path Roots.farm)
           (LargeNodeStructure.test_name x) /\
       Node.config b = [("$is", JStr "node")] /\
       Built.placed b = true /\
       Permutation (Dict.keys (Node.children b))
         (map LargeNodeStructure.test_name (seq 0 10)) /\
       forall y, y < 10 ->
         Dict.lookup (LargeNodeStructure.test_name y) (Node.children b)
         = Some (Large.leaf (Node.path b) y)) /\
    Node.config root' = Node.config Roots.farm /\
    Node.attributes root' = Node.attributes Roots.farm /\
    Node.path root' = Node.path Roots.farm /\
    DSLink.nodes_changed link' = true /\
    List.length (DSLink.wsp link') = List.length (DSLink.wsp Sample.link).
Proof.
  split; [exact rev_arranges|].
  exact (start_builds (@rev _) Roots.farm Sample.link rev_arranges).
Defined.
